(** * Satellite imagery dashboard: registries, compositor, index evaluator
      and yearly series

    A shallow embedding of [app.py] and [pages/graph.py].

    Python values are modelled as follows.
    - [int] is [Z]; the [float] inputs of the dashboard (longitude,
      latitude, reflectances) are rationals [Q], which every finite float
      is; [-0.0] and [0.0] both read as the rational [0], as they compare
      equal in Python.
    - a [dict] literal whose order is observable ([list(d.keys())]) is an
      association list; a [dict] used as a map is a [gmap].
    - a raised exception is the [Raise] case of [result].
    - objects of the Earth Engine client ([ee.Image], [ee.ImageCollection])
      are descriptions of a computation carried out by the service when a
      value is requested ([getInfo]); they are values of type [ee A]. *)

From Stdlib Require Import ZArith QArith Qround String Ascii List Bool Sorted Lia.
From stdpp Require Import base option list gmap strings pretty.
Import ListNotations.

Local Open Scope string_scope.
Local Open Scope Z_scope.

(** ** Exceptions *)

Inductive exn : Type :=
| KeyError (key : string)
| IndexError
| UnboundLocalError (name : string)
| ValueError
| TypeError
| EEException (msg : string).

Inductive result (A : Type) : Type :=
| Ok (a : A)
| Raise (e : exn).
Arguments Ok {A} a.
Arguments Raise {A} e.

Definition rbind {A B : Type} (r : result A) (k : A -> result B) : result B :=
  match r with
  | Ok a => k a
  | Raise e => Raise e
  end.

Notation "'let!' x ':=' r 'in' k" := (rbind r (fun x => k))
  (at level 10, x name, r at level 100, k at level 200).

Definition is_ok {A : Type} (r : result A) : bool :=
  match r with Ok _ => true | Raise _ => false end.

(** [d[k]] on a dict literal. *)
Fixpoint dict_get {V : Type} (d : list (string * V)) (k : string) : result V :=
  match d with
  | [] => Raise (KeyError k)
  | (k', v) :: d' => if String.eqb k' k then Ok v else dict_get d' k
  end.

(** [list(d.keys())]. *)
Definition keys {V : Type} (d : list (string * V)) : list string := map fst d.

(** [l[i]] for a non-negative literal [i]. *)
Definition list_get {A : Type} (l : list A) (i : nat) : result A :=
  match nth_error l i with
  | Some x => Ok x
  | None => Raise IndexError
  end.

(** [traverse] for [result]: the first failure wins. *)
Fixpoint mapM {A B : Type} (f : A -> result B) (l : list A) : result (list B) :=
  match l with
  | [] => Ok []
  | x :: l' =>
      let! y := f x in
      let! ys := mapM f l' in
      Ok (y :: ys)
  end.

(** ** Dataset registry ([datasets] in app.py)

    The optional keys ['cloud_mask_band'] and ['cloud_mask_value'] are
    [None] where the dict literal has no such key; subscripting them then
    raises [KeyError]. *)

Record dataset : Type := {
  collection : string;
  cloud_mask_band : option string;
  cloud_mask_value : option Z;
  bands : list string;
  year_range : list Z
}.

Definition datasets : list (string * dataset) := [
  ("Sentinel-2", {|
     collection := "COPERNICUS/S2_SR_HARMONIZED";
     cloud_mask_band := None;
     cloud_mask_value := None;
     bands := ["B4"; "B3"; "B2"; "B8"; "B5"];
     year_range := [2019; 2023] |});
  ("Landsat-5", {|
     collection := "LANDSAT/LT05/C02/T1_L2";
     cloud_mask_band := Some "QA_PIXEL";
     cloud_mask_value :=
       Some (Z.lor (Z.lor (Z.shiftl 1 1) (Z.shiftl 1 3)) (Z.shiftl 1 4));
     bands := ["SR_B3"; "SR_B2"; "SR_B1"; "SR_B4"; "SR_B3"];
     year_range := [1985; 2011] |});
  ("Landsat-7", {|
     collection := "LANDSAT/LE07/C02/T1_L2";
     cloud_mask_band := Some "QA_PIXEL";
     cloud_mask_value :=
       Some (Z.lor (Z.lor (Z.lor (Z.shiftl 1 1) (Z.shiftl 1 3)) (Z.shiftl 1 4))
               (Z.shiftl 1 5));
     bands := ["SR_B3"; "SR_B2"; "SR_B1"; "SR_B4"; "SR_B3"];
     year_range := [2000; 2023] |});
  ("Landsat-8", {|
     collection := "LANDSAT/LC08/C02/T1_L2";
     cloud_mask_band := Some "QA_PIXEL";
     cloud_mask_value :=
       Some (Z.lor (Z.lor (Z.lor (Z.lor (Z.shiftl 1 1) (Z.shiftl 1 2))
                             (Z.shiftl 1 3)) (Z.shiftl 1 4)) (Z.shiftl 1 5));
     bands := ["SR_B4"; "SR_B3"; "SR_B2"; "SR_B5"; "SR_B4"];
     year_range := [2014; 2023] |});
  ("MODIS", {|
     collection := "MODIS/006/MOD09GA";
     cloud_mask_band := Some "state_1km";
     cloud_mask_value := Some (Z.lor (Z.shiftl 1 10) (Z.shiftl 1 11));
     bands := ["sur_refl_b01"; "sur_refl_b04"; "sur_refl_b03";
               "sur_refl_b02"; "sur_refl_b01"];
     year_range := [2001; 2022] |})
].

(** [datasets[dataset]['cloud_mask_band']] and
    [datasets[dataset]['cloud_mask_value']]. *)
Definition get_cloud_mask_band (d : dataset) : result string :=
  match cloud_mask_band d with
  | Some b => Ok b
  | None => Raise (KeyError "cloud_mask_band")
  end.

Definition get_cloud_mask_value (d : dataset) : result Z :=
  match cloud_mask_value d with
  | Some v => Ok v
  | None => Raise (KeyError "cloud_mask_value")
  end.

(** ** Index registry ([indexes] in app.py) *)

Definition indexes : list (string * string) := [
  ("NDVI", "(NIR - RED) / (NIR + RED)");
  ("EVI", "2.5 * ((NIR - RED) / (NIR + 6 * RED - 7.5 * BLUE + 1))");
  ("SAVI", "((NIR - RED) / (NIR + RED + L)) * (1 + L)");
  ("NDWI", "(GREEN - NIR) / (GREEN + NIR)");
  ("GNDVI", "(NIR - GREEN) / (NIR + GREEN)");
  ("NDRE", "(NIR - RED_EDGE) / (NIR + RED_EDGE)");
  ("MSAVI2",
   "(2 * NIR + 1 - sqrt(pow((2 * NIR + 1), 2) - 8 * (NIR - RED)) ) / 2");
  ("ARVI", "(NIR - (2 * RED - BLUE)) / (NIR + (2 * RED - BLUE))");
  ("PRI", "(RED - BLUE) / (RED + BLUE)");
  ("WBI", "NIR / GREEN")
].

(** ** Index formulas

    A formula is the text handed to [ee.Image.expression]; the service reads
    it as an arithmetic expression over named operands with the operators
    [+ - * /] (the usual precedences, left associative), parentheses and
    the functions [sqrt] and [pow]. *)

Inductive expr : Type :=
| Num (q : Q)
| Var (x : string)
| Add (a b : expr)
| Sub (a b : expr)
| Mul (a b : expr)
| Div (a b : expr)
| Sqrt (a : expr)
| Pow (a b : expr).

Inductive token : Type :=
| TNum (q : Q)
| TId (x : string)
| TLParen
| TRParen
| TComma
| TPlus
| TMinus
| TStar
| TSlash.

(** The word being read by the lexer. *)
Inductive pending : Type :=
| PNone
| PIdent (x : string)
| PInt (n : Z)
| PFrac (n : Z) (scale : positive).

Definition flush (p : pending) : list token :=
  match p with
  | PNone => []
  | PIdent x => [TId x]
  | PInt n => [TNum (inject_Z n)]
  | PFrac n k => [TNum (n # k)]
  end.

Definition is_digit (c : ascii) : bool :=
  let n := nat_of_ascii c in (48 <=? n)%nat && (n <=? 57)%nat.

Definition digit_val (c : ascii) : Z := Z.of_nat (nat_of_ascii c) - 48.

Definition is_letter (c : ascii) : bool :=
  let n := nat_of_ascii c in
  ((65 <=? n)%nat && (n <=? 90)%nat) || ((97 <=? n)%nat && (n <=? 122)%nat)
  || (n =? 95)%nat.

Definition punct (c : ascii) : option (list token) :=
  if Ascii.eqb c " " then Some []
  else if Ascii.eqb c "(" then Some [TLParen]
  else if Ascii.eqb c ")" then Some [TRParen]
  else if Ascii.eqb c "," then Some [TComma]
  else if Ascii.eqb c "+" then Some [TPlus]
  else if Ascii.eqb c "-" then Some [TMinus]
  else if Ascii.eqb c "*" then Some [TStar]
  else if Ascii.eqb c "/" then Some [TSlash]
  else None.

Fixpoint lex (s : string) (p : pending) : option (list token) :=
  match s with
  | EmptyString => Some (flush p)
  | String c s' =>
      if is_digit c then
        match p with
        | PNone => lex s' (PInt (digit_val c))
        | PInt n => lex s' (PInt (10 * n + digit_val c))
        | PFrac n k => lex s' (PFrac (10 * n + digit_val c) (10 * k))
        | PIdent x => lex s' (PIdent (x ++ String c EmptyString))
        end
      else if is_letter c then
        match p with
        | PNone => lex s' (PIdent (String c EmptyString))
        | PIdent x => lex s' (PIdent (x ++ String c EmptyString))
        | _ => None
        end
      else if Ascii.eqb c "." then
        match p with
        | PInt n => lex s' (PFrac n 1)
        | _ => None
        end
      else
        match punct c, lex s' PNone with
        | Some t, Some ts => Some (flush p ++ t ++ ts)%list
        | _, _ => None
        end
  end.

Definition parser : Type := list token -> option (expr * list token).

(** [a op b op c ...]: the operands are read by [sub], the operators are
    those [ops] knows. *)
Fixpoint chain (fuel : nat) (sub : parser)
    (ops : token -> option (expr -> expr -> expr))
    (acc : expr) (ts : list token) : option (expr * list token) :=
  match fuel with
  | O => None
  | S n =>
      match ts with
      | [] => Some (acc, [])
      | t :: r =>
          match ops t with
          | None => Some (acc, ts)
          | Some mk =>
              match sub r with
              | Some (b, r') => chain n sub ops (mk acc b) r'
              | None => None
              end
          end
      end
  end.

Definition add_ops (t : token) : option (expr -> expr -> expr) :=
  match t with
  | TPlus => Some Add
  | TMinus => Some Sub
  | _ => None
  end.

Definition mul_ops (t : token) : option (expr -> expr -> expr) :=
  match t with
  | TStar => Some Mul
  | TSlash => Some Div
  | _ => None
  end.

Fixpoint parse_expr (fuel : nat) (ts : list token) : option (expr * list token) :=
  match fuel with
  | O => None
  | S n =>
      let factor : parser := fun ts =>
        match ts with
        | TNum q :: r => Some (Num q, r)
        | TId f :: TLParen :: r =>
            match parse_expr n r with
            | Some (a, TRParen :: r') =>
                if String.eqb f "sqrt" then Some (Sqrt a, r') else None
            | Some (a, TComma :: r') =>
                match parse_expr n r' with
                | Some (b, TRParen :: r'') =>
                    if String.eqb f "pow" then Some (Pow a b, r'') else None
                | _ => None
                end
            | _ => None
            end
        | TId x :: r => Some (Var x, r)
        | TLParen :: r =>
            match parse_expr n r with
            | Some (a, TRParen :: r') => Some (a, r')
            | _ => None
            end
        | _ => None
        end in
      let term : parser := fun ts =>
        match factor ts with
        | Some (a, r) => chain n factor mul_ops a r
        | None => None
        end in
      match term ts with
      | Some (a, r) => chain n term add_ops a r
      | None => None
      end
  end.

Definition parse (formula : string) : option expr :=
  match lex formula PNone with
  | None => None
  | Some ts =>
      match parse_expr (S (length ts)) ts with
      | Some (e, []) => Some e
      | _ => None
      end
  end.

(** The operands a formula names. *)
Fixpoint vars (e : expr) : list string :=
  match e with
  | Num _ => []
  | Var x => [x]
  | Add a b | Sub a b | Mul a b | Div a b | Pow a b => (vars a ++ vars b)%list
  | Sqrt a => vars a
  end.

(** ** Regions, images and the imagery service

    The Earth Engine client and the service behind it are not part of the
    repository.  Their operations are modelled after their documented
    behaviour, as far as the two pages use them, over a finite grid of
    cells: a band is a partial function from cells to numbers, an image a
    list of named bands with a footprint, an acquisition time and
    properties. *)

Definition polygon : Type := list (Q * Q).

(** A table read from a shapefile: one geometry per row. *)
Definition GeoDataFrame : Type := list polygon.

(** [ee.Geometry.Point([long, lat])] or the feature collection made from an
    uploaded table by [geemap.geopandas_to_ee]. *)
Inductive region : Type :=
| Point (long lat : Q)
| FeatureCollection (gdf : GeoDataFrame).

(** A pixel value; [None] is a masked (no-data) pixel. *)
Definition sample : Type := option Q.

(** A band over the cells of the working grid. *)
Definition raster : Type := nat -> sample.

Record image : Type := {
  footprint : polygon;
  time_start : Z;                       (* system:time_start, ms since epoch *)
  properties : list (string * Q);
  rasters : list (string * raster)      (* the bands, in order *)
}.

(** What the service knows and computes and this repository does not:
    the catalogue, the geometry predicates, the irrational functions. *)
Record service : Type := {
  ImageCollection : string -> list image;
  intersects : polygon -> region -> bool;
  cells : region -> list nat;
  ee_sqrt : Q -> sample;
  ee_pow : Q -> Q -> sample
}.

(** A value the service computes on request; the request fails with
    [EEException] where the description is ill-formed. *)
Definition ee (A : Type) : Type := result A.

Definition getInfo {A : Type} (x : ee A) : result A := x.

Definition set_rasters (im : image) (rs : list (string * raster)) : image :=
  {| footprint := footprint im; time_start := time_start im;
     properties := properties im; rasters := rs |}.

Definition map_bands (f : raster -> raster) (im : image) : image :=
  set_rasters im (map (fun br => (fst br, f (snd br))) (rasters im)).

Fixpoint assoc {V : Type} (d : list (string * V)) (k : string) : option V :=
  match d with
  | [] => None
  | (k', v) :: d' => if String.eqb k' k then Some v else assoc d' k
  end.

(** *** Dates

    A date string ['YYYY-MM-DD'] denotes midnight UTC of that day. *)

Record date : Type := { year_of : Z; month_of : Z; day_of : Z }.

Definition days_from_civil (d : date) : Z :=
  let y := if month_of d <=? 2 then year_of d - 1 else year_of d in
  let era := y / 400 in
  let yoe := y - era * 400 in
  let mp := if month_of d <=? 2 then month_of d + 9 else month_of d - 3 in
  let doy := (153 * mp + 2) / 5 + day_of d - 1 in
  let doe := yoe * 365 + yoe / 4 - yoe / 100 + doy in
  era * 146097 + doe - 719468.

Definition ms_per_day : Z := 86400000.

Definition millis (d : date) : Z := days_from_civil d * ms_per_day.

(** [f'{year}-01-01'] and [f'{year}-12-31']. *)
Definition jan_01 (year : Z) : date := {| year_of := year; month_of := 1; day_of := 1 |}.
Definition dec_31 (year : Z) : date := {| year_of := year; month_of := 12; day_of := 31 |}.

(** *** Collection filters *)

Definition filterBounds (sv : service) (geometry : region) (c : list image) : list image :=
  List.filter (fun im => intersects sv (footprint im) geometry) c.

(** [filterDate(start, end)]: [start] inclusive, [end] exclusive, on
    [system:time_start]. *)
Definition filterDate (start end_ : date) (c : list image) : list image :=
  List.filter (fun im => (millis start <=? time_start im) && (time_start im <? millis end_)) c.

(** [filter(ee.Filter.lt(name, value))]: images without the property do
    not pass. *)
Definition filter_lt (name : string) (value : Q) (c : list image) : list image :=
  List.filter (fun im =>
            match assoc (properties im) name with
            | Some x => negb (Qle_bool value x)
            | None => false
            end) c.

(** *** Per-pixel operations *)

Definition select (band : string) (im : image) : ee image :=
  match assoc (rasters im) band with
  | Some r => Ok (set_rasters im [(band, r)])
  | None => Raise (EEException "Image.select: pattern did not match any bands")
  end.

Definition bitwiseAnd (v : Z) (im : image) : image :=
  map_bands (fun r i => option_map (fun q => inject_Z (Z.land (Qfloor q) v)) (r i)) im.

Definition eq_ (v : Q) (im : image) : image :=
  map_bands (fun r i => option_map (fun q => if Qeq_bool q v then 1%Q else 0%Q) (r i)) im.

(** A pixel stays valid where the mask is valid and not zero. *)
Definition mask_raster (m r : raster) : raster :=
  fun i =>
    match m i with
    | Some q => if Qeq_bool q 0 then None else r i
    | None => None
    end.

Definition updateMask (mask : image) (im : image) : ee image :=
  match rasters mask with
  | (_, m) :: _ => Ok (map_bands (mask_raster m) im)
  | [] => Raise (EEException "Image.updateMask: mask has no bands")
  end.

Definition clip (sv : service) (geometry : region) (im : image) : image :=
  map_bands (fun r i => if existsb (Nat.eqb i) (cells sv geometry) then r i else None) im.

(** *** Median composite *)

Fixpoint insert_sorted (x : Q) (l : list Q) : list Q :=
  match l with
  | [] => [x]
  | y :: l' => if Qle_bool x y then x :: l else y :: insert_sorted x l'
  end.

Definition sort_q (l : list Q) : list Q := fold_right insert_sorted [] l.

Definition median_q (l : list Q) : sample :=
  let s := sort_q l in
  let n := length s in
  match n with
  | O => None
  | _ =>
      if Nat.odd n then nth_error s (n / 2)
      else
        match nth_error s (n / 2 - 1), nth_error s (n / 2) with
        | Some a, Some b => Some ((a + b) / 2)%Q
        | _, _ => None
        end
  end.

(** The valid values of band [b] at cell [i] over a stack of scenes. *)
Definition stack_values (c : list image) (b : string) (i : nat) : list Q :=
  omap (fun im => match assoc (rasters im) b with
                  | Some r => r i
                  | None => None
                  end) c.

(** [collection.median()]: the bands of the first scene, each the median of
    the valid pixels of the stack; no band at all for an empty collection. *)
Definition median (c : list image) : image :=
  {| footprint := []; time_start := 0; properties := [];
     rasters :=
       match c with
       | [] => []
       | first :: _ =>
           map (fun br => (fst br, fun i => median_q (stack_values c (fst br) i)))
               (rasters first)
       end |}.

(** *** Formula evaluation *)

Definition lift2 (f : Q -> Q -> Q) (x y : sample) : sample :=
  match x, y with
  | Some a, Some b => Some (f a b)
  | _, _ => None
  end.

(** Modelled from the spec: the division of the service's evaluator, which
    is not part of this repository. Section 6, contract (b), and section
    4.5: a division by zero leaves the pixel undefined (no-data) and raises
    nothing. *)
Definition div_q (x y : sample) : sample :=
  match x, y with
  | Some a, Some b => if Qeq_bool b 0 then None else Some (a / b)%Q
  | _, _ => None
  end.

(** Modelled from the spec: the per-pixel evaluator of
    [ee.Image.expression], which is the service's and not part of this
    repository. Section 6, contract (b): standard arithmetic per pixel. A
    pixel is undefined as soon as one operand is; square roots and powers
    are the service's [ee_sqrt] and [ee_pow]. *)
Fixpoint eval (sv : service) (env : string -> sample) (e : expr) : sample :=
  match e with
  | Num q => Some q
  | Var x => env x
  | Add a b => lift2 Qplus (eval sv env a) (eval sv env b)
  | Sub a b => lift2 Qminus (eval sv env a) (eval sv env b)
  | Mul a b => lift2 Qmult (eval sv env a) (eval sv env b)
  | Div a b => div_q (eval sv env a) (eval sv env b)
  | Sqrt a =>
      match eval sv env a with
      | Some x => ee_sqrt sv x
      | None => None
      end
  | Pow a b =>
      match eval sv env a, eval sv env b with
      | Some x, Some y => ee_pow sv x y
      | _, _ => None
      end
  end.

(** An entry of the map given to [expression]. *)
Inductive operand : Type :=
| OImage (im : ee image)
| ONumber (q : Q).

Definition operand_raster (o : operand) : ee raster :=
  match o with
  | OImage x =>
      let! im := x in
      match rasters im with
      | (_, r) :: _ => Ok r
      | [] => Raise (EEException "Image.expression: operand has no bands")
      end
  | ONumber q => Ok (fun _ => Some q)
  end.

(** The pixel environment: the operands of the map at cell [i]. *)
Definition pixel_env (renv : list (string * raster)) (i : nat) : string -> sample :=
  fun x =>
    match assoc renv x with
    | Some r => r i
    | None => None
    end.

Definition bound (renv : list (string * raster)) (x : string) : bool :=
  match assoc renv x with
  | Some _ => true
  | None => false
  end.

(** [image.expression(formula, map)]: one band; its name before [rename]
    is that of the first band of [image]. *)
Definition expression (sv : service) (formula : string)
    (env : list (string * operand)) (im : image) : ee image :=
  match parse formula with
  | None => Raise (EEException "Image.expression: parse error")
  | Some e =>
      let! renv := mapM (fun kv => let! r := operand_raster (snd kv) in Ok (fst kv, r)) env in
      if forallb (bound renv) (vars e) then
        Ok (set_rasters im
              [(match rasters im with (b, _) :: _ => b | [] => "constant" end,
                fun i => eval sv (pixel_env renv i) e)])
      else Raise (EEException "Image.expression: unbound operand")
  end.

Definition rename (name : string) (im : image) : ee image :=
  match rasters im with
  | [(_, r)] => Ok (set_rasters im [(name, r)])
  | _ => Raise (EEException "Image.rename: band count mismatch")
  end.

(** *** Zonal statistics

    [reduceRegion] with the reducers mean, minMax and stdDev combined: for
    a band [b] the keys [b_mean], [b_min], [b_max], [b_stdDev], computed
    over the valid pixels of the region (section 4.5: undefined pixels are
    excluded); a key holds [None] where there is no valid pixel. *)

Definition region_values (sv : service) (geometry : region) (r : raster) : list Q :=
  omap r (cells sv geometry).

Definition sum_q (l : list Q) : Q := fold_right Qplus 0%Q l.

Definition count_q (l : list Q) : Q := inject_Z (Z.of_nat (length l)).

Definition mean_q (l : list Q) : sample :=
  match l with
  | [] => None
  | _ => Some (sum_q l / count_q l)%Q
  end.

Definition min_q (l : list Q) : sample :=
  match l with
  | [] => None
  | x :: l' => Some (fold_right (fun a b => if Qle_bool a b then a else b) x l')
  end.

Definition max_q (l : list Q) : sample :=
  match l with
  | [] => None
  | x :: l' => Some (fold_right (fun a b => if Qle_bool a b then b else a) x l')
  end.

Definition stdDev_q (sv : service) (l : list Q) : sample :=
  match mean_q l with
  | None => None
  | Some m => ee_sqrt sv (sum_q (map (fun x => (x - m) * (x - m))%Q l) / count_q l)%Q
  end.

Definition band_stats (sv : service) (geometry : region) (br : string * raster)
    : list (string * sample) :=
  let vs := region_values sv geometry (snd br) in
  [(fst br ++ "_mean", mean_q vs);
   (fst br ++ "_min", min_q vs);
   (fst br ++ "_max", max_q vs);
   (fst br ++ "_stdDev", stdDev_q sv vs)].

Definition reduceRegion (sv : service) (geometry : region) (im : image)
    : list (string * sample) :=
  flat_map (band_stats sv geometry) (rasters im).

(** *** Deferred values *)

Definition ee_map {A B : Type} (f : A -> B) (x : ee A) : ee B :=
  let! a := x in Ok (f a).

(** The image a mapped function is recorded on. *)
Definition placeholder : image :=
  {| footprint := []; time_start := 0; properties := []; rasters := [] |}.

(** [collection.map(f)]: the client calls [f] once, on a placeholder, to
    record the computation, and an exception [f] raises is raised there;
    the service applies the recorded computation to every image. *)
Definition collection_map (f : ee image -> result (ee image))
    (c : ee (list image)) : result (ee (list image)) :=
  let! _ := f (Ok placeholder) in
  Ok (let! l := c in
      mapM (fun im => match f (Ok im) with Ok r => r | Raise e => Raise e end) l).

(** ** What a run of a page shows and requests

    A run of a page script is a computation that appends to a trace of
    events and ends normally or with an exception.  The events are the
    outputs shown to the user and the blocking requests to the service;
    the static layout ([st.columns], [st.markdown], the navigation bar) is
    left out, and of the drawing of a figure only what can raise is kept. *)

Record vis_params : Type := {
  vis_bands : list string;
  vis_min : Z;
  vis_max : Z;
  vis_gamma : option Q;
  vis_palette : list string
}.

Inductive figure : Type :=
| BarChart (title : string) (labels : list string) (values : list sample)
| LineChart (title : string) (xs : list Z) (lines : list (string * list sample)).

Inductive cell : Type :=
| CInt (n : Z)
| CStr (s : string)
| CNum (v : sample).

(** A [pandas.DataFrame]: its columns, in order. *)
Definition DataFrame : Type := list (string * list cell).

Inductive event : Type :=
| StError (msg : string)
| StImage (caption : string)
| StPyplot (fig : figure)
| StSubheader (text : string)
| StWrite (label : string) (v : sample)
| StWriteTable (df : DataFrame)
| MapCenterObject (geometry : region) (zoom : Z)
| MapAddLayer (im : ee image) (vis : vis_params) (name : string)
| MapAddGdf (gdf : GeoDataFrame) (name : string)
| MapToStreamlit (height : Z)
| GetInfo (satellite index_name : string) (year : Z) (geometry : region) (clip_ : bool).

Definition ui (A : Type) : Type := list event -> result A * list event.

Definition ret {A : Type} (a : A) : ui A := fun t => (Ok a, t).

Definition bind {A B : Type} (m : ui A) (k : A -> ui B) : ui B :=
  fun t =>
    match m t with
    | (Ok a, t') => k a t'
    | (Raise e, t') => (Raise e, t')
    end.

Definition emit (e : event) : ui unit := fun t => (Ok tt, (t ++ [e])%list).

Definition lift {A : Type} (r : result A) : ui A := fun t => (r, t).

Notation "'do!' x ':=' m 'in' k" := (bind m (fun x => k))
  (at level 10, x name, m at level 100, k at level 200).
Notation "m ';;' k" := (bind m (fun _ => k))
  (at level 100, k at level 200, right associativity).

(** The outcome and the trace of a run from an empty page. *)
Definition run {A : Type} (m : ui A) : result A * list event := m [].

(** Reading a local variable that may not have been assigned. *)
Definition local {A : Type} (name : string) (v : option A) : result A :=
  match v with
  | Some a => Ok a
  | None => Raise (UnboundLocalError name)
  end.

(** ** The map and the charts

    [Map.addLayer] and [Map.centerObject] of geemap.foliumap ask the service
    before they draw: [addLayer] for the tiles of the image ([getMapId]),
    [centerObject], called with a zoom, for the centroid of the region
    ([centroid().getInfo()]).  Both are blocking requests; the events
    [MapAddLayer] and [MapCenterObject] mark the calls.  The centroid of a
    point, and of the features of a table that is not empty, is defined, so
    the description sent by [centerObject] is never ill-formed. *)

(** [image.getMapId(vis_params)]: the request raises the exception of the
    description of the image where it is ill-formed, and an [EEException]
    where a band to show is not a band of the image; the layers of the page
    show named bands, or a one-band image through a palette. *)
Definition getMapId (im : ee image) (vis : vis_params) : result unit :=
  let! i := im in
  if forallb (bound (rasters i)) (vis_bands vis) then Ok tt
  else Raise (EEException "Image.visualize: no band of that name").

Definition addLayer (im : ee image) (vis : vis_params) (name : string) : ui unit :=
  emit (MapAddLayer im vis name);;
  lift (getMapId im vis).

Definition centerObject (geometry : region) (zoom : Z) : ui unit :=
  emit (MapCenterObject geometry zoom).

(** The statistic is a number, not [None]. *)
Definition is_number (v : sample) : bool :=
  match v with
  | Some _ => true
  | None => false
  end.

(** [ax.bar(labels, values)]: matplotlib adds the heights to the baseline,
    which raises [TypeError] where a value is [None]. *)
Definition bar (title : string) (labels : list string) (values : list sample)
    : result figure :=
  if forallb is_number values then Ok (BarChart title labels values)
  else Raise TypeError.

(** ** The region of interest (both pages)

    The sidebar of app.py and of pages/graph.py is the same code: two
    number inputs, defaulting to 0.0, and an optional zipped shapefile. *)

(** [coordinates], after [if long != 0 and lat != 0:] (app.py, lines
    176-181; pages/graph.py, lines 60-65). *)
Definition coordinates (long lat : Q) : option region :=
  if negb (Qeq_bool long 0) && negb (Qeq_bool lat 0)
  then Some (Point long lat)
  else None.

(** An uploaded archive once extracted: what [os.walk] yields (the root
    and the files of each directory) and what [gpd.read_file] reads. *)
Record archive : Type := {
  walk : list (string * list string);
  read_file : string -> GeoDataFrame
}.

(** [file.endswith(suffix)] *)
Definition endswith (file suffix : string) : bool :=
  let n := String.length file in
  let k := String.length suffix in
  (k <=? n)%nat && String.eqb (substring (n - k) k file) suffix.

(** The inner loop: the first [.shp] of a directory, then [break]. *)
Fixpoint first_shp (root : string) (files : list string) : option string :=
  match files with
  | [] => None
  | file :: files' =>
      if endswith file ".shp" then Some (root +:+ "/" +:+ file)
      else first_shp root files'
  end.

(** The outer loop is not left by the [break]: a later directory with a
    [.shp] overrides an earlier one. *)
Definition find_shapefile (w : list (string * list string)) : option string :=
  fold_left (fun shapefile_path rf =>
               match first_shp (fst rf) (snd rf) with
               | Some path => Some path
               | None => shapefile_path
               end) w None.

(** [gdf.empty] *)
Definition empty (gdf : GeoDataFrame) : bool :=
  match gdf with
  | [] => true
  | _ => false
  end.

(** The block [if uploaded_shp_file is not None:] (app.py, lines 188-224;
    pages/graph.py, lines 72-93). It yields [roi] and the local [gdf]
    (unassigned where no branch assigned it); app.py also shows the plot of
    the table ([plot = true]). *)
Definition upload (plot : bool) (uploaded_shp_file : option archive)
    : ui (option region * option GeoDataFrame) :=
  match uploaded_shp_file with
  | None => ret (None, None)
  | Some zip_ref =>
      let shapefile_path := find_shapefile (walk zip_ref) in
      do! gdf :=
        match shapefile_path with
        | Some path =>
            let gdf := read_file zip_ref path in
            (if plot then emit (StImage "Geopandas Plot") else ret tt);;
            ret (Some gdf)
        | None =>
            emit (StError "Shapefile (.shp) not found in the uploaded zip file.");;
            ret None
        end in
      do! g := lift (local "gdf" gdf) in
      if negb (empty g) then ret (Some (FeatureCollection g), gdf)
      else ret (None, gdf)
  end.

(** ** app.py *)

Module App.

(** [mask_clouds(image, dataset)] (app.py, lines 77-81) *)
Definition mask_clouds (image_ : ee image) (dataset_ : string) : result (ee image) :=
  let! d := dict_get datasets dataset_ in
  let! cloud_mask_band := get_cloud_mask_band d in
  let! d := dict_get datasets dataset_ in
  let! cloud_mask_value := get_cloud_mask_value d in
  let cloud_mask :=
    ee_map (eq_ 0) (ee_map (bitwiseAnd cloud_mask_value)
                           (rbind image_ (select cloud_mask_band))) in
  Ok (let! m := cloud_mask in
      let! im := image_ in
      updateMask m im).

(** [get_filtered_images(satellite, year, region)] (app.py, lines 85-96) *)
Definition get_filtered_images (sv : service) (satellite : string) (year : Z)
    (region_ : region) : result (ee (list image)) :=
  let! dataset_ := dict_get datasets satellite in
  let collection_ : ee (list image) := Ok (ImageCollection sv (collection dataset_)) in
  let filtered_images :=
    ee_map (filterDate (jan_01 year) (dec_31 year))
           (ee_map (filterBounds sv region_) collection_) in
  if String.eqb satellite "Sentinel-2" then
    Ok (ee_map (filter_lt "SNOW_ICE_PERCENTAGE" 20)
               (ee_map (filter_lt "CLOUDY_PIXEL_PERCENTAGE" 20) filtered_images))
  else
    collection_map (fun image_ => mask_clouds image_ satellite) filtered_images.

(** [add_rgb_layer_to_map(m, satellite, year, region, brightness, clip,
    gamma)] (app.py, lines 100-118); [clip] is [None] or a boolean, tested
    for truth. *)
Definition add_rgb_layer_to_map (sv : service) (satellite : string) (year : Z)
    (region_ : region) (brightness : Z) (clip_ : option bool) (gamma : Q) : ui unit :=
  do! filtered_images := lift (get_filtered_images sv satellite year region_) in
  let median_image := ee_map median filtered_images in
  let median_image :=
    match clip_ with
    | Some true => ee_map (clip sv region_) median_image
    | _ => median_image
    end in
  do! rgb_bands :=
    lift (mapM (fun i => let! d := dict_get datasets satellite in list_get (bands d) i)
               [0; 1; 2]%nat) in
  let vis := {| vis_bands := rgb_bands; vis_min := 0; vis_max := brightness * 1000;
                vis_gamma := Some gamma; vis_palette := [] |} in
  addLayer median_image vis (satellite +:+ " " +:+ pretty year +:+ " RGB");;
  centerObject region_ 10.

(** [calc_index(satellite, index_name, year, region, clip)] (app.py, lines
    122-155); the event [GetInfo] marks the blocking [getInfo()]. *)
Definition calc_index (sv : service) (satellite index_name : string) (year : Z)
    (region_ : region) (clip_ : bool) : ui (ee image * list (string * sample)) :=
  do! filtered_images := lift (get_filtered_images sv satellite year region_) in
  let image_ := ee_map median filtered_images in
  do! red_band := lift (let! d := dict_get datasets satellite in list_get (bands d) 0) in
  do! blue_band := lift (let! d := dict_get datasets satellite in list_get (bands d) 1) in
  do! green_band := lift (let! d := dict_get datasets satellite in list_get (bands d) 2) in
  do! nir_band := lift (let! d := dict_get datasets satellite in list_get (bands d) 3) in
  do! red_edge_band := lift (let! d := dict_get datasets satellite in list_get (bands d) 4) in
  let image_ := if clip_ then ee_map (clip sv region_) image_ else image_ in
  do! formula := lift (dict_get indexes index_name) in
  let index :=
    rbind
      (rbind image_
         (expression sv formula
            [("RED", OImage (rbind image_ (select red_band)));
             ("BLUE", OImage (rbind image_ (select blue_band)));
             ("GREEN", OImage (rbind image_ (select green_band)));
             ("NIR", OImage (rbind image_ (select nir_band)));
             ("RED_EDGE", OImage (rbind image_ (select red_edge_band)));
             ("L", ONumber 0.5)]))
      (rename index_name) in
  emit (GetInfo satellite index_name year region_ clip_);;
  do! stats := lift (getInfo (ee_map (reduceRegion sv region_) index)) in
  ret (index, stats).

Record inputs : Type := {
  long : Q;
  lat : Q;
  uploaded_shp_file : option archive;
  sat : string;
  selected_year : Z;
  brightness : Z;
  gamma : Q;
  clip_toggle : bool;
  check_index : bool;
  index_name : string;
  main_color : string;
  mid_color : string;
  secondary_color : string
}.

(** [main()] (app.py, lines 158-287); the widgets' values are [inp]. *)
Definition main (sv : service) (inp : inputs) : ui unit :=
  let coordinates_ := coordinates (long inp) (lat inp) in
  do! up := upload true (uploaded_shp_file inp) in
  let roi := fst up in
  let gdf := snd up in
  (match coordinates_, roi with
   | Some c, None =>
       centerObject c 10;;
       add_rgb_layer_to_map sv (sat inp) (selected_year inp) c (brightness inp) None (gamma inp)
   | _, _ => ret tt
   end);;
  (match roi with
   | Some r =>
       centerObject r 10;;
       add_rgb_layer_to_map sv (sat inp) (selected_year inp) r (brightness inp)
                            (Some (clip_toggle inp)) (gamma inp);;
       (if check_index inp then
          do! res := calc_index sv (sat inp) (index_name inp) (selected_year inp) r
                                (clip_toggle inp) in
          let index_image := fst res in
          let stats := snd res in
          addLayer index_image
            {| vis_bands := []; vis_min := -1; vis_max := 1; vis_gamma := None;
               vis_palette := [secondary_color inp; mid_color inp; main_color inp] |}
            (index_name inp +:+ "," +:+ sat inp +:+ " " +:+ pretty (selected_year inp));;
          do! values := lift (mapM (fun suffix => dict_get stats (index_name inp +:+ suffix))
                                   ["_min"; "_mean"; "_max"; "_stdDev"]) in
          do! fig := lift (bar (index_name inp +:+ " Statistics")
                               ["Min"; "Mean"; "Max"; "Std Dev"] values) in
          emit (StPyplot fig);;
          emit (StSubheader (index_name inp +:+ " Statistics"));;
          do! v := lift (dict_get stats (index_name inp +:+ "_min")) in
          emit (StWrite "Min:" v);;
          do! v := lift (dict_get stats (index_name inp +:+ "_mean")) in
          emit (StWrite "Mean:" v);;
          do! v := lift (dict_get stats (index_name inp +:+ "_max")) in
          emit (StWrite "Max:" v);;
          do! v := lift (dict_get stats (index_name inp +:+ "_stdDev")) in
          emit (StWrite "Std Dev:" v)
        else ret tt);;
       do! g := lift (local "gdf" gdf) in
       emit (MapAddGdf g "polygon")
   | None => ret tt
   end);;
  emit (MapToStreamlit 600).

(** The same inputs with no file uploaded. *)
Definition without_upload (inp : inputs) : inputs :=
  {| long := long inp; lat := lat inp; uploaded_shp_file := None; sat := sat inp;
     selected_year := selected_year inp; brightness := brightness inp;
     gamma := gamma inp; clip_toggle := clip_toggle inp;
     check_index := check_index inp; index_name := index_name inp;
     main_color := main_color inp; mid_color := mid_color inp;
     secondary_color := secondary_color inp |}.

End App.

(** ** pages/graph.py *)

Module Graph.

(** [list(range(start, stop))] *)
Definition range (start stop : Z) : list Z :=
  map (fun k => start + Z.of_nat k) (seq 0 (Z.to_nat (stop - start))).

(** [str.lower()] on ASCII text. *)
Definition lower_ascii (c : ascii) : ascii :=
  let n := nat_of_ascii c in
  if (65 <=? n)%nat && (n <=? 90)%nat then ascii_of_nat (n + 32) else c.

Fixpoint lower (s : string) : string :=
  match s with
  | EmptyString => EmptyString
  | String c s' => String (lower_ascii c) (lower s')
  end.

(** [d[k]] on a dict used as a map. *)
Definition getitem {V : Type} (d : gmap string V) (k : string) : result V :=
  match d !! k with
  | Some v => Ok v
  | None => Raise (KeyError k)
  end.

(** [index_values_dict[data].append(stats[f"{index_name}_{data.lower()}"])]
    for each [data] of [graph_data]. *)
Fixpoint record_year (index_name : string) (stats : list (string * sample))
    (graph_data : list string) (index_values_dict : gmap string (list sample))
    : result (gmap string (list sample)) :=
  match graph_data with
  | [] => Ok index_values_dict
  | data :: rest =>
      let! l := getitem index_values_dict data in
      let! v := dict_get stats (index_name +:+ "_" +:+ lower data) in
      record_year index_name stats rest (<[data := (l ++ [v])%list]> index_values_dict)
  end.

(** The loop [for year in years:]. *)
Fixpoint each_year (sv : service) (satellite index_name : string) (region_ : region)
    (graph_data : list string) (years : list Z)
    (index_values_dict : gmap string (list sample))
    : ui (gmap string (list sample)) :=
  match years with
  | [] => ret index_values_dict
  | year :: years' =>
      do! res := App.calc_index sv satellite index_name year region_ false in
      do! d := lift (record_year index_name (snd res) graph_data index_values_dict) in
      each_year sv satellite index_name region_ graph_data years' d
  end.

(** [df[name] = values] *)
Fixpoint set_column (df : DataFrame) (name : string) (values : list cell) : DataFrame :=
  match df with
  | [] => [(name, values)]
  | (n, c) :: df' =>
      if String.eqb n name then (n, values) :: df'
      else (n, c) :: set_column df' name values
  end.

Definition nrows (df : DataFrame) : nat :=
  match df with
  | [] => O
  | (_, c) :: _ => length c
  end.

Definition setitem (df : DataFrame) (name : string) (values : list cell) : result DataFrame :=
  if (length values =? nrows df)%nat then Ok (set_column df name values)
  else Raise ValueError.

(** The loop [for data in graph_data: df[data] = index_values_dict[data]]. *)
Fixpoint fill (index_values_dict : gmap string (list sample)) (graph_data : list string)
    (df : DataFrame) : result DataFrame :=
  match graph_data with
  | [] => Ok df
  | data :: rest =>
      let! l := getitem index_values_dict data in
      let! df' := setitem df data (map CNum l) in
      fill index_values_dict rest df'
  end.

(** [df[name]] read back as numbers, for plotting. *)
Definition column (df : DataFrame) (name : string) : result (list sample) :=
  let! c := dict_get df name in
  Ok (map (fun x => match x with CNum v => v | _ => None end) c).

(** [plot_index_over_time(satellite, index_name, start_year, end_year,
    region, graph_data)] (pages/graph.py, lines 19-42) *)
Definition plot_index_over_time (sv : service) (satellite index_name : string)
    (start_year end_year : Z) (region_ : region) (graph_data : list string)
    : ui (figure * DataFrame) :=
  let years := range start_year (end_year + 1) in
  let index_values_dict : gmap string (list sample) :=
    fold_left (fun d data => <[data := []]> d) graph_data ∅ in
  do! index_values_dict :=
    each_year sv satellite index_name region_ graph_data years index_values_dict in
  let df : DataFrame := [("Year", map CInt years)] in
  do! df := lift (fill index_values_dict graph_data df) in
  do! lines :=
    lift (mapM (fun data => let! ys := column df data in
                            Ok (data +:+ " " +:+ index_name, ys)) graph_data) in
  let fig :=
    LineChart (index_name +:+ " over Time (" +:+ pretty start_year +:+ "-"
                 +:+ pretty end_year +:+ ")") years lines in
  ret (fig, df).

(** [df['Year'] = df['Year'].astype(str)] *)
Definition year_as_str (df : DataFrame) : result DataFrame :=
  let! c := dict_get df "Year" in
  setitem df "Year"
    (map (fun x => match x with CInt n => CStr (pretty n) | _ => x end) c).

Record inputs : Type := {
  long : Q;
  lat : Q;
  uploaded_shp_file : option archive;
  sat : string;
  start_year : Z;
  end_year : Z;
  index_name : string;
  graph_data : list string
}.

(** [main()] (pages/graph.py, lines 45-128); the widgets' values are [inp]. *)
Definition main (sv : service) (inp : inputs) : ui unit :=
  let coordinates_ := coordinates (long inp) (lat inp) in
  do! up := upload false (uploaded_shp_file inp) in
  let roi := fst up in
  let region_ :=
    match coordinates_, roi with
    | Some c, None => Some c
    | _, Some r => Some r
    | _, None => None
    end in
  if start_year inp <=? end_year inp then
    match region_ with
    | Some r =>
        do! res := plot_index_over_time sv (sat inp) (index_name inp) (start_year inp)
                                        (end_year inp) r (graph_data inp) in
        emit (StPyplot (fst res));;
        do! df := lift (year_as_str (snd res)) in
        emit (StWriteTable df)
    | None => ret tt
    end
  else emit (StError "End year should be greater ar equal to start year.").

(** The same inputs with no file uploaded. *)
Definition without_upload (inp : inputs) : inputs :=
  {| long := long inp; lat := lat inp; uploaded_shp_file := None; sat := sat inp;
     start_year := start_year inp; end_year := end_year inp;
     index_name := index_name inp; graph_data := graph_data inp |}.

End Graph.

(** ** The specification's vocabulary *)

(** The acquisition date lies in the year: from [year-01-01] to
    [year-12-31], both days included. *)
Definition in_year (year : Z) (t : Z) : bool :=
  (millis (jan_01 year) <=? t) && (t <? millis (dec_31 year) + ms_per_day).

(** The acquisition date is December 31 of the year. *)
Definition on_dec_31 (year : Z) (t : Z) : bool :=
  (millis (dec_31 year) <=? t) && (t <? millis (dec_31 year) + ms_per_day).

(** None of the flagged bits of the quality value is set. *)
Definition clear (bitmask : Z) (qa : Q) : bool := Z.land (Qfloor qa) bitmask =? 0.

(** A pixel under the masking policy, given the quality value there. *)
Definition masked_pixel (bitmask : Z) (qa v : sample) : sample :=
  match qa with
  | Some q => if clear bitmask q then v else None
  | None => None
  end.

(** The pixel holds a value. *)
Definition defined (v : sample) : bool :=
  match v with
  | Some _ => true
  | None => false
  end.

(** The value of a band of an image at a cell. *)
Definition band_value (im : image) (b : string) (i : nat) : sample :=
  match assoc (rasters im) b with
  | Some r => r i
  | None => None
  end.

(** The temporal compositor: the scenes of the year, reduced by median and
    clipped on request. *)
Definition composite (sv : service) (satellite : string) (year : Z)
    (region_ : region) (clip_ : bool) : result (ee image) :=
  let! filtered_images := App.get_filtered_images sv satellite year region_ in
  let image_ := ee_map median filtered_images in
  Ok (if clip_ then ee_map (clip sv region_) image_ else image_).

(** The binding of the symbolic roles: RED to position 0 of the band list,
    BLUE to 1, GREEN to 2, NIR to 3, RED_EDGE to 4, and L to 0.5. *)
Definition role_env (d : dataset) (comp : image) (i : nat) (x : string) : sample :=
  if String.eqb x "RED" then band_value comp (nth 0 (bands d) "") i
  else if String.eqb x "BLUE" then band_value comp (nth 1 (bands d) "") i
  else if String.eqb x "GREEN" then band_value comp (nth 2 (bands d) "") i
  else if String.eqb x "NIR" then band_value comp (nth 3 (bands d) "") i
  else if String.eqb x "RED_EDGE" then band_value comp (nth 4 (bands d) "") i
  else if String.eqb x "L" then Some 0.5%Q
  else None.

(** A computation of a page whose outcome and events do not depend on the
    events before it. *)
Definition framed {A : Type} (m : ui A) : Prop :=
  forall t, m t = (fst (run m), (t ++ snd (run m))%list).

(** The operands [calc_index] binds. *)
Definition roles : list string := ["RED"; "BLUE"; "GREEN"; "NIR"; "RED_EDGE"; "L"].

(** Equality of pixels, as numbers. *)
Definition sample_eqb (a b : sample) : bool :=
  match a, b with
  | Some x, Some y => Qeq_bool x y
  | None, None => true
  | _, _ => false
  end.

(** A blocking request for the statistics of an index: the [getInfo()] of
    [calc_index]. *)
Definition is_request (e : event) : bool :=
  match e with
  | GetInfo _ _ _ _ _ => true
  | _ => false
  end.

(** A layer whose pixels the service computes. *)
Definition is_layer (e : event) : bool :=
  match e with
  | MapAddLayer _ _ _ => true
  | _ => false
  end.

Definition is_error (e : event) : bool :=
  match e with
  | StError _ => true
  | _ => false
  end.

(** What an index evaluation holds, the names left aside: the pixels of
    the raster and the numbers of the statistics. *)
Definition unnamed (x : ee image * list (string * sample))
    : ee (list raster) * list sample :=
  (ee_map (fun im => map snd (rasters im)) (fst x), map snd (snd x)).

Definition result_map {A B : Type} (f : A -> B) (r : result A) : result B :=
  match r with
  | Ok a => Ok (f a)
  | Raise e => Raise e
  end.

(** The statistic recorded for a year and a field of [graph_data]: the
    entry of the year's statistics under the key of the index and the field
    in lower case. *)
Definition recorded (sv : service) (satellite index_name : string) (g : region)
    (year : Z) (data : string) : sample :=
  match fst (run (App.calc_index sv satellite index_name year g false)) with
  | Ok (_, stats) =>
      match dict_get stats (index_name +:+ "_" +:+ Graph.lower data) with
      | Ok v => v
      | Raise _ => None
      end
  | Raise _ => None
  end.

(** ** Further vocabulary *)

(** The file name ends with [.shp]. *)
Definition is_shp (file : string) : bool := endswith file ".shp".

(** Some file of the directory ends with [.shp]. *)
Definition has_shp (files : list string) : bool := existsb is_shp files.

(** The number of requests for statistics among the events. *)
Definition requests (evs : list event) : nat := length (List.filter is_request evs).

(** A call of [Map.centerObject]. *)
Definition is_centring (e : event) : bool :=
  match e with
  | MapCenterObject _ _ => true
  | _ => false
  end.

(** The map is rendered. *)
Definition is_map_shown (e : event) : bool :=
  match e with
  | MapToStreamlit _ => true
  | _ => false
  end.

(** The field names whose lower-case form is a key of the statistics. *)
Definition plottable (data : string) : bool :=
  existsb (String.eqb (Graph.lower data)) ["max"; "mean"; "min"].

(** The inputs of the map page with another point. *)
Definition app_with_point (inp : App.inputs) (long_ lat_ : Q) : App.inputs :=
  {| App.long := long_; App.lat := lat_;
     App.uploaded_shp_file := App.uploaded_shp_file inp; App.sat := App.sat inp;
     App.selected_year := App.selected_year inp; App.brightness := App.brightness inp;
     App.gamma := App.gamma inp; App.clip_toggle := App.clip_toggle inp;
     App.check_index := App.check_index inp; App.index_name := App.index_name inp;
     App.main_color := App.main_color inp; App.mid_color := App.mid_color inp;
     App.secondary_color := App.secondary_color inp |}.

(** The inputs of the map page with other settings of the clip toggle and
    of the index widgets. *)
Definition app_with_options (inp : App.inputs) (clip_ check : bool)
    (name main_ mid secondary : string) : App.inputs :=
  {| App.long := App.long inp; App.lat := App.lat inp;
     App.uploaded_shp_file := App.uploaded_shp_file inp; App.sat := App.sat inp;
     App.selected_year := App.selected_year inp; App.brightness := App.brightness inp;
     App.gamma := App.gamma inp; App.clip_toggle := clip_;
     App.check_index := check; App.index_name := name;
     App.main_color := main_; App.mid_color := mid;
     App.secondary_color := secondary |}.

(** The inputs of the graph page with another point. *)
Definition graph_with_point (inp : Graph.inputs) (long_ lat_ : Q) : Graph.inputs :=
  {| Graph.long := long_; Graph.lat := lat_;
     Graph.uploaded_shp_file := Graph.uploaded_shp_file inp; Graph.sat := Graph.sat inp;
     Graph.start_year := Graph.start_year inp; Graph.end_year := Graph.end_year inp;
     Graph.index_name := Graph.index_name inp; Graph.graph_data := Graph.graph_data inp |}.

(** The number of events of a kind. *)
Definition count (P : event -> bool) (evs : list event) : nat :=
  length (List.filter P evs).

(** The kinds of event the upload block and [add_rgb_layer_to_map] never
    emit are those that hold of none of their events. *)
Definition not_of_upload (P : event -> bool) : Prop :=
  (forall msg, P (StError msg) = false) /\ (forall caption, P (StImage caption) = false).

Definition not_of_layers (P : event -> bool) : Prop :=
  (forall im vis name, P (MapAddLayer im vis name) = false) /\
  (forall g zoom, P (MapCenterObject g zoom) = false).

(** The region the graph page works on: the point when there is no
    uploaded region, the uploaded region otherwise. *)
Definition selected_region (point roi : option region) : option region :=
  match point, roi with
  | Some c, None => Some c
  | _, Some r => Some r
  | _, None => None
  end.

(** The chart [plot_index_over_time] draws: one line per field over the
    years. *)
Definition series_chart (sv : service) (satellite index_name : string)
    (start_year end_year : Z) (g : region) (graph_data : list string) : figure :=
  LineChart (index_name +:+ " over Time (" +:+ pretty start_year +:+ "-"
               +:+ pretty end_year +:+ ")")
            (Graph.range start_year (end_year + 1))
            (map (fun data =>
                    (data +:+ " " +:+ index_name,
                     map (fun y => recorded sv satellite index_name g y data)
                         (Graph.range start_year (end_year + 1)))) graph_data).

(** The columns of the statistics in the table. *)
Definition series_columns (sv : service) (satellite index_name : string)
    (start_year end_year : Z) (g : region) (graph_data : list string)
    : list (string * list cell) :=
  map (fun data =>
         (data, map (fun y => CNum (recorded sv satellite index_name g y data))
                    (Graph.range start_year (end_year + 1)))) graph_data.

(** The first field of [graph_data] that cannot be plotted. *)
Definition first_unplottable (graph_data : list string) : option string :=
  find (fun data => negb (plottable data)) graph_data.

(** The lower-case form of a character is a given character. *)
Definition lower_ascii_is (c d : ascii) : bool := Ascii.eqb (Graph.lower_ascii c) d.

(** The exception is the service's. *)
Definition service_failure (e : exn) : bool :=
  match e with
  | EEException _ => true
  | _ => false
  end.

(** The value is there, or its evaluation fails with the service's
    exception. *)
Definition ok_or_service_failure {A : Type} (r : result A) : bool :=
  match r with
  | Ok _ => true
  | Raise e => service_failure e
  end.

(** The name is a key of the dict. *)
Definition registered {V : Type} (d : list (string * V)) (k : string) : bool :=
  existsb (String.eqb k) (keys d).

(** [if clip:] on the argument of [add_rgb_layer_to_map]. *)
Definition truthy (clip_ : option bool) : bool :=
  match clip_ with
  | Some true => true
  | _ => false
  end.

(** ** A small world to run the pages on *)

Module Fixture.

Definition square : polygon := [(0, 0); (1, 0); (1, 1); (0, 1)]%Q.

Definition of_list (l : list sample) : raster := fun i => nth i l None.

Definition at_ (y m d : Z) (ms : Z) : Z :=
  millis {| year_of := y; month_of := m; day_of := d |} + ms.

Definition landsat8_scene (t : Z) (red nir qa : list sample) : image :=
  {| footprint := square; time_start := t; properties := [];
     rasters := [("SR_B4", of_list red); ("SR_B3", of_list red); ("SR_B2", of_list red);
                 ("SR_B5", of_list nir); ("QA_PIXEL", of_list qa)] |}.

(** Three cells: a vegetated one, one where RED = NIR = 0, a third one. *)
Definition june : image :=
  landsat8_scene (at_ 2020 6 15 36000000)
    [Some 0.2; Some 0; Some 1]%Q [Some 0.4; Some 0; Some 3]%Q [Some 0; Some 0; Some 0]%Q.

(** The same cells under cloud ([QA_PIXEL] bit 3) in the first cell. *)
Definition july : image :=
  landsat8_scene (at_ 2020 7 17 36000000)
    [Some 9; Some 0; Some 1]%Q [Some 9; Some 0; Some 3]%Q [Some 8; Some 0; Some 0]%Q.

(** A scene of the last day of the year, 10:00 UTC. *)
(** A Landsat-7 scene of two cells: the quality value is 2 (bit 1) in the
    first and 0 in the second. *)
Definition landsat7_scene : image :=
  {| footprint := square; time_start := at_ 2000 6 15 36000000; properties := [];
     rasters := [("SR_B3", of_list [Some 5; Some 7]%Q); ("SR_B2", of_list [Some 5; Some 7]%Q);
                 ("SR_B1", of_list [Some 5; Some 7]%Q); ("SR_B4", of_list [Some 6; Some 9]%Q);
                 ("QA_PIXEL", of_list [Some 2; Some 0]%Q)] |}.

(** A Sentinel-2 scene: the red-edge band differs from the red one. *)
Definition sentinel2_scene : image :=
  {| footprint := square; time_start := at_ 2020 6 15 36000000;
     properties := [("CLOUDY_PIXEL_PERCENTAGE", 5%Q); ("SNOW_ICE_PERCENTAGE", 0%Q)];
     rasters := [("B4", of_list [Some 1%Q]); ("B3", of_list [Some 1%Q]);
                 ("B2", of_list [Some 1%Q]); ("B8", of_list [Some 3%Q]);
                 ("B5", of_list [Some 2%Q])] |}.

Definition new_years_eve : image :=
  landsat8_scene (at_ 2020 12 31 36000000)
    [Some 0.2; Some 0; Some 1]%Q [Some 0.4; Some 0; Some 3]%Q [Some 0; Some 0; Some 0]%Q.

(** A scene of the next year. *)
Definition june_2021 : image :=
  landsat8_scene (at_ 2021 6 10 36000000)
    [Some 1; Some 1; Some 1]%Q [Some 3; Some 2; Some 1]%Q [Some 0; Some 0; Some 0]%Q.

Definition approx_sqrt (q : Q) : sample :=
  if Qle_bool 0 q
  then Some (Z.sqrt (Qnum q * Zpos (Qden q) * 10 ^ 12) # (Qden q * 10 ^ 6))
  else None.

Definition int_pow (x y : Q) : sample :=
  if Qeq_bool y (inject_Z (Qfloor y)) && (0 <=? Qfloor y)
  then Some (Qpower x (Qfloor y))
  else None.

Definition sv : service :=
  {| ImageCollection := fun id =>
       if String.eqb id "LANDSAT/LC08/C02/T1_L2"
       then [june; july; new_years_eve; june_2021]
       else if String.eqb id "COPERNICUS/S2_SR_HARMONIZED" then [sentinel2_scene]
       else if String.eqb id "LANDSAT/LE07/C02/T1_L2" then [landsat7_scene]
       else [];
     intersects := fun _ _ => true;
     cells := fun _ => [0; 1; 2]%nat;
     ee_sqrt := approx_sqrt;
     ee_pow := int_pow |}.

Definition landsat8 : dataset :=
  {| collection := "LANDSAT/LC08/C02/T1_L2";
     cloud_mask_band := Some "QA_PIXEL";
     cloud_mask_value := Some 62;
     bands := ["SR_B4"; "SR_B3"; "SR_B2"; "SR_B5"; "SR_B4"];
     year_range := [2014; 2023] |}.

(** The Landsat-8 composite of 2020 over the point (1, 1). *)
Definition composite_2020 : image :=
  match composite sv "Landsat-8" 2020 (Point 1 1) false with
  | Ok (Ok comp) => comp
  | _ => placeholder
  end.

(** An archive without any [.shp] member, and one whose shapefile reads as
    an empty table. *)
Definition no_shp : archive :=
  {| walk := [("/tmp/x", ["readme.txt"; "area.dbf"])]; read_file := fun _ => [square] |}.

Definition empty_shp : archive :=
  {| walk := [("/tmp/x", ["area.shp"; "area.dbf"])]; read_file := fun _ => [] |}.

(** An archive with a shapefile of one polygon. *)
Definition area_shp : archive :=
  {| walk := [("/tmp/x", ["area.dbf"; "area.shp"; "area.shx"])];
     read_file := fun _ => [square] |}.

Definition graph_inputs (long_ lat_ : Q) (up : option archive) (y0 y1 : Z) : Graph.inputs :=
  {| Graph.long := long_; Graph.lat := lat_; Graph.uploaded_shp_file := up;
     Graph.sat := "Landsat-8"; Graph.start_year := y0; Graph.end_year := y1;
     Graph.index_name := "NDVI"; Graph.graph_data := ["Max"; "Mean"; "Min"] |}.

Definition app_inputs (long_ lat_ : Q) (up : option archive) : App.inputs :=
  {| App.long := long_; App.lat := lat_; App.uploaded_shp_file := up;
     App.sat := "Landsat-8"; App.selected_year := 2020; App.brightness := 3;
     App.gamma := 1.4%Q; App.clip_toggle := false; App.check_index := true;
     App.index_name := "NDVI"; App.main_color := "#00ff00";
     App.mid_color := "#ffff00"; App.secondary_color := "#ff0000" |}.

End Fixture.

(** * Properties *)

(** ** Generic facts *)

Lemma rbind_Ok {A B : Type} (r : result A) (k : A -> result B) (b : B) :
  rbind r k = Ok b -> exists a, r = Ok a /\ k a = Ok b.
Proof.
  destruct r as [a|e]; simpl; intros H; [eauto | discriminate].
Qed.

Lemma mapM_Ok {A B : Type} (f : A -> result B) (l : list A) (l' : list B) :
  mapM f l = Ok l' -> Forall2 (fun x y => f x = Ok y) l l'.
Proof.
  revert l'. induction l as [|x l IH]; simpl; intros l' H.
  - injection H as <-. constructor.
  - apply rbind_Ok in H as (y & Hy & H).
    apply rbind_Ok in H as (ys & Hys & H).
    injection H as <-. constructor; auto.
Qed.

Lemma Forall2_In_r {A B : Type} (P : A -> B -> Prop) (l : list A) (l' : list B) (y : B) :
  Forall2 P l l' -> In y l' -> exists x, In x l /\ P x y.
Proof.
  induction 1 as [|x y' l l' Hxy _ IH]; simpl; intros Hin; [contradiction|].
  destruct Hin as [->|Hin]; [eauto|].
  destruct (IH Hin) as (x' & ? & ?); eauto.
Qed.

Lemma dict_get_In {V : Type} (d : list (string * V)) (k : string) (v : V) :
  dict_get d k = Ok v -> In (k, v) d.
Proof.
  induction d as [|[k' v'] d IH]; simpl; [discriminate|].
  destruct (String.eqb_spec k' k) as [->|Hne]; intros H.
  - injection H as <-. now left.
  - right. auto.
Qed.

(** ** The dataset registry *)

Ltac each_dataset H :=
  simpl in H;
  repeat (destruct H as [H|H]; [injection H as <- <-|]); [..|contradiction].

(** Only Sentinel-2 has no cloud mask entry. *)
Lemma no_cloud_mask_is_sentinel2 (name : string) (d : dataset) :
  dict_get datasets name = Ok d -> cloud_mask_band d = None -> name = "Sentinel-2".
Proof.
  intros Hd. apply dict_get_In in Hd. each_dataset Hd; simpl; congruence.
Qed.

Lemma cloud_mask_not_sentinel2 (name band : string) (d : dataset) :
  dict_get datasets name = Ok d -> cloud_mask_band d = Some band ->
  String.eqb name "Sentinel-2" = false /\ exists v, cloud_mask_value d = Some v.
Proof.
  intros Hd. apply dict_get_In in Hd. each_dataset Hd; simpl; intros Hb;
    try discriminate; split; eauto.
Qed.

(** ** Cloud masking *)

Lemma map_bands_rasters (f : raster -> raster) (im : image) :
  rasters (map_bands f im) = map (fun br => (fst br, f (snd br))) (rasters im).
Proof. reflexivity. Qed.

Lemma assoc_map_bands (f : raster -> raster) (l : list (string * raster)) (b : string) :
  assoc (map (fun br => (fst br, f (snd br))) l) b = option_map f (assoc l b).
Proof.
  induction l as [|[b' r] l IH]; simpl; [reflexivity|].
  destruct (String.eqb b' b); [reflexivity | exact IH].
Qed.

(** The raster the mask of [mask_clouds] is made of. *)
Lemma cloud_mask_pixel (bitmask : Z) (qa r : raster) (i : nat) :
  mask_raster
    (fun i => option_map (fun q => if Qeq_bool q 0 then 1%Q else 0%Q)
                (option_map (fun q => inject_Z (Z.land (Qfloor q) bitmask)) (qa i))) r i
  = masked_pixel bitmask (qa i) (r i).
Proof.
  unfold mask_raster, masked_pixel, clear.
  destruct (qa i) as [q|]; simpl; [|reflexivity].
  destruct (Z.eqb_spec (Z.land (Qfloor q) bitmask) 0) as [->|Hne].
  - reflexivity.
  - assert (Qeq_bool (inject_Z (Z.land (Qfloor q) bitmask)) 0 = false) as ->.
    { apply not_true_is_false. intros H. apply Qeq_bool_iff in H.
      unfold Qeq in H. simpl in H. lia. }
    reflexivity.
Qed.

(** What [mask_clouds] computes for a dataset that has a cloud mask, on a
    scene that has the quality band: the scene with every band masked by
    the policy, and nothing else changed. *)
Lemma mask_clouds_masks (name band : string) (bitmask : Z) (d : dataset)
    (im : image) (qa : raster) :
  dict_get datasets name = Ok d ->
  cloud_mask_band d = Some band ->
  cloud_mask_value d = Some bitmask ->
  assoc (rasters im) band = Some qa ->
  exists im',
    App.mask_clouds (Ok im) name = Ok (Ok im') /\
    footprint im' = footprint im /\
    time_start im' = time_start im /\
    properties im' = properties im /\
    map fst (rasters im') = map fst (rasters im) /\
    forall b i, band_value im' b i = masked_pixel bitmask (qa i) (band_value im b i).
Proof.
  intros Hd Hb Hv Hqa. unfold App.mask_clouds.
  rewrite Hd. simpl. unfold get_cloud_mask_band, get_cloud_mask_value.
  rewrite Hb, Hv. simpl. unfold select. rewrite Hqa. simpl.
  unfold updateMask. simpl. eexists. split; [reflexivity|].
  repeat split.
  - simpl. rewrite map_map. reflexivity.
  - intros b i. unfold band_value. rewrite map_bands_rasters, assoc_map_bands.
    destruct (assoc (rasters im) b) as [r|]; simpl.
    + apply cloud_mask_pixel.
    + unfold masked_pixel. destruct (qa i) as [q|]; [destruct (clear bitmask q)|];
        reflexivity.
Qed.

(** Whatever [mask_clouds] returns for a scene, it is that scene as to
    footprint and acquisition time. *)
Lemma mask_clouds_time_start (name : string) (im im' : image) (x : ee image) :
  App.mask_clouds (Ok im) name = Ok x -> x = Ok im' ->
  time_start im' = time_start im /\ footprint im' = footprint im.
Proof.
  unfold App.mask_clouds. intros H ->.
  apply rbind_Ok in H as (d & _ & H).
  apply rbind_Ok in H as (band & _ & H).
  apply rbind_Ok in H as (d' & _ & H).
  apply rbind_Ok in H as (v & _ & H).
  injection H as H.
  apply rbind_Ok in H as (m & _ & H). simpl in H.
  unfold updateMask in H. destruct (rasters m) as [|[? ?] ?]; [discriminate|].
  injection H as <-. split; reflexivity.
Qed.

(** ** Scene selection *)

Lemma filterDate_In (start end_ : date) (c : list image) (im : image) :
  In im (filterDate start end_ c) <->
  In im c /\ millis start <= time_start im < millis end_.
Proof.
  unfold filterDate. rewrite filter_In, andb_true_iff, Z.leb_le, Z.ltb_lt. tauto.
Qed.

Lemma filterBounds_In (sv : service) (g : region) (c : list image) (im : image) :
  In im (filterBounds sv g c) <-> In im c /\ intersects sv (footprint im) g = true.
Proof. unfold filterBounds. apply filter_In. Qed.

Lemma filter_lt_In (name : string) (v : Q) (c : list image) (im : image) :
  In im (filter_lt name v c) <->
  In im c /\ exists x, assoc (properties im) name = Some x /\ (x < v)%Q.
Proof.
  unfold filter_lt. rewrite filter_In.
  destruct (assoc (properties im) name) as [x|].
  - rewrite negb_true_iff. split; intros [Hin H]; split; auto.
    + exists x. split; [reflexivity|]. apply Qnot_le_lt. intros Hle.
      apply Qle_bool_iff in Hle. congruence.
    + destruct H as (x' & [= <-] & Hlt). apply not_true_is_false. intros Hle.
      apply Qle_bool_iff in Hle. apply Qlt_not_le in Hlt. contradiction.
  - split; intros [Hin H]; [discriminate|]. destruct H as (x & ? & _). discriminate.
Qed.

(** The year's last day starts 364 or 365 days after its first, and is
    followed by the first day of the next year. *)
Lemma dec_31_next_day (year : Z) :
  millis (dec_31 year) + ms_per_day = millis (jan_01 (year + 1)).
Proof.
  unfold millis, days_from_civil, ms_per_day, dec_31, jan_01. simpl.
  replace (year + 1 - 1) with year by lia.
  change ((153 * (12 - 3) + 2) / 5) with 275.
  change ((153 * (1 + 9) + 2) / 5) with 306.
  lia.
Qed.

(** The scenes [get_filtered_images] hands to the median: each one is a
    scene of the catalogue (masked where the dataset has a cloud mask) that
    intersects the region and was acquired from January 1 on and before
    December 31, 00:00. *)
Lemma filtered_images_selected (sv : service) (satellite : string) (year : Z)
    (g : region) (l : list image) (im : image) :
  App.get_filtered_images sv satellite year g = Ok (Ok l) -> In im l ->
  intersects sv (footprint im) g = true /\
  millis (jan_01 year) <= time_start im < millis (dec_31 year).
Proof.
  unfold App.get_filtered_images. intros H Hin.
  apply rbind_Ok in H as (d & Hd & H).
  destruct (String.eqb satellite "Sentinel-2").
  - injection H as <-.
    apply filter_lt_In in Hin as [Hin _]. apply filter_lt_In in Hin as [Hin _].
    apply filterDate_In in Hin as [Hin Ht]. apply filterBounds_In in Hin as [_ Hb].
    auto.
  - unfold collection_map in H. apply rbind_Ok in H as (p & _ & H).
    injection H as H. simpl in H. apply mapM_Ok in H.
    destruct (Forall2_In_r _ _ _ _ H Hin) as (s & Hs & Hm).
    apply filterDate_In in Hs as [Hs Ht]. apply filterBounds_In in Hs as [_ Hb].
    destruct (App.mask_clouds (Ok s) satellite) as [x|e] eqn:Hx; [|discriminate].
    destruct (mask_clouds_time_start _ _ _ _ Hx Hm) as [-> ->]. auto.
Qed.

(** No scene of December 31 is among them. *)
Lemma filtered_images_drop_dec_31 (sv : service) (satellite : string) (year : Z)
    (g : region) (l : list image) (im : image) :
  App.get_filtered_images sv satellite year g = Ok (Ok l) -> In im l ->
  on_dec_31 year (time_start im) = false.
Proof.
  intros H Hin. destruct (filtered_images_selected _ _ _ _ _ _ H Hin) as [_ Ht].
  unfold on_dec_31. apply andb_false_iff. left. apply Z.leb_gt. lia.
Qed.

(** C1, at a scene of the catalogue acquired on 2020-12-31 at 10:00 UTC whose
    footprint intersects the region: its date lies in the inclusive range
    [2020-01-01, 2020-12-31], and yet no scene with its acquisition time is
    among those [get_filtered_images] selects for Landsat-8 and 2020, because
    the end date of [filterDate] is exclusive. *)
Theorem dec_31_scene_is_not_selected :
  let s := Fixture.new_years_eve in
  let g := Point 1 1 in
  In s (ImageCollection Fixture.sv "LANDSAT/LC08/C02/T1_L2") /\
  intersects Fixture.sv (footprint s) g = true /\
  in_year 2020 (time_start s) = true /\
  on_dec_31 2020 (time_start s) = true /\
  exists l,
    App.get_filtered_images Fixture.sv "Landsat-8" 2020 g = Ok (Ok l) /\
    length l = 2%nat /\
    forall im, In im l -> time_start im <> time_start s.
Proof.
  simpl. split; [auto|]. split; [reflexivity|]. split; [reflexivity|].
  split; [reflexivity|].
  eexists. split; [reflexivity|]. split; [reflexivity|].
  intros im [<-|[<-|[]]]; vm_compute; discriminate.
Qed.

(** ** The point of interest *)

Lemma Qeq_bool_spec (x y : Q) : reflect (x == y)%Q (Qeq_bool x y).
Proof.
  destruct (Qeq_bool x y) eqn:H; constructor.
  - now apply Qeq_bool_iff.
  - now apply Qeq_bool_neq.
Qed.

(** The point is active exactly when both coordinates are not zero. *)
Lemma coordinates_Some (long lat : Q) :
  coordinates long lat = Some (Point long lat) <-> ~ (long == 0)%Q /\ ~ (lat == 0)%Q.
Proof.
  unfold coordinates.
  destruct (Qeq_bool_spec long 0); destruct (Qeq_bool_spec lat 0); simpl;
    split; try discriminate; tauto.
Qed.

(** C2, as amended: the point region is unset exactly when at least one of
    its coordinates is zero, and active, with the coordinates given, exactly
    when both are not zero. *)
Theorem coordinates_unset_iff (long lat : Q) :
  (coordinates long lat = None <-> (long == 0)%Q \/ (lat == 0)%Q) /\
  (coordinates long lat = Some (Point long lat) <-> ~ (long == 0)%Q /\ ~ (lat == 0)%Q).
Proof.
  split; [|apply coordinates_Some].
  unfold coordinates.
  destruct (Qeq_bool_spec long 0); destruct (Qeq_bool_spec lat 0); simpl;
    split; try discriminate; tauto.
Qed.

(** C2 fails at longitude 0 and latitude 5: only one coordinate is zero,
    and the point is unset all the same, on both pages. *)
Lemma point_on_the_prime_meridian_is_unset :
  ~ ((0 == 0)%Q /\ (5 == 0)%Q) /\
  coordinates 0 5 = None /\
  ~ (forall long lat : Q,
        coordinates long lat = None <-> (long == 0)%Q /\ (lat == 0)%Q).
Proof.
  assert (H5 : ~ (5 == 0)%Q) by discriminate.
  split; [tauto|]. split; [reflexivity|].
  intros H. destruct (H 0%Q 5%Q) as [H1 _]. destruct (H1 eq_refl) as [_ ?]. auto.
Qed.

(** ** Datasets without a cloud mask *)

(** C4, as amended: applied to a profile that has no cloud mask entry
    (Sentinel-2 is the only one), [mask_clouds] raises [KeyError] for every
    image; the compositor never applies it to such a profile, and for it
    [get_filtered_images] returns scenes of the catalogue as they are,
    without failing. *)
Theorem no_cloud_mask_entry (sv : service) (name : string) (d : dataset)
    (year : Z) (g : region) (image_ : ee image) :
  dict_get datasets name = Ok d ->
  cloud_mask_band d = None ->
  name = "Sentinel-2" /\
  App.mask_clouds image_ name = Raise (KeyError "cloud_mask_band") /\
  exists l,
    App.get_filtered_images sv name year g = Ok (Ok l) /\
    forall im, In im l -> In im (ImageCollection sv (collection d)).
Proof.
  intros Hd Hb. pose proof (no_cloud_mask_is_sentinel2 _ _ Hd Hb) as ->.
  split; [reflexivity|]. split.
  - unfold App.mask_clouds. rewrite Hd. simpl. unfold get_cloud_mask_band.
    rewrite Hb. reflexivity.
  - unfold App.get_filtered_images. rewrite Hd. simpl. eexists. split; [reflexivity|].
    intros im Hin.
    apply filter_lt_In in Hin as [Hin _]. apply filter_lt_In in Hin as [Hin _].
    apply filterDate_In in Hin as [Hin _]. apply filterBounds_In in Hin as [Hin _].
    exact Hin.
Qed.

Lemma no_cloud_mask_entry_witness :
  "Sentinel-2" = "Sentinel-2" /\
  App.mask_clouds (Ok Fixture.june) "Sentinel-2" = Raise (KeyError "cloud_mask_band") /\
  exists l,
    App.get_filtered_images Fixture.sv "Sentinel-2" 2020 (Point 1 1) = Ok (Ok l) /\
    forall im, In im l ->
               In im (ImageCollection Fixture.sv "COPERNICUS/S2_SR_HARMONIZED").
Proof.
  apply (no_cloud_mask_entry Fixture.sv "Sentinel-2"
           {| collection := "COPERNICUS/S2_SR_HARMONIZED";
              cloud_mask_band := None; cloud_mask_value := None;
              bands := ["B4"; "B3"; "B2"; "B8"; "B5"];
              year_range := [2019; 2023] |} 2020 (Point 1 1) (Ok Fixture.june));
    reflexivity.
Defined.

(** C4 fails at any image: [mask_clouds] with the Sentinel-2 profile does
    not return the image, it raises. *)
Lemma mask_clouds_sentinel2_raises :
  App.mask_clouds (Ok Fixture.june) "Sentinel-2" = Raise (KeyError "cloud_mask_band") /\
  App.mask_clouds (Ok Fixture.june) "Sentinel-2" <> Ok (Ok Fixture.june).
Proof. split; [reflexivity | discriminate]. Qed.

(** ** Datasets with a cloud mask *)

Lemma mapM_total {A B : Type} (f : A -> result B) (l : list A) :
  (forall x, In x l -> exists y, f x = Ok y) -> exists l', mapM f l = Ok l'.
Proof.
  induction l as [|x l IH]; simpl; intros H; [eauto|].
  destruct (H x) as (y & ->); [now left|].
  destruct IH as (l' & ->); [intros; apply H; now right|].
  simpl. eauto.
Qed.

(** C7: for a dataset with a cloud mask (Landsat-5, Landsat-7, Landsat-8,
    MODIS), [mask_clouds] keeps a pixel exactly where the quality value,
    and-ed bitwise with the bitmask, is zero, and makes every other pixel
    no-data; the scenes handed to the median are the selected scenes so
    masked, so that the composite is the median of masked scenes; for
    Landsat-7 the bitmask is 58, a quality value of 2 masks the pixel and a
    quality value of 0 keeps it. *)
Theorem cloud_mask_applied_before_median (sv : service) (name band : string)
    (bitmask : Z) (d : dataset) (year : Z) (g : region) :
  dict_get datasets name = Ok d ->
  cloud_mask_band d = Some band ->
  cloud_mask_value d = Some bitmask ->
  let selected :=
    filterDate (jan_01 year) (dec_31 year)
      (filterBounds sv g (ImageCollection sv (collection d))) in
  In name ["Landsat-5"; "Landsat-7"; "Landsat-8"; "MODIS"] /\
  (forall im qa,
      assoc (rasters im) band = Some qa ->
      exists im',
        App.mask_clouds (Ok im) name = Ok (Ok im') /\
        forall b i, band_value im' b i = masked_pixel bitmask (qa i) (band_value im b i)) /\
  ((forall s, In s selected -> bound (rasters s) band = true) ->
   exists l,
     App.get_filtered_images sv name year g = Ok (Ok l) /\
     Forall2 (fun s m => App.mask_clouds (Ok s) name = Ok (Ok m)) selected l /\
     composite sv name year g false = Ok (Ok (median l))) /\
  (name = "Landsat-7" ->
   bitmask = 58 /\
   forall v, masked_pixel bitmask (Some 2%Q) v = None /\
             masked_pixel bitmask (Some 0%Q) v = v).
Proof.
  intros Hd Hb Hv selected.
  assert (Hmask : forall im qa,
             assoc (rasters im) band = Some qa ->
             exists im',
               App.mask_clouds (Ok im) name = Ok (Ok im') /\
               forall b i,
                 band_value im' b i = masked_pixel bitmask (qa i) (band_value im b i)).
  { intros im qa Hqa.
    destruct (mask_clouds_masks _ _ _ _ _ _ Hd Hb Hv Hqa) as (im' & H & _ & _ & _ & _ & Hp).
    eauto. }
  split; [|split; [exact Hmask|split]].
  - pose proof (dict_get_In _ _ _ Hd) as Hin. each_dataset Hin; simpl in *;
      try discriminate; tauto.
  - intros Hbound.
    destruct (cloud_mask_not_sentinel2 _ _ _ Hd Hb) as [Hne _].
    assert (Hall : exists l,
               mapM (fun im => match App.mask_clouds (Ok im) name with
                               | Ok r => r
                               | Raise e => Raise e
                               end) selected = Ok l).
    { apply mapM_total. intros s Hs. specialize (Hbound s Hs). unfold bound in Hbound.
      destruct (assoc (rasters s) band) as [qa|] eqn:Hqa; [|discriminate].
      destruct (Hmask s qa Hqa) as (im' & -> & _). eauto. }
    destruct Hall as (l & Hl). exists l.
    assert (Hget : App.get_filtered_images sv name year g = Ok (Ok l)).
    { unfold App.get_filtered_images. rewrite Hd. simpl. rewrite Hne.
      unfold collection_map.
      assert (exists x, App.mask_clouds (Ok placeholder) name = Ok x) as (x & ->).
      { unfold App.mask_clouds. rewrite Hd. simpl.
        unfold get_cloud_mask_band, get_cloud_mask_value. rewrite Hb, Hv. simpl. eauto. }
      simpl. fold selected. rewrite Hl. reflexivity. }
    split; [exact Hget|]. split.
    + apply mapM_Ok in Hl. clear -Hl. induction Hl as [|s m l l' H _ IH]; constructor; auto.
      cbv beta in H. revert H.
      destruct (App.mask_clouds (Ok s) name) as [r|e]; [intros ->; reflexivity|discriminate].
    + unfold composite. rewrite Hget. reflexivity.
  - intros ->. injection Hd as <-. simpl in Hv. injection Hv as <-.
    split; [reflexivity|]. intros v. split; reflexivity.
Qed.

Lemma cloud_mask_applied_before_median_witness :
  let selected :=
    filterDate (jan_01 2000) (dec_31 2000)
      (filterBounds Fixture.sv (Point 1 1)
         (ImageCollection Fixture.sv "LANDSAT/LE07/C02/T1_L2")) in
  In "Landsat-7" ["Landsat-5"; "Landsat-7"; "Landsat-8"; "MODIS"] /\
  (forall im qa,
      assoc (rasters im) "QA_PIXEL" = Some qa ->
      exists im',
        App.mask_clouds (Ok im) "Landsat-7" = Ok (Ok im') /\
        forall b i, band_value im' b i = masked_pixel 58 (qa i) (band_value im b i)) /\
  ((forall s, In s selected -> bound (rasters s) "QA_PIXEL" = true) ->
   exists l,
     App.get_filtered_images Fixture.sv "Landsat-7" 2000 (Point 1 1) = Ok (Ok l) /\
     Forall2 (fun s m => App.mask_clouds (Ok s) "Landsat-7" = Ok (Ok m)) selected l /\
     composite Fixture.sv "Landsat-7" 2000 (Point 1 1) false = Ok (Ok (median l))) /\
  ("Landsat-7" = "Landsat-7" ->
   58 = 58 /\
   forall v, masked_pixel 58 (Some 2%Q) v = None /\
             masked_pixel 58 (Some 0%Q) v = v).
Proof.
  apply (cloud_mask_applied_before_median Fixture.sv "Landsat-7" "QA_PIXEL" 58
           {| collection := "LANDSAT/LE07/C02/T1_L2";
              cloud_mask_band := Some "QA_PIXEL";
              cloud_mask_value := Some 58;
              bands := ["SR_B3"; "SR_B2"; "SR_B1"; "SR_B4"; "SR_B3"];
              year_range := [2000; 2023] |} 2000 (Point 1 1));
    reflexivity.
Defined.

(** The example of Landsat-7, through [mask_clouds]: the pixel with the
    quality value 2 is masked, the pixel with the quality value 0 is kept. *)
Example landsat7_quality_values :
  match App.mask_clouds (Ok Fixture.landsat7_scene) "Landsat-7" with
  | Ok (Ok im) =>
      sample_eqb (band_value im "SR_B3" 0) None
      && sample_eqb (band_value im "SR_B3" 1) (Some 7%Q)
  | _ => false
  end = true.
Proof. vm_compute. reflexivity. Qed.

(** The mask comes first: in the first cell the scene of July is under
    cloud, and the composite of 2020 holds the value of June there, not the
    median of the two scenes. *)
Example masked_scene_does_not_count :
  sample_eqb (band_value Fixture.composite_2020 "SR_B4" 0) (Some 0.2%Q) = true /\
  sample_eqb (band_value (median [Fixture.june; Fixture.july]) "SR_B4" 0) (Some 4.6%Q)
  = true.
Proof. split; vm_compute; reflexivity. Qed.


(** ** The index evaluator *)

(** Every formula of the registry is well formed and names roles only. *)
Lemma indexes_parse (index_name formula : string) :
  dict_get indexes index_name = Ok formula ->
  exists e, parse formula = Some e /\
            forallb (fun x => existsb (String.eqb x) roles) (vars e) = true.
Proof.
  intros H. apply dict_get_In in H. simpl in H.
  repeat (destruct H as [H|H]; [injection H as <- <-; eexists; split;
                                 [vm_compute; reflexivity | reflexivity]|]).
  contradiction.
Qed.

(** Every dataset of the registry lists five bands. *)
Lemma datasets_five_bands (name : string) (d : dataset) :
  dict_get datasets name = Ok d ->
  exists b0 b1 b2 b3 b4, bands d = [b0; b1; b2; b3; b4].
Proof.
  intros H. apply dict_get_In in H. each_dataset H; simpl; eauto 6.
Qed.

Lemma eval_ext (sv : service) (env1 env2 : string -> sample) (e : expr) :
  (forall x, In x (vars e) -> env1 x = env2 x) ->
  eval sv env1 e = eval sv env2 e.
Proof.
  induction e as [q|x|a IHa b IHb|a IHa b IHb|a IHa b IHb|a IHa b IHb|a IHa|a IHa b IHb];
    simpl; intros H; try reflexivity.
  - apply H. now left.
  - rewrite IHa, IHb; auto; intros; apply H, in_or_app; auto.
  - rewrite IHa, IHb; auto; intros; apply H, in_or_app; auto.
  - rewrite IHa, IHb; auto; intros; apply H, in_or_app; auto.
  - rewrite IHa, IHb; auto; intros; apply H, in_or_app; auto.
  - rewrite IHa; auto.
  - rewrite IHa, IHb; auto; intros; apply H, in_or_app; auto.
Qed.

Lemma in_roles (x : string) :
  existsb (String.eqb x) roles = true ->
  x = "RED" \/ x = "BLUE" \/ x = "GREEN" \/ x = "NIR" \/ x = "RED_EDGE" \/ x = "L".
Proof.
  unfold roles. simpl. rewrite !orb_true_iff, !String.eqb_eq.
  intuition discriminate.
Qed.

Lemma bound_Some (l : list (string * raster)) (b : string) :
  bound l b = true -> exists r, assoc l b = Some r.
Proof. unfold bound. destruct (assoc l b); [eauto | discriminate]. Qed.

(** What [calc_index] returns on a composite that has the five bands of the
    dataset: the raster of the formula under the binding of the roles,
    named after the index, and its statistics over the region, after one
    request to the service. *)
Lemma calc_index_ok (sv : service) (satellite index_name : string) (year : Z)
    (g : region) (clip_ : bool) (d : dataset) (formula : string) (comp : image) :
  dict_get datasets satellite = Ok d ->
  dict_get indexes index_name = Ok formula ->
  composite sv satellite year g clip_ = Ok (Ok comp) ->
  forallb (bound (rasters comp)) (bands d) = true ->
  exists e r,
    parse formula = Some e /\
    (forall i, r i = eval sv (role_env d comp i) e) /\
    forall t,
      App.calc_index sv satellite index_name year g clip_ t
      = (Ok (Ok (set_rasters comp [(index_name, r)]),
             band_stats sv g (index_name, r)),
         (t ++ [GetInfo satellite index_name year g clip_])%list).
Proof.
  intros Hd Hf Hcomp Hbound.
  destruct (datasets_five_bands _ _ Hd) as (b0 & b1 & b2 & b3 & b4 & Hbands).
  destruct (indexes_parse _ _ Hf) as (e & He & Hvars).
  unfold composite in Hcomp. apply rbind_Ok in Hcomp as (f & Hget & Hc).
  injection Hc as Hc.
  rewrite Hbands in Hbound. rewrite forallb_forall in Hbound.
  destruct (bound_Some _ b0 (Hbound b0 ltac:(simpl; auto))) as (r0 & H0).
  destruct (bound_Some _ b1 (Hbound b1 ltac:(simpl; auto))) as (r1 & H1).
  destruct (bound_Some _ b2 (Hbound b2 ltac:(simpl; auto))) as (r2 & H2).
  destruct (bound_Some _ b3 (Hbound b3 ltac:(simpl; auto))) as (r3 & H3).
  destruct (bound_Some _ b4 (Hbound b4 ltac:(simpl; auto 6))) as (r4 & H4).
  set (renv := [("RED", r0); ("BLUE", r1); ("GREEN", r2); ("NIR", r3);
                ("RED_EDGE", r4); ("L", fun _ : nat => Some 0.5%Q)]).
  assert (Hall : forallb (bound renv) (vars e) = true).
  { apply forallb_forall. intros x Hx.
    rewrite forallb_forall in Hvars. specialize (Hvars x Hx).
    apply in_roles in Hvars.
    destruct Hvars as [->|[->|[->|[->|[->| ->]]]]]; reflexivity. }
  exists e, (fun i => eval sv (pixel_env renv i) e).
  split; [exact He|]. split.
  - intros i. apply eval_ext. intros x Hx.
    rewrite forallb_forall in Hvars. specialize (Hvars x Hx).
    apply in_roles in Hvars.
    unfold role_env, band_value. rewrite Hbands.
    destruct Hvars as [->|[->|[->|[->|[->| ->]]]]]; simpl;
      rewrite ?H0, ?H1, ?H2, ?H3, ?H4; reflexivity.
  - intros t. unfold App.calc_index, bind, lift, emit, ret.
    rewrite Hget, Hd. cbn [rbind]. rewrite Hbands. cbn [rbind list_get nth_error].
    rewrite Hc, Hf. cbn [rbind]. unfold expression. rewrite He.
    unfold select. rewrite H0, H1, H2, H3, H4.
    cbn [mapM rbind operand_raster snd fst rasters set_rasters].
    match goal with
    | |- context [forallb ?f (vars e)] =>
        replace (forallb f (vars e)) with true by (symmetry; exact Hall)
    end.
    cbn [rename rasters set_rasters rbind getInfo ee_map].
    unfold reduceRegion, set_rasters. simpl. reflexivity.
Qed.

(** C8: on a composite that has the bands of the dataset, [calc_index]
    evaluates the formula of the index pixel by pixel with RED bound to the
    band at position 0 of the band list, BLUE to position 1, GREEN to
    position 2, NIR to position 3, RED_EDGE to position 4 and L to 0.5, and
    returns a raster of one band named after the index. *)
Theorem index_evaluator_binds_roles (sv : service) (satellite index_name : string)
    (year : Z) (g : region) (clip_ : bool) (d : dataset) (formula : string)
    (comp : image) :
  dict_get datasets satellite = Ok d ->
  dict_get indexes index_name = Ok formula ->
  composite sv satellite year g clip_ = Ok (Ok comp) ->
  forallb (bound (rasters comp)) (bands d) = true ->
  exists e r stats t,
    parse formula = Some e /\
    run (App.calc_index sv satellite index_name year g clip_)
    = (Ok (Ok (set_rasters comp [(index_name, r)]), stats), t) /\
    (forall i, r i = eval sv (role_env d comp i) e) /\
    (forall i,
        role_env d comp i "RED" = band_value comp (nth 0 (bands d) "") i /\
        role_env d comp i "BLUE" = band_value comp (nth 1 (bands d) "") i /\
        role_env d comp i "GREEN" = band_value comp (nth 2 (bands d) "") i /\
        role_env d comp i "NIR" = band_value comp (nth 3 (bands d) "") i /\
        role_env d comp i "RED_EDGE" = band_value comp (nth 4 (bands d) "") i /\
        role_env d comp i "L" = Some 0.5%Q).
Proof.
  intros Hd Hf Hcomp Hbound.
  destruct (calc_index_ok sv _ _ _ _ _ _ _ _ Hd Hf Hcomp Hbound) as (e & r & He & Hr & Hrun).
  exists e, r. do 2 eexists. split; [exact He|]. split; [apply Hrun|].
  split; [exact Hr|]. intros i. repeat split.
Qed.

Lemma index_evaluator_binds_roles_witness :
  exists e r stats t,
    parse "(NIR - RED) / (NIR + RED)" = Some e /\
    run (App.calc_index Fixture.sv "Landsat-8" "NDVI" 2020 (Point 1 1) false)
    = (Ok (Ok (set_rasters Fixture.composite_2020 [("NDVI", r)]), stats), t) /\
    (forall i, r i = eval Fixture.sv (role_env Fixture.landsat8 Fixture.composite_2020 i) e) /\
    (forall i,
        role_env Fixture.landsat8 Fixture.composite_2020 i "RED"
        = band_value Fixture.composite_2020 (nth 0 (bands Fixture.landsat8) "") i /\
        role_env Fixture.landsat8 Fixture.composite_2020 i "BLUE"
        = band_value Fixture.composite_2020 (nth 1 (bands Fixture.landsat8) "") i /\
        role_env Fixture.landsat8 Fixture.composite_2020 i "GREEN"
        = band_value Fixture.composite_2020 (nth 2 (bands Fixture.landsat8) "") i /\
        role_env Fixture.landsat8 Fixture.composite_2020 i "NIR"
        = band_value Fixture.composite_2020 (nth 3 (bands Fixture.landsat8) "") i /\
        role_env Fixture.landsat8 Fixture.composite_2020 i "RED_EDGE"
        = band_value Fixture.composite_2020 (nth 4 (bands Fixture.landsat8) "") i /\
        role_env Fixture.landsat8 Fixture.composite_2020 i "L" = Some 0.5%Q).
Proof.
  apply (index_evaluator_binds_roles Fixture.sv "Landsat-8" "NDVI" 2020 (Point 1 1)
           false Fixture.landsat8 "(NIR - RED) / (NIR + RED)" Fixture.composite_2020);
    reflexivity.
Defined.

(** ** Division by zero *)




(** The index of 2020 over the three cells of the small world: 1/3, no
    data (RED = NIR = 0), 1/2; the mean is that of the two defined pixels. *)
Example ndvi_of_2020 :
  match fst (run (App.calc_index Fixture.sv "Landsat-8" "NDVI" 2020 (Point 1 1) false)) with
  | Ok (Ok index, stats) =>
      sample_eqb (band_value index "NDVI" 0) (Some (1 # 3)%Q)
      && sample_eqb (band_value index "NDVI" 1) None
      && sample_eqb (band_value index "NDVI" 2) (Some (1 # 2)%Q)
      && match dict_get stats "NDVI_mean" with
         | Ok v => sample_eqb v (Some (5 # 12)%Q)
         | Raise _ => false
         end
  | _ => false
  end = true.
Proof. vm_compute. reflexivity. Qed.


(** ** NDRE on datasets without a red-edge band *)

(** Outside Sentinel-2 the band list ends with its first band. *)
Lemma red_edge_is_red (name : string) (d : dataset) :
  dict_get datasets name = Ok d -> name <> "Sentinel-2" ->
  exists b0 b1 b2 b3, bands d = [b0; b1; b2; b3; b0].
Proof.
  intros H Hne. apply dict_get_In in H. each_dataset H; simpl; try congruence; eauto 6.
Qed.

(** With RED_EDGE bound to the operand of RED, the two formulas denote the
    same raster. *)
Lemma expression_ndre_ndvi (sv : service) (o0 o1 o2 o3 : operand) (l : Q) (im : image) :
  let env := [("RED", o0); ("BLUE", o1); ("GREEN", o2); ("NIR", o3);
              ("RED_EDGE", o0); ("L", ONumber l)] in
  expression sv "(NIR - RED_EDGE) / (NIR + RED_EDGE)" env im
  = expression sv "(NIR - RED) / (NIR + RED)" env im.
Proof.
  intros env. unfold expression.
  replace (parse "(NIR - RED_EDGE) / (NIR + RED_EDGE)")
    with (Some (Div (Sub (Var "NIR") (Var "RED_EDGE")) (Add (Var "NIR") (Var "RED_EDGE"))))
    by (vm_compute; reflexivity).
  replace (parse "(NIR - RED) / (NIR + RED)")
    with (Some (Div (Sub (Var "NIR") (Var "RED")) (Add (Var "NIR") (Var "RED"))))
    by (vm_compute; reflexivity).
  unfold env. cbn [mapM snd fst].
  destruct (operand_raster o0) as [r0|e0]; [|reflexivity].
  destruct (operand_raster o1) as [r1|e1]; [|reflexivity].
  destruct (operand_raster o2) as [r2|e2]; [|reflexivity].
  destruct (operand_raster o3) as [r3|e3]; [|reflexivity].
  reflexivity.
Qed.

(** C10: for every dataset but Sentinel-2 the band bound to RED_EDGE is the
    one bound to RED (position 4 of the band list repeats position 0), and
    the evaluation of NDRE yields the same pixels and the same statistics
    as the evaluation of NDVI, or fails as it does. *)
Theorem ndre_equals_ndvi (sv : service) (satellite : string) (d : dataset)
    (year : Z) (g : region) (clip_ : bool) :
  dict_get datasets satellite = Ok d ->
  satellite <> "Sentinel-2" ->
  nth_error (bands d) 4 = nth_error (bands d) 0 /\
  nth_error (bands d) 0 <> None /\
  result_map unnamed (fst (run (App.calc_index sv satellite "NDRE" year g clip_)))
  = result_map unnamed (fst (run (App.calc_index sv satellite "NDVI" year g clip_))).
Proof.
  intros Hd Hne.
  destruct (red_edge_is_red _ _ Hd Hne) as (b0 & b1 & b2 & b3 & Hbands).
  rewrite Hbands. split; [reflexivity|]. split; [discriminate|].
  unfold run, App.calc_index, bind, lift, emit, ret.
  destruct (App.get_filtered_images sv satellite year g) as [f|e]; [|reflexivity].
  rewrite Hd. cbn [rbind]. rewrite Hbands. cbn [rbind list_get nth_error].
  replace (dict_get indexes "NDRE") with (Ok "(NIR - RED_EDGE) / (NIR + RED_EDGE)")
    by reflexivity.
  replace (dict_get indexes "NDVI") with (Ok "(NIR - RED) / (NIR + RED)") by reflexivity.
  cbn [rbind].
  set (image_ := if clip_ then ee_map (clip sv g) (ee_map median f) else ee_map median f).
  destruct image_ as [im|e]; [|reflexivity].
  cbn [rbind].
  rewrite (expression_ndre_ndvi sv _ _ _ _ 0.5%Q im).
  destruct (expression sv "(NIR - RED) / (NIR + RED)" _ im) as [x|e]; [|reflexivity].
  cbn [rbind]. unfold rename.
  destruct (rasters x) as [|[b r] [|? ?]]; reflexivity.
Qed.

Lemma ndre_equals_ndvi_witness :
  nth_error (bands Fixture.landsat8) 4 = nth_error (bands Fixture.landsat8) 0 /\
  nth_error (bands Fixture.landsat8) 0 <> None /\
  result_map unnamed
    (fst (run (App.calc_index Fixture.sv "Landsat-8" "NDRE" 2020 (Point 1 1) false)))
  = result_map unnamed
      (fst (run (App.calc_index Fixture.sv "Landsat-8" "NDVI" 2020 (Point 1 1) false))).
Proof.
  apply (ndre_equals_ndvi Fixture.sv "Landsat-8" Fixture.landsat8 2020 (Point 1 1) false).
  - reflexivity.
  - discriminate.
Defined.

(** Sentinel-2 has a red-edge band of its own, and there the two indices
    differ. *)
Example sentinel2_ndre_is_not_ndvi :
  result_map unnamed
    (fst (run (App.calc_index Fixture.sv "Sentinel-2" "NDRE" 2020 (Point 1 1) false)))
  <> result_map unnamed
       (fst (run (App.calc_index Fixture.sv "Sentinel-2" "NDVI" 2020 (Point 1 1) false))).
Proof.
  intros H.
  apply (f_equal (fun r => match r with Ok (_, s) => s | Raise _ => [] end)) in H.
  vm_compute in H. discriminate.
Qed.


(** ** The yearly series *)

Lemma calc_index_frame (sv : service) (satellite index_name : string) (year : Z)
    (g : region) (clip_ : bool) (t : list event) :
  App.calc_index sv satellite index_name year g clip_ t
  = (fst (run (App.calc_index sv satellite index_name year g clip_)),
     (t ++ snd (run (App.calc_index sv satellite index_name year g clip_)))%list).
Proof.
  unfold run, App.calc_index, bind, lift, emit, ret.
  destruct (App.get_filtered_images sv satellite year g) as [f|e];
    [|simpl; rewrite app_nil_r; reflexivity].
  destruct (dict_get datasets satellite) as [d|e];
    [|simpl; rewrite app_nil_r; reflexivity].
  cbn [rbind].
  destruct (list_get (bands d) 0) as [b0|e]; [|simpl; rewrite app_nil_r; reflexivity].
  destruct (list_get (bands d) 1) as [b1|e]; [|simpl; rewrite app_nil_r; reflexivity].
  destruct (list_get (bands d) 2) as [b2|e]; [|simpl; rewrite app_nil_r; reflexivity].
  destruct (list_get (bands d) 3) as [b3|e]; [|simpl; rewrite app_nil_r; reflexivity].
  destruct (list_get (bands d) 4) as [b4|e]; [|simpl; rewrite app_nil_r; reflexivity].
  destruct (dict_get indexes index_name) as [formula|e];
    [|simpl; rewrite app_nil_r; reflexivity].
  match goal with |- context [getInfo ?x] => destruct (getInfo x) as [stats|e] end;
    reflexivity.
Qed.

(** A successful evaluation made one request and returns one band, named
    after the index, with its four statistics. *)
Lemma calc_index_Ok_inv (sv : service) (satellite index_name : string) (year : Z)
    (g : region) (clip_ : bool) (index : ee image) (stats : list (string * sample)) :
  fst (run (App.calc_index sv satellite index_name year g clip_)) = Ok (index, stats) ->
  snd (run (App.calc_index sv satellite index_name year g clip_))
  = [GetInfo satellite index_name year g clip_] /\
  exists im r,
    index = Ok im /\ rasters im = [(index_name, r)] /\
    stats = band_stats sv g (index_name, r).
Proof.
  unfold run, App.calc_index, bind, lift, emit, ret.
  destruct (App.get_filtered_images sv satellite year g) as [f|e]; [|discriminate].
  destruct (dict_get datasets satellite) as [d|e]; [|discriminate].
  cbn [rbind].
  destruct (list_get (bands d) 0) as [b0|e]; [|discriminate].
  destruct (list_get (bands d) 1) as [b1|e]; [|discriminate].
  destruct (list_get (bands d) 2) as [b2|e]; [|discriminate].
  destruct (list_get (bands d) 3) as [b3|e]; [|discriminate].
  destruct (list_get (bands d) 4) as [b4|e]; [|discriminate].
  destruct (dict_get indexes index_name) as [formula|e]; [|discriminate].
  match goal with |- context [getInfo (ee_map _ ?x)] => destruct x as [im|e] eqn:Hx end;
    [|discriminate].
  simpl. intros H. injection H as <- <-. split; [reflexivity|].
  apply rbind_Ok in Hx as (x & _ & Hx). unfold rename in Hx.
  destruct (rasters x) as [|[b r] [|? ?]]; try discriminate.
  injection Hx as <-. exists (set_rasters x [(index_name, r)]), r.
  split; [reflexivity|]. split; [reflexivity|].
  unfold reduceRegion. simpl. reflexivity.
Qed.

Lemma append_eqb (a x y : string) :
  String.eqb (a +:+ x) (a +:+ y) = String.eqb x y.
Proof.
  induction a as [|c a IH]; simpl; [reflexivity|].
  rewrite Ascii.eqb_refl. exact IH.
Qed.

(** The statistics hold the three fields the page can ask for. *)
Lemma stats_lookup (sv : service) (g : region) (index_name : string) (r : raster)
    (data : string) :
  In data ["Max"; "Mean"; "Min"] ->
  exists v,
    dict_get (band_stats sv g (index_name, r)) (index_name +:+ "_" +:+ Graph.lower data)
    = Ok v.
Proof.
  intros [<-|[<-|[<-|[]]]]; unfold band_stats; cbn [fst snd dict_get];
    rewrite !append_eqb; simpl; eauto.
Qed.

(** One year appends one value to the column of every requested field. *)
Lemma record_year_spec (index_name : string) (stats : list (string * sample))
    (v : string -> sample) (graph_data : list string) :
  NoDup graph_data ->
  (forall data, In data graph_data ->
                dict_get stats (index_name +:+ "_" +:+ Graph.lower data) = Ok (v data)) ->
  forall (m : gmap string (list sample)) (cols : string -> list sample),
    (forall data, In data graph_data -> m !! data = Some (cols data)) ->
    exists m' : gmap string (list sample),
      Graph.record_year index_name stats graph_data m = Ok m' /\
      (forall data, In data graph_data -> m' !! data = Some (cols data ++ [v data])%list) /\
      (forall k, ~ In k graph_data -> m' !! k = m !! k).
Proof.
  induction graph_data as [|data rest IH]; intros Hnd Hv m cols Hm.
  - exists m. split; [reflexivity|]. split; [intros ? []|reflexivity].
  - inversion Hnd as [|? ? Hnotin Hnd']; subst.
    cbn [Graph.record_year]. unfold Graph.getitem.
    rewrite (Hm data) by now left. cbn [rbind].
    rewrite (Hv data) by now left. cbn [rbind].
    destruct (IH Hnd' (fun d H => Hv d (or_intror H))
                (<[data := (cols data ++ [v data])%list]> m) cols)
      as (m' & Hrun & Hin & Hout).
    { intros d Hd. rewrite lookup_insert_ne; [apply Hm; now right|].
      intros ->. rewrite list_elem_of_In in Hnotin. contradiction. }
    exists m'. split; [exact Hrun|]. split.
    + intros d [<-|Hd]; [|auto].
      rewrite Hout; [apply lookup_insert_eq|].
      rewrite list_elem_of_In in Hnotin. exact Hnotin.
    + intros k Hk. rewrite Hout; [|intros ?; apply Hk; now right].
      apply lookup_insert_ne. intros ->. apply Hk. now left.
Qed.

(** The loop over the years: one request per year, in order, and one value
    per year in every column. *)
Lemma each_year_spec (sv : service) (satellite index_name : string) (g : region)
    (graph_data : list string) :
  NoDup graph_data ->
  (forall data, In data graph_data -> In data ["Max"; "Mean"; "Min"]) ->
  forall (years : list Z),
    (forall y, In y years ->
               is_ok (fst (run (App.calc_index sv satellite index_name y g false))) = true) ->
    forall (m : gmap string (list sample)) (cols : string -> list sample) (t : list event),
      (forall data, In data graph_data -> m !! data = Some (cols data)) ->
      exists m' : gmap string (list sample),
        Graph.each_year sv satellite index_name g graph_data years m t
        = (Ok m', (t ++ map (fun y => GetInfo satellite index_name y g false) years)%list) /\
        forall data, In data graph_data ->
          m' !! data
          = Some (cols data ++ map (fun y => recorded sv satellite index_name g y data) years)%list.
Proof.
  intros Hnd Hfields years. induction years as [|y years IH]; intros Hok m cols t Hm.
  - exists m. simpl. unfold ret. rewrite !app_nil_r. split; [reflexivity|].
    intros data Hd. rewrite app_nil_r. auto.
  - cbn [Graph.each_year]. unfold bind at 1. rewrite calc_index_frame.
    pose proof (Hok y ltac:(now left)) as Hy.
    destruct (fst (run (App.calc_index sv satellite index_name y g false)))
      as [[index stats]|e] eqn:Hrun; [|discriminate].
    destruct (calc_index_Ok_inv _ _ _ _ _ _ _ _ Hrun) as (Htrace & im & r & -> & Him & Hstats).
    rewrite Htrace. cbn [snd].
    assert (Hv : forall data, In data graph_data ->
                 dict_get stats (index_name +:+ "_" +:+ Graph.lower data)
                 = Ok (recorded sv satellite index_name g y data)).
    { intros data Hd. unfold recorded. rewrite Hrun.
      destruct (stats_lookup sv g index_name r data (Hfields data Hd)) as (v & Hv).
      rewrite Hstats, Hv. reflexivity. }
    destruct (record_year_spec index_name stats _ graph_data Hnd Hv m cols Hm)
      as (m1 & Hrec & Hin & _).
    unfold bind, lift. rewrite Hrec.
    destruct (IH (fun y' H => Hok y' (or_intror H)) m1
                (fun data => (cols data ++ [recorded sv satellite index_name g y data])%list)
                (t ++ [GetInfo satellite index_name y g false])%list Hin)
      as (m' & Hrest & Hcols).
    exists m'. split.
    + rewrite Hrest. cbn [map]. rewrite <- app_assoc. reflexivity.
    + intros data Hd. rewrite (Hcols data Hd). cbn [map]. rewrite <- app_assoc.
      reflexivity.
Qed.

(** The dict comprehension: an empty column for every field. *)
Lemma init_columns (graph_data : list string) :
  forall (m : gmap string (list sample)) (data : string),
    In data graph_data \/ m !! data = Some [] ->
    (fold_left (fun d data => <[data := []]> d) graph_data m) !! data = Some [].
Proof.
  induction graph_data as [|x rest IH]; intros m data H; simpl.
  - destruct H as [[]|H]. exact H.
  - apply IH. destruct (decide (x = data)) as [->|Hne].
    + right. apply lookup_insert_eq.
    + destruct H as [[H|H]|H]; [contradiction | now left |].
      right. rewrite lookup_insert_ne by exact Hne. exact H.
Qed.

Lemma set_column_fresh (df : DataFrame) (name : string) (values : list cell) :
  ~ In name (map fst df) ->
  Graph.set_column df name values = (df ++ [(name, values)])%list.
Proof.
  induction df as [|[n c] df IH]; simpl; intros H; [reflexivity|].
  destruct (String.eqb_spec n name) as [->|Hne]; [tauto|].
  rewrite IH; [reflexivity | tauto].
Qed.

Lemma nrows_app (df df' : DataFrame) :
  df <> [] -> Graph.nrows (df ++ df')%list = Graph.nrows df.
Proof. destruct df as [|[n c] df]; [congruence | reflexivity]. Qed.

(** Filling the table: one column per requested field, after the years. *)
Lemma fill_spec (m : gmap string (list sample)) (col : string -> list sample)
    (graph_data : list string) :
  NoDup graph_data ->
  forall df : DataFrame,
    df <> [] ->
    (forall data, In data graph_data -> ~ In data (map fst df)) ->
    (forall data, In data graph_data ->
                  m !! data = Some (col data) /\ length (col data) = Graph.nrows df) ->
    Graph.fill m graph_data df
    = Ok (df ++ map (fun data => (data, map CNum (col data))) graph_data)%list.
Proof.
  induction graph_data as [|data rest IH]; intros Hnd df Hne Hfresh Hm.
  - simpl. rewrite app_nil_r. reflexivity.
  - inversion Hnd as [|? ? Hnotin Hnd']; subst.
    rewrite list_elem_of_In in Hnotin.
    destruct (Hm data ltac:(now left)) as [Hcol Hlen].
    cbn [Graph.fill]. unfold Graph.getitem. rewrite Hcol. cbn [rbind].
    unfold Graph.setitem. rewrite length_map, Hlen, Nat.eqb_refl. cbn [rbind].
    rewrite set_column_fresh by (apply Hfresh; now left).
    rewrite IH; try assumption.
    + cbn [map]. rewrite <- app_assoc. reflexivity.
    + destruct df; discriminate.
    + intros d Hd. rewrite map_app, in_app_iff. simpl.
      intros [H|[H|[]]]; [apply (Hfresh d); [now right | exact H]|].
      subst d. contradiction.
    + intros d Hd. rewrite nrows_app by exact Hne. apply Hm. now right.
Qed.

Lemma dict_get_total {V : Type} (d : list (string * V)) (k : string) :
  In k (map fst d) -> exists v, dict_get d k = Ok v.
Proof.
  induction d as [|[k' v] d IH]; simpl; [intros []|].
  destruct (String.eqb_spec k' k) as [->|Hne]; [eauto|].
  intros [H|H]; [contradiction | auto].
Qed.

(** [range(start, stop)]: the integers from [start] up to [stop - 1]. *)
Lemma range_length (start stop : Z) :
  length (Graph.range start stop) = Z.to_nat (stop - start).
Proof. unfold Graph.range. rewrite length_map, length_seq. reflexivity. Qed.

Lemma range_In (start stop y : Z) :
  In y (Graph.range start stop) <-> start <= y < stop.
Proof.
  unfold Graph.range. rewrite in_map_iff. split.
  - intros (k & <- & Hk). apply in_seq in Hk. lia.
  - intros H. exists (Z.to_nat (y - start)). split; [lia|]. apply in_seq. lia.
Qed.

Lemma range_sorted (start stop : Z) : StronglySorted Z.lt (Graph.range start stop).
Proof.
  unfold Graph.range. generalize (Z.to_nat (stop - start)) as n. generalize 0%nat as a.
  intros a n. revert a. induction n as [|n IH]; intros a; simpl; constructor.
  - apply IH.
  - apply List.Forall_forall. intros y Hy. apply in_map_iff in Hy as (k & <- & Hk).
    apply in_seq in Hk. lia.
Qed.

(** C6, as amended: for a range of years with start <= end, when the
    evaluation of the index succeeds for every year of the range,
    [plot_index_over_time]
    returns a table of end - start + 1 rows, the years in strictly ascending
    order, with one column for each requested field among Max, Mean and Min
    that holds, year by year, that statistic of the year's evaluation; the
    evaluations are requested once per year, in the order of the years, with
    clip = false. *)
Theorem yearly_series (sv : service) (satellite index_name : string)
    (start_year end_year : Z) (g : region) (graph_data : list string) :
  start_year <= end_year ->
  NoDup graph_data ->
  (forall data, In data graph_data -> In data ["Max"; "Mean"; "Min"]) ->
  (forall y, start_year <= y <= end_year ->
             is_ok (fst (run (App.calc_index sv satellite index_name y g false))) = true) ->
  let years := Graph.range start_year (end_year + 1) in
  length years = Z.to_nat (end_year - start_year + 1) /\
  StronglySorted Z.lt years /\
  (forall y, In y years <-> start_year <= y <= end_year) /\
  (exists fig,
      run (Graph.plot_index_over_time sv satellite index_name start_year end_year g
             graph_data)
      = (Ok (fig,
             ("Year", map CInt years)
               :: map (fun data =>
                         (data, map (fun y => CNum (recorded sv satellite index_name g y data))
                                    years)) graph_data),
         map (fun y => GetInfo satellite index_name y g false) years)) /\
  (forall y data,
      In y years -> In data graph_data ->
      exists index stats,
        fst (run (App.calc_index sv satellite index_name y g false)) = Ok (index, stats) /\
        dict_get stats (index_name +:+ "_" +:+ Graph.lower data)
        = Ok (recorded sv satellite index_name g y data)).
Proof.
  intros Hle Hnd Hfields Hok years.
  assert (Hyears : forall y, In y years <-> start_year <= y <= end_year).
  { intros y. unfold years. rewrite range_In. lia. }
  split; [unfold years; rewrite range_length; f_equal; lia|].
  split; [apply range_sorted|]. split; [exact Hyears|]. split.
  - unfold run, Graph.plot_index_over_time. fold years.
    set (m0 := fold_left (fun d data => <[data := []]> d) graph_data ∅).
    destruct (each_year_spec sv satellite index_name g graph_data Hnd Hfields years
                (fun y Hy => Hok y (proj1 (Hyears y) Hy)) m0 (fun _ => []) [])
      as (m & Hrun & Hcols).
    { intros data Hd. apply init_columns. now left. }
    unfold bind at 1. rewrite Hrun. cbn [app].
    assert (Hfill :
              Graph.fill m graph_data [("Year", map CInt years)]
              = Ok (("Year", map CInt years)
                      :: map (fun data =>
                                (data,
                                 map CNum (map (fun y => recorded sv satellite index_name g y data)
                                               years))) graph_data)).
    { apply (fill_spec m (fun data => map (fun y => recorded sv satellite index_name g y data)
                                         years) graph_data Hnd [("Year", map CInt years)]).
      - discriminate.
      - intros data Hd [H|[]]. simpl in H. subst data.
        specialize (Hfields _ Hd). simpl in Hfields.
        destruct Hfields as [H|[H|[H|[]]]]; discriminate.
      - intros data Hd. split; [rewrite (Hcols data Hd); reflexivity|].
        simpl. rewrite !length_map. reflexivity. }
    unfold bind at 1. unfold lift at 1. rewrite Hfill.
    set (df := ("Year", map CInt years) :: _).
    assert (Hlines : exists lines,
               mapM (fun data => let! ys := Graph.column df data in
                                 Ok (data +:+ " " +:+ index_name, ys)) graph_data
               = Ok lines).
    { apply mapM_total. intros data Hd.
      destruct (dict_get_total df data) as (c & Hc).
      { unfold df. simpl. right. rewrite map_map. simpl. rewrite map_id. exact Hd. }
      unfold Graph.column. rewrite Hc. simpl. eauto. }
    destruct Hlines as (lines & Hlines).
    unfold bind, lift, ret. rewrite Hlines.
    eexists. f_equal. f_equal. f_equal. unfold df. f_equal.
    apply map_ext. intros data. rewrite map_map. reflexivity.
  - intros y data Hy Hd.
    pose proof (Hok y (proj1 (Hyears y) Hy)) as Hrun.
    destruct (fst (run (App.calc_index sv satellite index_name y g false)))
      as [[index stats]|e] eqn:Hres; [|discriminate].
    exists index, stats. split; [reflexivity|].
    destruct (calc_index_Ok_inv _ _ _ _ _ _ _ _ Hres) as (_ & im & r & _ & _ & Hstats).
    destruct (stats_lookup sv g index_name r data (Hfields data Hd)) as (v & Hv).
    unfold recorded. rewrite Hres, Hstats, Hv. reflexivity.
Qed.

Lemma yearly_series_witness :
  let years := Graph.range 2020 (2021 + 1) in
  length years = Z.to_nat (2021 - 2020 + 1) /\
  StronglySorted Z.lt years /\
  (forall y, In y years <-> 2020 <= y <= 2021) /\
  (exists fig,
      run (Graph.plot_index_over_time Fixture.sv "Landsat-8" "NDVI" 2020 2021 (Point 1 1)
             ["Max"; "Min"])
      = (Ok (fig,
             ("Year", map CInt years)
               :: map (fun data =>
                         (data,
                          map (fun y => CNum (recorded Fixture.sv "Landsat-8" "NDVI"
                                                       (Point 1 1) y data)) years))
                      ["Max"; "Min"]),
         map (fun y => GetInfo "Landsat-8" "NDVI" y (Point 1 1) false) years)) /\
  (forall y data,
      In y years -> In data ["Max"; "Min"] ->
      exists index stats,
        fst (run (App.calc_index Fixture.sv "Landsat-8" "NDVI" y (Point 1 1) false))
        = Ok (index, stats) /\
        dict_get stats ("NDVI" +:+ "_" +:+ Graph.lower data)
        = Ok (recorded Fixture.sv "Landsat-8" "NDVI" (Point 1 1) y data)).
Proof.
  apply (yearly_series Fixture.sv "Landsat-8" "NDVI" 2020 2021 (Point 1 1) ["Max"; "Min"]).
  - lia.
  - repeat constructor; rewrite list_elem_of_In; simpl; intuition discriminate.
  - simpl. intuition.
  - intros y Hy. assert (y = 2020 \/ y = 2021) as [-> | ->] by lia; reflexivity.
Defined.

(** C6 fails where a year of the range has no scene over the region: from
    2020 to 2022, with no Landsat-8 scene of 2022 in the catalogue,
    [plot_index_over_time] requests the three years and raises the service's
    exception of the third; it returns no table, not even the entries of
    2020 and 2021. *)
Lemma year_without_scene_gives_no_series :
  2020 <= 2022 /\
  App.get_filtered_images Fixture.sv "Landsat-8" 2022 (Point 1 1) = Ok (Ok []) /\
  run (Graph.plot_index_over_time Fixture.sv "Landsat-8" "NDVI" 2020 2022 (Point 1 1)
         ["Max"; "Mean"; "Min"])
  = (Raise (EEException "Image.select: pattern did not match any bands"),
     [GetInfo "Landsat-8" "NDVI" 2020 (Point 1 1) false;
      GetInfo "Landsat-8" "NDVI" 2021 (Point 1 1) false;
      GetInfo "Landsat-8" "NDVI" 2022 (Point 1 1) false]).
Proof. split; [lia|]. split; reflexivity. Qed.

(** Called on a range with the start after the end, [plot_index_over_time]
    itself raises nothing: it makes no request and returns a table without
    rows. The check of the range is in [main]. *)
Lemma plot_index_over_time_empty_range (sv : service) (satellite index_name : string)
    (start_year end_year : Z) (g : region) (graph_data : list string) :
  end_year < start_year ->
  NoDup graph_data ->
  (forall data, In data graph_data -> In data ["Max"; "Mean"; "Min"]) ->
  exists fig,
    run (Graph.plot_index_over_time sv satellite index_name start_year end_year g
           graph_data)
    = (Ok (fig, ("Year", []) :: map (fun data => (data, [])) graph_data), []).
Proof.
  intros Hlt Hnd Hfields.
  unfold run, Graph.plot_index_over_time, Graph.range.
  replace (Z.to_nat (end_year + 1 - start_year)) with 0%nat by lia.
  cbn [seq map Graph.each_year]. unfold bind at 1. unfold ret at 1.
  set (m0 := fold_left (fun d data => <[data := []]> d) graph_data ∅).
  assert (Hfill : Graph.fill m0 graph_data [("Year", [])]
                  = Ok (("Year", []) :: map (fun data => (data, [])) graph_data)).
  { apply (fill_spec m0 (fun _ => []) graph_data Hnd [("Year", [])]).
    - discriminate.
    - intros data Hd [H|[]]. simpl in H. subst data.
      specialize (Hfields _ Hd). simpl in Hfields.
      destruct Hfields as [H|[H|[H|[]]]]; discriminate.
    - intros data Hd. split; [|reflexivity]. apply init_columns. now left. }
  unfold bind at 1. unfold lift at 1. rewrite Hfill.
  set (df := ("Year", []) :: _).
  assert (Hlines : exists lines,
             mapM (fun data => let! ys := Graph.column df data in
                               Ok (data +:+ " " +:+ index_name, ys)) graph_data
             = Ok lines).
  { apply mapM_total. intros data Hd.
    destruct (dict_get_total df data) as (c & Hc).
    { unfold df. simpl. right. rewrite map_map. simpl. rewrite map_id. exact Hd. }
    unfold Graph.column. rewrite Hc. simpl. eauto. }
  destruct Hlines as (lines & Hlines).
  unfold bind, lift, ret. rewrite Hlines. eauto.
Qed.

(** ** The pages *)

Lemma framed_ret {A : Type} (a : A) : framed (ret a).
Proof. intros t. unfold run, ret. simpl. rewrite app_nil_r. reflexivity. Qed.

Lemma framed_emit (e : event) : framed (emit e).
Proof. intros t. reflexivity. Qed.

Lemma framed_lift {A : Type} (r : result A) : framed (lift r).
Proof. intros t. unfold run, lift. simpl. rewrite app_nil_r. reflexivity. Qed.

Lemma framed_bind {A B : Type} (m : ui A) (k : A -> ui B) :
  framed m -> (forall a, framed (k a)) -> framed (bind m k).
Proof.
  intros Hm Hk t. unfold run, bind. rewrite (Hm t).
  destruct (m []) as [[a|e] t1] eqn:Hrun; unfold run; rewrite Hrun; simpl.
  - rewrite (Hk a (t ++ t1)%list), (Hk a t1). simpl. rewrite app_assoc. reflexivity.
  - reflexivity.
Qed.

Lemma framed_calc_index (sv : service) (satellite index_name : string) (year : Z)
    (g : region) (clip_ : bool) :
  framed (App.calc_index sv satellite index_name year g clip_).
Proof. intros t. apply calc_index_frame. Qed.

Lemma framed_addLayer (im : ee image) (vis : vis_params) (name : string) :
  framed (addLayer im vis name).
Proof.
  unfold addLayer. apply framed_bind; [apply framed_emit | intros _; apply framed_lift].
Qed.

Lemma framed_centerObject (g : region) (zoom : Z) : framed (centerObject g zoom).
Proof. apply framed_emit. Qed.

Lemma framed_add_rgb_layer_to_map (sv : service) (satellite : string) (year : Z)
    (g : region) (brightness : Z) (clip_ : option bool) (gamma : Q) :
  framed (App.add_rgb_layer_to_map sv satellite year g brightness clip_ gamma).
Proof.
  unfold App.add_rgb_layer_to_map.
  repeat first [apply framed_bind; [|intros ?] | apply framed_lift | apply framed_emit
               | apply framed_ret | apply framed_addLayer | apply framed_centerObject].
Qed.

(** The three ways the upload block ends. *)
Lemma upload_cases (plot : bool) (up : option archive) (t : list event) :
  upload plot up t
  = match up with
    | None => (Ok (None, None), t)
    | Some zip_ref =>
        match find_shapefile (walk zip_ref) with
        | None =>
            (Raise (UnboundLocalError "gdf"),
             (t ++ [StError "Shapefile (.shp) not found in the uploaded zip file."])%list)
        | Some path =>
            let gdf := read_file zip_ref path in
            (Ok (if negb (empty gdf) then Some (FeatureCollection gdf) else None, Some gdf),
             (t ++ (if plot then [StImage "Geopandas Plot"] else []))%list)
        end
    end.
Proof.
  destruct up as [z|]; [|reflexivity].
  unfold upload. destruct (find_shapefile (walk z)) as [path|]; [|reflexivity].
  destruct plot; unfold bind, emit, ret, lift; simpl;
    destruct (empty (read_file z path)); simpl; rewrite ?app_nil_r; reflexivity.
Qed.

(** C5: with the start year after the end year, the run of the graph page
    makes no request to the service and shows no computed layer, and, where
    the upload block did not raise, it ends having shown the range error and
    nothing else. *)
Theorem invalid_range_is_reported (sv : service) (inp : Graph.inputs) :
  Graph.end_year inp < Graph.start_year inp ->
  (forall e, In e (snd (run (Graph.main sv inp))) ->
             is_request e = false /\ is_layer e = false) /\
  (is_ok (fst (run (upload false (Graph.uploaded_shp_file inp)))) = true ->
   run (Graph.main sv inp)
   = (Ok tt, [StError "End year should be greater ar equal to start year."])).
Proof.
  intros Hlt. unfold run, Graph.main, bind. rewrite upload_cases.
  assert (Hgt : (Graph.start_year inp <=? Graph.end_year inp) = false)
    by (apply Z.leb_gt; exact Hlt).
  destruct (Graph.uploaded_shp_file inp) as [z|].
  - destruct (find_shapefile (walk z)) as [path|]; simpl; rewrite ?Hgt.
    + split; [|reflexivity]. intros e [<-|[]]. split; reflexivity.
    + split; [|discriminate]. intros e [<-|[]]. split; reflexivity.
  - simpl. rewrite Hgt. split; [|reflexivity]. intros e [<-|[]]. split; reflexivity.
Qed.

Lemma invalid_range_is_reported_witness :
  (forall e, In e (snd (run (Graph.main Fixture.sv
                               (Fixture.graph_inputs 10 20 None 2018 2016)))) ->
             is_request e = false /\ is_layer e = false) /\
  (is_ok (fst (run (upload false None))) = true ->
   run (Graph.main Fixture.sv (Fixture.graph_inputs 10 20 None 2018 2016))
   = (Ok tt, [StError "End year should be greater ar equal to start year."])).
Proof.
  apply (invalid_range_is_reported Fixture.sv (Fixture.graph_inputs 10 20 None 2018 2016)).
  simpl. lia.
Defined.

Ltac frame :=
  repeat first
    [ apply framed_bind; [|intros ?]
    | apply framed_lift
    | apply framed_emit
    | apply framed_ret
    | apply framed_calc_index
    | apply framed_addLayer
    | apply framed_centerObject
    | apply framed_add_rgb_layer_to_map ].

(** An archive without a [.shp] member: the error is shown, then the read
    of the unassigned [gdf] raises. *)
Lemma upload_without_shp (plot : bool) (z : archive) :
  find_shapefile (walk z) = None ->
  run (upload plot (Some z))
  = (Raise (UnboundLocalError "gdf"),
     [StError "Shapefile (.shp) not found in the uploaded zip file."]).
Proof. intros H. unfold run. rewrite upload_cases, H. reflexivity. Qed.

(** C3, as amended: when the uploaded archive has no [.shp] member, the
    first thing the run of either page does is to show the error "Shapefile
    (.shp) not found in the uploaded zip file.", before any request to the
    service; when the shapefile reads as an empty table, no error is shown
    and the upload gives no region: the graph page runs as with no upload,
    and so does the map page once it has shown the plot of the table. *)
Theorem malformed_upload (sv : service) (z : archive) :
  (find_shapefile (walk z) = None ->
   (forall inp, Graph.uploaded_shp_file inp = Some z ->
                exists r rest,
                  run (Graph.main sv inp)
                  = (r, StError "Shapefile (.shp) not found in the uploaded zip file."
                          :: rest)) /\
   (forall inp, App.uploaded_shp_file inp = Some z ->
                exists r rest,
                  run (App.main sv inp)
                  = (r, StError "Shapefile (.shp) not found in the uploaded zip file."
                          :: rest))) /\
  (forall path,
      find_shapefile (walk z) = Some path -> read_file z path = [] ->
      (forall inp, Graph.uploaded_shp_file inp = Some z ->
                   run (Graph.main sv inp) = run (Graph.main sv (Graph.without_upload inp))) /\
      (forall inp, App.uploaded_shp_file inp = Some z ->
                   run (App.main sv inp)
                   = (fst (run (App.main sv (App.without_upload inp))),
                      StImage "Geopandas Plot"
                        :: snd (run (App.main sv (App.without_upload inp)))))).
Proof.
  split.
  - intros Hnone. split; intros inp Hup.
    + unfold run, Graph.main, bind. rewrite upload_cases, Hup, Hnone. simpl. eauto.
    + unfold run, App.main, bind. rewrite upload_cases, Hup, Hnone. simpl. eauto.
  - intros path Hpath Hempty. split; intros inp Hup.
    + unfold run, Graph.main, bind. rewrite !upload_cases, Hup, Hpath. simpl.
      rewrite Hempty. reflexivity.
    + unfold App.main.
      match goal with |- run (bind _ ?k) = _ => set (K := k) end.
      match goal with |- _ = (fst (run (bind _ ?k)), _) => set (K' := k) end.
      assert (Hf : framed (K (None, Some []))).
      { unfold K. cbn [fst snd]. destruct (coordinates _ _); frame. }
      assert (HK : K' (None, None) = K (None, Some [])) by reflexivity.
      unfold run, bind. rewrite !upload_cases, Hup, Hpath.
      cbn [App.without_upload App.uploaded_shp_file]. cbv zeta. rewrite Hempty.
      cbn [empty negb app]. rewrite HK.
      etransitivity; [apply (Hf [StImage "Geopandas Plot"])|]. reflexivity.
Qed.

(** C3 fails at an archive whose shapefile reads as an empty table, uploaded
    with the point (10, 20) set: the graph page shows no error and requests
    the index over the point. *)
Lemma empty_table_is_not_reported :
  let inp := Fixture.graph_inputs 10 20 (Some Fixture.empty_shp) 2020 2020 in
  find_shapefile (walk Fixture.empty_shp) = Some "/tmp/x/area.shp" /\
  read_file Fixture.empty_shp "/tmp/x/area.shp" = [] /\
  fst (run (Graph.main Fixture.sv inp)) = Ok tt /\
  existsb is_error (snd (run (Graph.main Fixture.sv inp))) = false /\
  existsb is_request (snd (run (Graph.main Fixture.sv inp))) = true.
Proof. repeat split; vm_compute; reflexivity. Qed.

(** An archive without a [.shp] member, on both pages: the error is shown
    and the run ends there, on the read of [gdf]. *)
Example no_shp_runs :
  run (Graph.main Fixture.sv (Fixture.graph_inputs 10 20 (Some Fixture.no_shp) 2020 2020))
  = (Raise (UnboundLocalError "gdf"),
     [StError "Shapefile (.shp) not found in the uploaded zip file."]) /\
  run (App.main Fixture.sv (Fixture.app_inputs 10 20 (Some Fixture.no_shp)))
  = (Raise (UnboundLocalError "gdf"),
     [StError "Shapefile (.shp) not found in the uploaded zip file."]).
Proof. split; reflexivity. Qed.

(** * Further properties of the code *)

(** ** Finding the shapefile *)

Lemma length_append (a b : string) :
  String.length (a +:+ b) = (String.length a + String.length b)%nat.
Proof. induction a as [|c a IH]; simpl; [reflexivity | now rewrite IH]. Qed.

Lemma substring_all (s : string) : substring 0 (String.length s) s = s.
Proof. induction s as [|c s IH]; simpl; [reflexivity | now rewrite IH]. Qed.

Lemma substring_append_r (a b : string) :
  substring (String.length a) (String.length b) (a +:+ b) = b.
Proof. induction a as [|c a IH]; simpl; [apply substring_all | exact IH]. Qed.

Lemma substring_split (s : string) (n k : nat) :
  (n + k)%nat = String.length s ->
  s = substring 0 n s +:+ substring n k s.
Proof.
  revert n. induction s as [|c s IH]; intros n H; simpl in *.
  - destruct n; [destruct k|]; simpl; try reflexivity; try discriminate.
  - destruct n as [|n]; simpl.
    + destruct k as [|k]; [discriminate|]. simpl. injection H as H.
      rewrite H, substring_all. reflexivity.
    + change (String c s = String c (substring 0 n s +:+ substring n k s)).
      f_equal. apply IH. lia.
Qed.

(** [endswith] holds exactly of the strings that are a prefix followed by
    the suffix. *)
Lemma endswith_iff (file suffix : string) :
  endswith file suffix = true <-> exists prefix, file = prefix +:+ suffix.
Proof.
  unfold endswith. rewrite andb_true_iff, Nat.leb_le, String.eqb_eq. split.
  - intros [Hle Hsub]. exists (substring 0 (String.length file - String.length suffix) file).
    pose proof (substring_split file (String.length file - String.length suffix)
                  (String.length suffix) ltac:(lia)) as H.
    rewrite Hsub in H. exact H.
  - intros (prefix & ->). rewrite length_append. split; [lia|].
    replace (String.length prefix + String.length suffix - String.length suffix)%nat
      with (String.length prefix) by lia.
    apply substring_append_r.
Qed.

Lemma first_shp_None (root : string) (files : list string) :
  first_shp root files = None <-> has_shp files = false.
Proof.
  unfold has_shp, is_shp. induction files as [|file files IH]; simpl; [tauto|].
  destruct (endswith file ".shp"); simpl; [split; discriminate | exact IH].
Qed.

Lemma first_shp_Some (root : string) (files : list string) (path : string) :
  first_shp root files = Some path <->
  exists pre file post,
    files = (pre ++ file :: post)%list /\ has_shp pre = false /\ is_shp file = true /\
    path = root +:+ "/" +:+ file.
Proof.
  unfold has_shp, is_shp. induction files as [|file files IH]; simpl.
  - split; [discriminate|]. intros (pre & f & post & H & _). destruct pre; discriminate.
  - destruct (endswith file ".shp") eqn:Hf.
    + split.
      * intros [= <-]. exists [], file, files. auto.
      * intros (pre & f & post & H & Hpre & Hshp & ->).
        destruct pre as [|f' pre]; simpl in *.
        -- injection H as <- <-. reflexivity.
        -- injection H as <- _. rewrite Hf in Hpre. discriminate.
    + rewrite IH. split.
      * intros (pre & f & post & -> & Hpre & Hshp & ->).
        exists (file :: pre), f, post. simpl. rewrite Hf. auto.
      * intros (pre & f & post & H & Hpre & Hshp & ->).
        destruct pre as [|f' pre]; simpl in *.
        -- injection H as <- <-. congruence.
        -- injection H as <- ->. rewrite Hf in Hpre. eauto 8.
Qed.

(** The walk, read from its end: the last directory decides when it has a
    shapefile, and the directories before it otherwise. *)
Lemma find_shapefile_snoc (w : list (string * list string)) (root : string)
    (files : list string) :
  find_shapefile (w ++ [(root, files)])
  = match first_shp root files with
    | Some path => Some path
    | None => find_shapefile w
    end.
Proof. unfold find_shapefile. rewrite fold_left_app. reflexivity. Qed.

(** X1. No shapefile is found exactly when no file of any directory of the
    archive has a name ending in [.shp]. *)
Theorem find_shapefile_None_iff (w : list (string * list string)) :
  find_shapefile w = None <->
  forall root files file,
    In (root, files) w -> In file files -> ~ exists prefix, file = prefix +:+ ".shp".
Proof.
  induction w as [|[root files] w IH] using rev_ind.
  - split; [intros _ ? ? ? []|reflexivity].
  - rewrite find_shapefile_snoc. destruct (first_shp root files) as [path|] eqn:Hfirst.
    + split; [discriminate|]. intros H. exfalso.
      apply first_shp_Some in Hfirst as (pre & file & post & -> & _ & Hshp & _).
      apply (H root (pre ++ file :: post)%list file).
      * apply in_or_app. right. now left.
      * apply in_or_app. right. now left.
      * apply endswith_iff. exact Hshp.
    + rewrite IH. apply first_shp_None in Hfirst. split.
      * intros H r fs f Hin Hf. apply in_app_or in Hin as [Hin|[[= <- <-]|[]]].
        -- eapply H; eauto.
        -- intros Hsuffix. apply endswith_iff in Hsuffix.
           unfold has_shp in Hfirst.
           assert (existsb is_shp files = true) by (apply existsb_exists; eauto).
           congruence.
      * intros H r fs f Hin Hf. apply (H r fs f); [|exact Hf].
        apply in_or_app. now left.
Qed.

(** X2. The shapefile found is the first [.shp] file of the last directory
    of the walk that holds one: the [break] leaves the inner loop only, so a
    later directory overrides an earlier one. *)
Theorem find_shapefile_Some_iff (w : list (string * list string)) (path : string) :
  find_shapefile w = Some path <->
  exists w1 root pre file post w2,
    w = (w1 ++ (root, (pre ++ file :: post)%list) :: w2)%list /\
    path = root +:+ "/" +:+ file /\
    is_shp file = true /\
    has_shp pre = false /\
    forall rf, In rf w2 -> has_shp (snd rf) = false.
Proof.
  induction w as [|[root files] w IH] using rev_ind.
  - split; [discriminate|]. intros (w1 & ? & ? & ? & ? & ? & H & _).
    destruct w1; discriminate.
  - rewrite find_shapefile_snoc. destruct (first_shp root files) as [p|] eqn:Hfirst.
    + split.
      * intros [= <-]. apply first_shp_Some in Hfirst as (pre & file & post & -> & Hpre & Hshp & ->).
        exists w, root, pre, file, post, []. repeat split; auto. intros ? [].
      * intros (w1 & r & pre & file & post & w2 & H & -> & Hshp & Hpre & Hlater).
        destruct w2 as [|x w2 _] using rev_ind.
        -- apply app_inj_tail in H as [_ [= -> ->]].
           assert (first_shp r (pre ++ file :: post)%list = Some (r +:+ "/" +:+ file))
             by (apply first_shp_Some; eauto 8).
           congruence.
        -- exfalso. rewrite app_comm_cons, app_assoc in H.
           apply app_inj_tail in H as [_ <-].
           specialize (Hlater (root, files) ltac:(apply in_or_app; right; now left)).
           simpl in Hlater. apply (proj2 (first_shp_None root files)) in Hlater. congruence.
    + rewrite IH. apply first_shp_None in Hfirst. split.
      * intros (w1 & r & pre & file & post & w2 & -> & -> & Hshp & Hpre & Hlater).
        exists w1, r, pre, file, post, (w2 ++ [(root, files)])%list.
        rewrite <- app_assoc. repeat split; auto.
        intros rf Hin. apply in_app_or in Hin as [Hin|[<-|[]]]; auto.
      * intros (w1 & r & pre & file & post & w2 & H & -> & Hshp & Hpre & Hlater).
        destruct w2 as [|x w2 _] using rev_ind.
        -- exfalso. apply app_inj_tail in H as [_ [= -> ->]].
           unfold has_shp in Hfirst. rewrite existsb_app in Hfirst. simpl in Hfirst.
           rewrite Hshp in Hfirst. rewrite orb_true_r in Hfirst. discriminate.
        -- rewrite app_comm_cons, app_assoc in H. apply app_inj_tail in H as [-> <-].
           exists w1, r, pre, file, post, w2. repeat split; auto.
           intros rf Hin. apply Hlater. apply in_or_app. now left.
Qed.

(** ** Runs of the pages, piece by piece *)

Lemma run_bind {A B : Type} (m : ui A) (k : A -> ui B) :
  (forall a, framed (k a)) ->
  run (bind m k)
  = match run m with
    | (Ok a, t) => (fst (run (k a)), (t ++ snd (run (k a)))%list)
    | (Raise e, t) => (Raise e, t)
    end.
Proof.
  intros Hk. unfold run, bind. destruct (m []) as [[a|e] t]; [apply Hk | reflexivity].
Qed.

Lemma framed_upload (plot : bool) (up : option archive) : framed (upload plot up).
Proof.
  intros t. unfold run. rewrite !upload_cases.
  destruct up as [z|]; [destruct (find_shapefile (walk z)) as [path|]|];
    simpl; rewrite ?app_nil_r; reflexivity.
Qed.

Lemma framed_each_year (sv : service) (satellite index_name : string) (g : region)
    (graph_data : list string) (years : list Z) :
  forall m, framed (Graph.each_year sv satellite index_name g graph_data years m).
Proof.
  induction years as [|y years IH]; intros m; cbn [Graph.each_year].
  - apply framed_ret.
  - apply framed_bind; [apply framed_calc_index|]. intros res.
    apply framed_bind; [apply framed_lift|]. intros d. apply IH.
Qed.

Lemma framed_plot_index_over_time (sv : service) (satellite index_name : string)
    (start_year end_year : Z) (g : region) (graph_data : list string) :
  framed (Graph.plot_index_over_time sv satellite index_name start_year end_year g
            graph_data).
Proof.
  unfold Graph.plot_index_over_time.
  apply framed_bind; [apply framed_each_year|]. intros m. frame.
Qed.

Lemma framed_graph_main (sv : service) (inp : Graph.inputs) : framed (Graph.main sv inp).
Proof.
  unfold Graph.main. apply framed_bind; [apply framed_upload|]. intros up.
  destruct (Graph.start_year inp <=? Graph.end_year inp); [|apply framed_emit].
  destruct (coordinates _ _), (fst up); try apply framed_ret;
    (apply framed_bind; [apply framed_plot_index_over_time|]; intros res; frame).
Qed.

(** What the map page does once the upload block has ended with [roi] and
    [gdf]: the rest of [main]. *)
Lemma framed_app_main (sv : service) (inp : App.inputs) : framed (App.main sv inp).
Proof.
  unfold App.main. apply framed_bind; [apply framed_upload|]. intros up.
  apply framed_bind.
  { destruct (coordinates _ _), (fst up); frame. }
  intros _. apply framed_bind; [|intros _; apply framed_emit].
  destruct (fst up); [|apply framed_ret].
  apply framed_bind; [apply framed_emit|]. intros _.
  apply framed_bind; [apply framed_add_rgb_layer_to_map|]. intros _.
  apply framed_bind; [|intros _; frame].
  destruct (App.check_index inp); frame.
Qed.

Lemma requests_app (a b : list event) :
  requests (a ++ b)%list = (requests a + requests b)%nat.
Proof. unfold requests. rewrite List.filter_app, List.length_app. reflexivity. Qed.

Lemma requests_bind {A B : Type} (m : ui A) (k : A -> ui B) (a b : nat) :
  (forall x, framed (k x)) ->
  (requests (snd (run m)) <= a)%nat ->
  (forall x, requests (snd (run (k x))) <= b)%nat ->
  (requests (snd (run (bind m k))) <= a + b)%nat.
Proof.
  intros Hk Hm Hb. rewrite (run_bind m k Hk).
  destruct (run m) as [[x|e] t]; simpl in *.
  - rewrite requests_app. specialize (Hb x). lia.
  - lia.
Qed.

Lemma requests_emit (e : event) : is_request e = false -> requests (snd (run (emit e))) = 0%nat.
Proof. intros H. unfold requests, run, emit. simpl. rewrite H. reflexivity. Qed.

Lemma requests_lift {A : Type} (r : result A) : requests (snd (run (lift r))) = 0%nat.
Proof. reflexivity. Qed.

Lemma requests_ret {A : Type} (a : A) : requests (snd (run (ret a))) = 0%nat.
Proof. reflexivity. Qed.

Lemma requests_upload (plot : bool) (up : option archive) :
  requests (snd (run (upload plot up))) = 0%nat.
Proof.
  unfold run. rewrite upload_cases.
  destruct up as [z|]; [destruct (find_shapefile (walk z)); [destruct plot|]|];
    reflexivity.
Qed.

(** The events of [add_rgb_layer_to_map]: nothing when the dataset is not
    registered, the call of [addLayer] alone when the service refuses the
    layer, and else the layer and the centring of the map. *)
Lemma add_rgb_layer_to_map_events (sv : service) (satellite : string) (year : Z)
    (g : region) (brightness : Z) (clip_ : option bool) (gamma : Q) :
  (exists e, run (App.add_rgb_layer_to_map sv satellite year g brightness clip_ gamma)
             = (Raise e, [])) \/
  (exists e im vis,
      run (App.add_rgb_layer_to_map sv satellite year g brightness clip_ gamma)
      = (Raise e, [MapAddLayer im vis (satellite +:+ " " +:+ pretty year +:+ " RGB")])) \/
  (exists im vis,
      run (App.add_rgb_layer_to_map sv satellite year g brightness clip_ gamma)
      = (Ok tt, [MapAddLayer im vis (satellite +:+ " " +:+ pretty year +:+ " RGB");
                 MapCenterObject g 10])).
Proof.
  unfold run, App.add_rgb_layer_to_map, addLayer, centerObject, bind, lift, emit.
  destruct (App.get_filtered_images sv satellite year g) as [f|e]; [|left; eauto].
  destruct (mapM _ [0; 1; 2]%nat) as [rgb|e]; [|left; eauto].
  right. cbn [app].
  match goal with |- context [getMapId ?im ?vis] => destruct (getMapId im vis) as [[]|e] end;
    [right | left]; eauto.
Qed.

Lemma requests_add_rgb_layer_to_map (sv : service) (satellite : string) (year : Z)
    (g : region) (brightness : Z) (clip_ : option bool) (gamma : Q) :
  requests (snd (run (App.add_rgb_layer_to_map sv satellite year g brightness clip_ gamma)))
  = 0%nat.
Proof.
  destruct (add_rgb_layer_to_map_events sv satellite year g brightness clip_ gamma)
    as [(e & ->)|[(e & im & vis & ->)|(im & vis & ->)]]; reflexivity.
Qed.

(** [calc_index] makes one request, or none when it raises before. *)
Lemma requests_calc_index (sv : service) (satellite index_name : string) (year : Z)
    (g : region) (clip_ : bool) :
  (requests (snd (run (App.calc_index sv satellite index_name year g clip_))) <= 1)%nat.
Proof.
  unfold requests, run, App.calc_index, bind, lift, emit, ret.
  destruct (App.get_filtered_images sv satellite year g) as [f|e]; [|simpl; lia].
  destruct (dict_get datasets satellite) as [d|e]; [|simpl; lia].
  cbn [rbind].
  destruct (list_get (bands d) 0) as [b0|e]; [|simpl; lia].
  destruct (list_get (bands d) 1) as [b1|e]; [|simpl; lia].
  destruct (list_get (bands d) 2) as [b2|e]; [|simpl; lia].
  destruct (list_get (bands d) 3) as [b3|e]; [|simpl; lia].
  destruct (list_get (bands d) 4) as [b4|e]; [|simpl; lia].
  destruct (dict_get indexes index_name) as [formula|e]; [|simpl; lia].
  match goal with |- context [getInfo ?x] => destruct (getInfo x) as [stats|e] end;
    simpl; lia.
Qed.

Ltac frame_all :=
  repeat first
    [ apply framed_bind; [|intros ?]
    | apply framed_lift
    | apply framed_emit
    | apply framed_ret
    | apply framed_calc_index
    | apply framed_addLayer
    | apply framed_centerObject
    | apply framed_add_rgb_layer_to_map
    | apply framed_upload
    | apply framed_plot_index_over_time
    | match goal with
      | |- framed (if ?c then _ else _) => destruct c
      | |- framed (match ?c with _ => _ end) => destruct c
      end ].

(** A bound on the requests of a computation, from the bounds of its
    pieces. *)
Ltac count_requests :=
  eapply Nat.le_trans;
  [ lazymatch goal with
    | |- (requests (snd (run (bind _ _))) <= _)%nat =>
        eapply requests_bind;
        [ intros ?; frame_all | count_requests | intros ?; count_requests ]
    | |- (requests (snd (run (emit _))) <= _)%nat =>
        rewrite requests_emit by reflexivity; apply Nat.le_refl
    | |- (requests (snd (run (lift _))) <= _)%nat =>
        rewrite requests_lift; apply Nat.le_refl
    | |- (requests (snd (run (ret _))) <= _)%nat =>
        rewrite requests_ret; apply Nat.le_refl
    | |- (requests (snd (run (upload _ _))) <= _)%nat =>
        rewrite requests_upload; apply Nat.le_refl
    | |- (requests (snd (run (addLayer _ _ _))) <= _)%nat =>
        unfold addLayer; count_requests
    | |- (requests (snd (run (centerObject _ _))) <= _)%nat =>
        unfold centerObject; count_requests
    | |- (requests (snd (run (App.add_rgb_layer_to_map _ _ _ _ _ _ _))) <= _)%nat =>
        rewrite requests_add_rgb_layer_to_map; apply Nat.le_refl
    | |- (requests (snd (run (App.calc_index _ _ _ _ _ _))) <= _)%nat =>
        apply requests_calc_index
    | |- (requests (snd (run (if ?c then _ else _))) <= _)%nat =>
        destruct c; count_requests
    | |- (requests (snd (run (match ?c with _ => _ end))) <= _)%nat =>
        destruct c; count_requests
    end
  | first [apply Nat.le_refl | simpl; lia] ].

(** ** The map page *)

Lemma bind_assoc {A B C : Type} (m : ui A) (k : A -> ui B) (h : B -> ui C)
    (t : list event) :
  bind (bind m k) h t = bind m (fun a => bind (k a) h) t.
Proof. unfold bind. destruct (m t) as [[a|e] t']; reflexivity. Qed.

Lemma bind_ext {A B : Type} (m : ui A) (k k' : A -> ui B) (t : list event) :
  (forall a t', k a t' = k' a t') -> bind m k t = bind m k' t.
Proof. intros H. unfold bind. destruct (m t) as [[a|e] t']; [apply H | reflexivity]. Qed.

Lemma count_app (P : event -> bool) (a b : list event) :
  count P (a ++ b)%list = (count P a + count P b)%nat.
Proof. unfold count. rewrite List.filter_app, List.length_app. reflexivity. Qed.

Lemma count_0_forall (P : event -> bool) (evs : list event) :
  count P evs = 0%nat <-> forall e, In e evs -> P e = false.
Proof.
  unfold count. induction evs as [|e evs IH]; simpl.
  - split; [intros _ ? []|reflexivity].
  - destruct (P e) eqn:He; simpl.
    + split; [discriminate|]. intros H. specialize (H e (or_introl eq_refl)). congruence.
    + rewrite IH. split; [intros H x [<-|Hx]; auto|intros H x Hx; apply H; now right].
Qed.

Lemma count_bind_0 {A B : Type} (P : event -> bool) (m : ui A) (k : A -> ui B) :
  (forall x, framed (k x)) ->
  count P (snd (run m)) = 0%nat ->
  (forall x, count P (snd (run (k x))) = 0%nat) ->
  count P (snd (run (bind m k))) = 0%nat.
Proof.
  intros Hk Hm Hb. rewrite (run_bind m k Hk).
  destruct (run m) as [[x|e] t]; simpl in *; [|exact Hm].
  rewrite count_app, Hm, Hb. reflexivity.
Qed.

Lemma count_emit_0 (P : event -> bool) (e : event) :
  P e = false -> count P (snd (run (emit e))) = 0%nat.
Proof. intros H. unfold count, run, emit. simpl. rewrite H. reflexivity. Qed.

Lemma count_upload (P : event -> bool) (plot : bool) (up : option archive) :
  not_of_upload P -> count P (snd (run (upload plot up))) = 0%nat.
Proof.
  intros [Herr Himg]. unfold run. rewrite upload_cases.
  destruct up as [z|]; [destruct (find_shapefile (walk z)); [destruct plot|]|];
    unfold count; simpl; rewrite ?Herr, ?Himg; reflexivity.
Qed.

Lemma count_add_rgb_layer_to_map (P : event -> bool) (sv : service) (satellite : string)
    (year : Z) (g : region) (brightness : Z) (clip_ : option bool) (gamma : Q) :
  not_of_layers P ->
  count P (snd (run (App.add_rgb_layer_to_map sv satellite year g brightness clip_ gamma)))
  = 0%nat.
Proof.
  intros [Hlayer Hcentre].
  destruct (add_rgb_layer_to_map_events sv satellite year g brightness clip_ gamma)
    as [(e & ->)|[(e & im & vis & ->)|(im & vis & ->)]];
    unfold count; simpl; rewrite ?Hlayer, ?Hcentre; reflexivity.
Qed.

Lemma calc_index_events (sv : service) (satellite index_name : string) (year : Z)
    (g : region) (clip_ : bool) :
  snd (run (App.calc_index sv satellite index_name year g clip_)) = [] \/
  snd (run (App.calc_index sv satellite index_name year g clip_))
  = [GetInfo satellite index_name year g clip_].
Proof.
  unfold run, App.calc_index, bind, lift, emit, ret.
  destruct (App.get_filtered_images sv satellite year g) as [f|e]; [|now left].
  destruct (dict_get datasets satellite) as [d|e]; [|now left].
  cbn [rbind].
  destruct (list_get (bands d) 0) as [b0|e]; [|now left].
  destruct (list_get (bands d) 1) as [b1|e]; [|now left].
  destruct (list_get (bands d) 2) as [b2|e]; [|now left].
  destruct (list_get (bands d) 3) as [b3|e]; [|now left].
  destruct (list_get (bands d) 4) as [b4|e]; [|now left].
  destruct (dict_get indexes index_name) as [formula|e]; [|now left].
  match goal with |- context [getInfo ?x] => destruct (getInfo x) as [stats|e] end;
    now right.
Qed.

Lemma count_calc_index_0 (P : event -> bool) (sv : service) (satellite index_name : string)
    (year : Z) (g : region) (clip_ : bool) :
  (forall s i y r c, P (GetInfo s i y r c) = false) ->
  count P (snd (run (App.calc_index sv satellite index_name year g clip_))) = 0%nat.
Proof.
  intros H. destruct (calc_index_events sv satellite index_name year g clip_) as [-> | ->];
    unfold count; simpl; rewrite ?H; reflexivity.
Qed.

(** There is no event of the kind in the run of a computation, when there
    is none in its pieces. *)
Ltac no_events :=
  lazymatch goal with
  | |- count _ (snd (run (bind _ _))) = 0%nat =>
      apply count_bind_0; [ intros ?; frame_all | no_events | intros ?; no_events ]
  | |- count _ (snd (run (emit _))) = 0%nat => apply count_emit_0; reflexivity
  | |- count _ (snd (run (lift _))) = 0%nat => reflexivity
  | |- count _ (snd (run (ret _))) = 0%nat => reflexivity
  | |- count _ (snd (run (addLayer _ _ _))) = 0%nat => unfold addLayer; no_events
  | |- count _ (snd (run (centerObject _ _))) = 0%nat => unfold centerObject; no_events
  | |- count _ (snd (run (upload _ _))) = 0%nat =>
      apply count_upload; split; reflexivity
  | |- count _ (snd (run (App.add_rgb_layer_to_map _ _ _ _ _ _ _))) = 0%nat =>
      apply count_add_rgb_layer_to_map; split; reflexivity
  | |- count _ (snd (run (App.calc_index _ _ _ _ _ _))) = 0%nat =>
      apply count_calc_index_0; reflexivity
  | |- count _ (snd (run (if ?c then _ else _))) = 0%nat => destruct c; no_events
  | |- count _ (snd (run (match ?c with _ => _ end))) = 0%nat => destruct c; no_events
  end.

Lemma count_bind {A B : Type} (P : event -> bool) (m : ui A) (k : A -> ui B) (a b : nat) :
  (forall x, framed (k x)) ->
  (count P (snd (run m)) <= a)%nat ->
  (forall x, count P (snd (run (k x))) <= b)%nat ->
  (count P (snd (run (bind m k))) <= a + b)%nat.
Proof.
  intros Hk Hm Hb. rewrite (run_bind m k Hk).
  destruct (run m) as [[x|e] t]; simpl in *.
  - rewrite count_app. specialize (Hb x). lia.
  - lia.
Qed.

(** [add_rgb_layer_to_map] calls [addLayer] and [centerObject] at most
    once each. *)
Lemma layers_add_rgb_layer_to_map (sv : service) (satellite : string) (year : Z)
    (g : region) (brightness : Z) (clip_ : option bool) (gamma : Q) :
  (count is_layer
     (snd (run (App.add_rgb_layer_to_map sv satellite year g brightness clip_ gamma)))
   <= 1)%nat.
Proof.
  destruct (add_rgb_layer_to_map_events sv satellite year g brightness clip_ gamma)
    as [(e & ->)|[(e & im & vis & ->)|(im & vis & ->)]]; unfold count; simpl; lia.
Qed.

Lemma centrings_add_rgb_layer_to_map (sv : service) (satellite : string) (year : Z)
    (g : region) (brightness : Z) (clip_ : option bool) (gamma : Q) :
  (count is_centring
     (snd (run (App.add_rgb_layer_to_map sv satellite year g brightness clip_ gamma)))
   <= 1)%nat.
Proof.
  destruct (add_rgb_layer_to_map_events sv satellite year g brightness clip_ gamma)
    as [(e & ->)|[(e & im & vis & ->)|(im & vis & ->)]]; unfold count; simpl; lia.
Qed.

(** A bound on the events of a kind in the run of a computation, from the
    bounds of its pieces. *)
Ltac count_le :=
  eapply Nat.le_trans;
  [ lazymatch goal with
    | |- (count _ (snd (run (bind _ _))) <= _)%nat =>
        eapply count_bind; [ intros ?; frame_all | count_le | intros ?; count_le ]
    | |- (count _ (snd (run (emit _))) <= _)%nat =>
        unfold count, run, emit; cbn; apply Nat.le_refl
    | |- (count _ (snd (run (lift _))) <= _)%nat =>
        unfold count, run, lift; cbn; apply Nat.le_refl
    | |- (count _ (snd (run (ret _))) <= _)%nat =>
        unfold count, run, ret; cbn; apply Nat.le_refl
    | |- (count _ (snd (run (addLayer _ _ _))) <= _)%nat => unfold addLayer; count_le
    | |- (count _ (snd (run (centerObject _ _))) <= _)%nat => unfold centerObject; count_le
    | |- (count _ (snd (run (App.add_rgb_layer_to_map _ _ _ _ _ _ _))) <= _)%nat =>
        first [ rewrite count_add_rgb_layer_to_map by (split; reflexivity); apply Nat.le_refl
              | apply layers_add_rgb_layer_to_map
              | apply centrings_add_rgb_layer_to_map ]
    | |- (count _ (snd (run (App.calc_index _ _ _ _ _ _))) <= _)%nat =>
        first [ rewrite count_calc_index_0 by reflexivity; apply Nat.le_refl
              | apply requests_calc_index ]
    | |- (count _ (snd (run (if ?c then _ else _))) <= _)%nat => destruct c; count_le
    | |- (count _ (snd (run (match ?c with _ => _ end))) <= _)%nat => destruct c; count_le
    end
  | first [apply Nat.le_refl | simpl; lia] ].

(** The events of a kind in a run of the map page are those after the
    upload block, which has none of them. *)
Ltac after_upload inp :=
  unfold App.main; rewrite run_bind by (intros ?; frame_all);
  match goal with
  | |- context [count ?P _] =>
      let H := fresh "Hup" in
      pose proof (count_upload P true (App.uploaded_shp_file inp)
                    (conj (fun _ => eq_refl) (fun _ => eq_refl))) as H;
      destruct (run (upload true (App.uploaded_shp_file inp))) as [[[[?|] ?]|?] ?];
      cbn [fst snd] in *;
      [ rewrite count_app, H; cbn [Nat.add]
      | rewrite count_app, H; cbn [Nat.add]
      | rewrite H ]
  end.

(** X3. A run of the map page asks for the statistics of an index (the
    [getInfo] of [calc_index]) at most once, and not at all when the index
    toggle is off; it calls [Map.addLayer] at most twice and
    [Map.centerObject] at most twice, each call a request of its own. *)
Theorem app_main_requests (sv : service) (inp : App.inputs) :
  (count is_request (snd (run (App.main sv inp))) <= 1)%nat /\
  (App.check_index inp = false -> count is_request (snd (run (App.main sv inp))) = 0%nat) /\
  (count is_layer (snd (run (App.main sv inp))) <= 2)%nat /\
  (count is_centring (snd (run (App.main sv inp))) <= 2)%nat.
Proof.
  split; [|split; [|split]].
  - after_upload inp; try lia;
      destruct (coordinates (App.long inp) (App.lat inp)); count_le.
  - intros Hoff. apply Nat.le_0_r. after_upload inp; try lia; rewrite ?Hoff;
      destruct (coordinates (App.long inp) (App.lat inp)); count_le.
  - after_upload inp; try lia;
      destruct (coordinates (App.long inp) (App.lat inp)); count_le.
  - after_upload inp; try lia;
      destruct (coordinates (App.long inp) (App.lat inp)); count_le.
Qed.

(** The map page is what comes before [Map.to_streamlit], which renders
    nothing, and then the rendering of the map. *)
Lemma app_main_pieces (sv : service) (inp : App.inputs) :
  exists (before : ui unit),
    framed before /\
    count is_map_shown (snd (run before)) = 0%nat /\
    run (App.main sv inp)
    = match run before with
      | (Ok _, t) => (Ok tt, (t ++ [MapToStreamlit 600])%list)
      | (Raise e, t) => (Raise e, t)
      end.
Proof.
  unfold App.main.
  match goal with
  | |- context [bind (upload true ?u)
                  (fun up => bind (@?P up) (fun _ => bind (@?R up) _))] =>
      exists (bind (upload true u) (fun up => bind (P up) (fun _ => R up)))
  end.
  split; [frame_all|]. split; [no_events|].
  unfold run.
  match goal with
  | |- _ = match ?before [] with _ => _ end =>
      transitivity (bind before (fun _ => emit (MapToStreamlit 600)) [])
  end.
  - symmetry. rewrite bind_assoc. apply bind_ext. intros up t'.
    rewrite bind_assoc. reflexivity.
  - unfold bind at 1.
    match goal with |- match ?x with _ => _ end = _ => destruct x as [[[]|e] t] end;
      reflexivity.
Qed.

(** X4. The map page renders the map exactly in the runs that end normally,
    once, as their last output; a run that raises (a missing shapefile, a
    layer the service refuses, a failed evaluation of the index, a bar chart
    of statistics that are [None]) shows no map at all. *)
Theorem app_main_map_shown (sv : service) (inp : App.inputs) :
  match fst (run (App.main sv inp)) with
  | Ok _ =>
      exists t, snd (run (App.main sv inp)) = (t ++ [MapToStreamlit 600])%list /\
                forall e, In e t -> is_map_shown e = false
  | Raise _ => forall e, In e (snd (run (App.main sv inp))) -> is_map_shown e = false
  end.
Proof.
  destruct (app_main_pieces sv inp) as (before & _ & Hcount & ->).
  destruct (run before) as [[[]|e] t]; cbn [fst snd] in *.
  - exists t. split; [reflexivity|]. apply count_0_forall. exact Hcount.
  - apply count_0_forall. exact Hcount.
Qed.

(** X5. On the map page, as long as the upload gives no region, the clip
    toggle and the index widgets change nothing and the statistics of no
    index are asked for ([calc_index] is not called): a point alone gives
    the RGB layer, never clipped, and no index, with at most one call of
    [Map.addLayer] and two of [Map.centerObject]. *)
Theorem app_main_without_region (sv : service) (inp : App.inputs) (clip_ check : bool)
    (name main_ mid secondary : string) :
  (forall r g, fst (run (upload true (App.uploaded_shp_file inp))) <> Ok (Some r, g)) ->
  run (App.main sv (app_with_options inp clip_ check name main_ mid secondary))
  = run (App.main sv inp) /\
  count is_request (snd (run (App.main sv inp))) = 0%nat /\
  (count is_layer (snd (run (App.main sv inp))) <= 1)%nat /\
  (count is_centring (snd (run (App.main sv inp))) <= 2)%nat.
Proof.
  intros Hnone.
  assert (Hkind : forall P n,
             not_of_upload P ->
             (forall c,
                 (count P
                    (snd (run
                            (centerObject c 10;;
                             App.add_rgb_layer_to_map sv (App.sat inp) (App.selected_year inp)
                               c (App.brightness inp) None (App.gamma inp)))) <= n)%nat) ->
             P (MapToStreamlit 600) = false ->
             (count P (snd (run (App.main sv inp))) <= n)%nat).
  { intros P n HP Hpoint Hmap. unfold App.main.
    rewrite !run_bind by (intros ?; frame_all).
    pose proof (count_upload P true (App.uploaded_shp_file inp) HP) as Hup.
    destruct (run (upload true (App.uploaded_shp_file inp))) as [[[roi gdf]|e] t];
      cbn [fst snd] in *; [|lia].
    destruct roi as [r|]; [exfalso; apply (Hnone r gdf); reflexivity|].
    rewrite count_app, Hup. cbn [Nat.add fst snd].
    assert (Hlast : count P (snd (run (ret tt;; emit (MapToStreamlit 600)))) = 0%nat)
      by (unfold count, run, bind, ret, emit; cbn [app snd List.filter]; now rewrite Hmap).
    rewrite run_bind by (intros ?; frame_all).
    destruct (coordinates (App.long inp) (App.lat inp)) as [c|].
    - specialize (Hpoint c).
      destruct (run (centerObject c 10;; App.add_rgb_layer_to_map _ _ _ _ _ _ _))
        as [[[]|e] t1]; cbn [fst snd] in *; [|exact Hpoint].
      rewrite count_app, Hlast. lia.
    - cbn [run ret fst snd app]. rewrite Hlast. lia. }
  split; [|split; [|split]].
  - unfold App.main. rewrite !run_bind by (intros ?; frame_all).
    cbn [app_with_options App.long App.lat App.uploaded_shp_file App.sat
           App.selected_year App.brightness App.gamma].
    destruct (run (upload true (App.uploaded_shp_file inp))) as [[[roi gdf]|e] t];
      cbn [fst snd] in *; [|reflexivity].
    destruct roi as [r|]; [exfalso; apply (Hnone r gdf); reflexivity|]. reflexivity.
  - apply Nat.le_0_r. apply Hkind; [split; reflexivity| |reflexivity].
    intros c. count_le.
  - apply Hkind; [split; reflexivity| |reflexivity]. intros c. count_le.
  - apply Hkind; [split; reflexivity| |reflexivity]. intros c. count_le.
Qed.

Lemma app_main_without_region_witness :
  run (App.main Fixture.sv
         (app_with_options (Fixture.app_inputs 10 20 None) true false "EVI" "#000000"
            "#111111" "#222222"))
  = run (App.main Fixture.sv (Fixture.app_inputs 10 20 None)) /\
  count is_request (snd (run (App.main Fixture.sv (Fixture.app_inputs 10 20 None)))) = 0%nat /\
  (count is_layer (snd (run (App.main Fixture.sv (Fixture.app_inputs 10 20 None)))) <= 1)%nat /\
  (count is_centring (snd (run (App.main Fixture.sv (Fixture.app_inputs 10 20 None)))) <= 2)%nat.
Proof.
  apply (app_main_without_region Fixture.sv (Fixture.app_inputs 10 20 None)).
  intros r g. discriminate.
Defined.

(** X6. An uploaded shapefile with a non-empty table takes precedence over
    the point on both pages: the run does not depend on the longitude and
    the latitude entered. *)
Theorem uploaded_region_overrides_point (sv : service) (z : archive) (path : string)
    (long_ lat_ : Q) :
  find_shapefile (walk z) = Some path ->
  read_file z path <> [] ->
  (forall inp, App.uploaded_shp_file inp = Some z ->
               run (App.main sv (app_with_point inp long_ lat_)) = run (App.main sv inp)) /\
  (forall inp, Graph.uploaded_shp_file inp = Some z ->
               run (Graph.main sv (graph_with_point inp long_ lat_))
               = run (Graph.main sv inp)).
Proof.
  intros Hpath Hrows.
  assert (Hempty : empty (read_file z path) = false)
    by (destruct (read_file z path); [congruence | reflexivity]).
  split; intros inp Hup.
  - unfold run, App.main, bind.
    cbn [app_with_point App.long App.lat App.uploaded_shp_file App.sat
           App.selected_year App.brightness App.gamma App.clip_toggle App.check_index
           App.index_name App.main_color App.mid_color App.secondary_color].
    rewrite !upload_cases, Hup, Hpath. cbv zeta. rewrite Hempty. cbn [negb fst snd].
    destruct (coordinates long_ lat_), (coordinates (App.long inp) (App.lat inp));
      reflexivity.
  - unfold run, Graph.main, bind.
    cbn [graph_with_point Graph.long Graph.lat Graph.uploaded_shp_file Graph.sat
           Graph.start_year Graph.end_year Graph.index_name Graph.graph_data].
    rewrite !upload_cases, Hup, Hpath. cbv zeta. rewrite Hempty. cbn [negb fst snd].
    destruct (coordinates long_ lat_), (coordinates (Graph.long inp) (Graph.lat inp));
      reflexivity.
Qed.

Lemma uploaded_region_overrides_point_witness :
  (forall inp, App.uploaded_shp_file inp = Some Fixture.area_shp ->
               run (App.main Fixture.sv (app_with_point inp 10 20))
               = run (App.main Fixture.sv inp)) /\
  (forall inp, Graph.uploaded_shp_file inp = Some Fixture.area_shp ->
               run (Graph.main Fixture.sv (graph_with_point inp 10 20))
               = run (Graph.main Fixture.sv inp)).
Proof.
  apply (uploaded_region_overrides_point Fixture.sv Fixture.area_shp "/tmp/x/area.shp").
  - reflexivity.
  - discriminate.
Defined.

(** X7. With no active point and no upload, neither page reports the missing
    region: the graph page shows nothing at all, and the map page an empty
    map. *)
Theorem pages_without_any_region (sv : service) :
  (forall inp,
      coordinates (Graph.long inp) (Graph.lat inp) = None ->
      Graph.uploaded_shp_file inp = None ->
      Graph.start_year inp <= Graph.end_year inp ->
      run (Graph.main sv inp) = (Ok tt, [])) /\
  (forall inp,
      coordinates (App.long inp) (App.lat inp) = None ->
      App.uploaded_shp_file inp = None ->
      run (App.main sv inp) = (Ok tt, [MapToStreamlit 600])).
Proof.
  split.
  - intros inp Hpoint Hup Hle. unfold run, Graph.main, bind.
    rewrite upload_cases, Hup, Hpoint. cbn [fst snd].
    apply Z.leb_le in Hle. rewrite Hle. reflexivity.
  - intros inp Hpoint Hup. unfold run, App.main, bind.
    rewrite upload_cases, Hup, Hpoint. reflexivity.
Qed.

(** X8. When the uploaded archive has no [.shp] member, both pages show the
    error message and then stop on the read of the local [gdf], which no
    branch assigned: the run raises [UnboundLocalError] and nothing else is
    shown or requested. *)
Theorem archive_without_shapefile (sv : service) (z : archive) :
  find_shapefile (walk z) = None ->
  (forall inp, App.uploaded_shp_file inp = Some z ->
               run (App.main sv inp)
               = (Raise (UnboundLocalError "gdf"),
                  [StError "Shapefile (.shp) not found in the uploaded zip file."])) /\
  (forall inp, Graph.uploaded_shp_file inp = Some z ->
               run (Graph.main sv inp)
               = (Raise (UnboundLocalError "gdf"),
                  [StError "Shapefile (.shp) not found in the uploaded zip file."])).
Proof.
  intros Hnone. split; intros inp Hup.
  - unfold run, App.main, bind. rewrite upload_cases, Hup, Hnone. reflexivity.
  - unfold run, Graph.main, bind. rewrite upload_cases, Hup, Hnone. reflexivity.
Qed.

Lemma archive_without_shapefile_witness :
  (forall inp, App.uploaded_shp_file inp = Some Fixture.no_shp ->
               run (App.main Fixture.sv inp)
               = (Raise (UnboundLocalError "gdf"),
                  [StError "Shapefile (.shp) not found in the uploaded zip file."])) /\
  (forall inp, Graph.uploaded_shp_file inp = Some Fixture.no_shp ->
               run (Graph.main Fixture.sv inp)
               = (Raise (UnboundLocalError "gdf"),
                  [StError "Shapefile (.shp) not found in the uploaded zip file."])).
Proof. apply (archive_without_shapefile Fixture.sv Fixture.no_shp). reflexivity. Defined.

(** ** The graph page *)

Lemma requests_each_year (sv : service) (satellite index_name : string) (g : region)
    (graph_data : list string) (years : list Z) :
  forall m,
    (requests (snd (run (Graph.each_year sv satellite index_name g graph_data years m)))
     <= length years)%nat.
Proof.
  induction years as [|y years IH]; intros m; cbn [Graph.each_year length].
  - rewrite requests_ret. lia.
  - change (S (length years)) with (1 + (0 + length years))%nat.
    apply requests_bind.
    + intros res. apply framed_bind; [apply framed_lift|]. intros d.
      apply framed_each_year.
    + apply requests_calc_index.
    + intros res. apply requests_bind.
      * intros d. apply framed_each_year.
      * rewrite requests_lift. lia.
      * intros d. apply IH.
Qed.

Lemma requests_plot_index_over_time (sv : service) (satellite index_name : string)
    (start_year end_year : Z) (g : region) (graph_data : list string) :
  (requests (snd (run (Graph.plot_index_over_time sv satellite index_name start_year
                         end_year g graph_data)))
   <= Z.to_nat (end_year - start_year + 1))%nat.
Proof.
  unfold Graph.plot_index_over_time.
  replace (Z.to_nat (end_year - start_year + 1))
    with (length (Graph.range start_year (end_year + 1)) + 0)%nat
    by (rewrite range_length; lia).
  apply requests_bind.
  - intros m. frame_all.
  - apply requests_each_year.
  - intros m. count_requests.
Qed.

Lemma framed_graph_main_rest (sv : service) (inp : Graph.inputs)
    (up : option region * option GeoDataFrame) :
  framed
    (if Graph.start_year inp <=? Graph.end_year inp
     then
       match
         match coordinates (Graph.long inp) (Graph.lat inp), fst up with
         | Some c, None => Some c
         | _, Some r => Some r
         | _, None => None
         end
       with
       | Some r =>
           do! res := Graph.plot_index_over_time sv (Graph.sat inp) (Graph.index_name inp)
                        (Graph.start_year inp) (Graph.end_year inp) r
                        (Graph.graph_data inp) in
           emit (StPyplot (fst res));;
           do! df := lift (Graph.year_as_str (snd res)) in
           emit (StWriteTable df)
       | None => ret tt
       end
     else emit (StError "End year should be greater ar equal to start year.")).
Proof.
  destruct (Graph.start_year inp <=? Graph.end_year inp); [|apply framed_emit].
  destruct (coordinates _ _), (fst up); try apply framed_ret;
    (apply framed_bind; [apply framed_plot_index_over_time|]; intros res; frame).
Qed.

(** X9. A run of the graph page makes at most one request per year of the
    range, end - start + 1 in all, and none when the range is empty. *)
Theorem graph_main_requests (sv : service) (inp : Graph.inputs) :
  (requests (snd (run (Graph.main sv inp)))
   <= Z.to_nat (Graph.end_year inp - Graph.start_year inp + 1))%nat.
Proof.
  unfold Graph.main.
  replace (Z.to_nat (Graph.end_year inp - Graph.start_year inp + 1))
    with (0 + Z.to_nat (Graph.end_year inp - Graph.start_year inp + 1))%nat by lia.
  apply requests_bind.
  - intros up. apply (framed_graph_main_rest sv inp up).
  - rewrite requests_upload. lia.
  - intros up. destruct (Graph.start_year inp <=? Graph.end_year inp).
    + destruct (coordinates _ _), (fst up); try (rewrite requests_ret; lia).
      all: replace (Z.to_nat (Graph.end_year inp - Graph.start_year inp + 1))
             with (Z.to_nat (Graph.end_year inp - Graph.start_year inp + 1) + 0)%nat by lia;
        (apply requests_bind;
         [ intros res; frame_all
         | apply requests_plot_index_over_time
         | intros res; count_requests ]).
    + rewrite requests_emit by reflexivity. lia.
Qed.

(** *** The fields that can be plotted *)

Lemma lower_ascii_not_D (c : ascii) : lower_ascii_is c "D" = false.
Proof.
  destruct c as [[] [] [] [] [] [] [] []]; vm_compute; reflexivity.
Qed.

(** No lower-case form is [stdDev]: its fourth character is a capital. *)
Lemma lower_not_stdDev (s : string) : String.eqb "stdDev" (Graph.lower s) = false.
Proof.
  destruct (String.eqb_spec "stdDev" (Graph.lower s)) as [H|]; [|reflexivity].
  exfalso.
  destruct s as [|c0 [|c1 [|c2 [|c3 s]]]]; cbn [Graph.lower] in H; try discriminate.
  injection H as _ _ _ H _.
  pose proof (lower_ascii_not_D c3) as Hc. unfold lower_ascii_is in Hc.
  rewrite <- H in Hc. discriminate.
Qed.

Lemma eqb_cons (c : ascii) (a b : string) :
  String.eqb (String c a) (String c b) = String.eqb a b.
Proof. simpl. rewrite Ascii.eqb_refl. reflexivity. Qed.

(** The lookup of a field in the statistics of an index. *)
Lemma stats_field (sv : service) (g : region) (index_name : string) (r : raster)
    (data : string) :
  dict_get (band_stats sv g (index_name, r)) (index_name +:+ "_" +:+ Graph.lower data)
  = if String.eqb "mean" (Graph.lower data) then Ok (mean_q (region_values sv g r))
    else if String.eqb "min" (Graph.lower data) then Ok (min_q (region_values sv g r))
    else if String.eqb "max" (Graph.lower data) then Ok (max_q (region_values sv g r))
    else Raise (KeyError (index_name +:+ "_" +:+ Graph.lower data)).
Proof.
  unfold band_stats. cbn [fst snd dict_get]. rewrite !append_eqb.
  change ("_" +:+ Graph.lower data) with (String "_" (Graph.lower data)).
  rewrite !eqb_cons, lower_not_stdDev. reflexivity.
Qed.

Lemma plottable_cases (data : string) :
  plottable data
  = String.eqb "mean" (Graph.lower data) || String.eqb "min" (Graph.lower data)
    || String.eqb "max" (Graph.lower data).
Proof.
  unfold plottable. cbn [existsb].
  rewrite (String.eqb_sym (Graph.lower data) "max"),
    (String.eqb_sym (Graph.lower data) "mean"), (String.eqb_sym (Graph.lower data) "min").
  destruct (String.eqb "max" _), (String.eqb "mean" _), (String.eqb "min" _); reflexivity.
Qed.

(** X10. A statistic of an evaluation can be read for a field exactly when
    the lower-case form of the field is [max], [mean] or [min]; the standard
    deviation, stored under the key ending in [_stdDev], cannot be read
    through any field name. *)
Theorem plottable_iff (sv : service) (g : region) (index_name : string) (r : raster)
    (data : string) :
  (exists v, dict_get (band_stats sv g (index_name, r))
               (index_name +:+ "_" +:+ Graph.lower data) = Ok v)
  <-> plottable data = true.
Proof.
  rewrite stats_field, plottable_cases.
  destruct (String.eqb "mean" _), (String.eqb "min" _), (String.eqb "max" _); simpl;
    split; eauto; try discriminate; intros (v & H); discriminate.
Qed.

(** *** The series, for any field names that can be plotted *)

Lemma dict_get_map_self {V : Type} (f : string -> V) (l : list string) (data : string) :
  In data l -> dict_get (map (fun d => (d, f d)) l) data = Ok (f data).
Proof.
  induction l as [|d l IH]; simpl; [intros []|].
  destruct (String.eqb_spec d data) as [->|Hne]; [reflexivity|].
  intros [H|H]; [contradiction | auto].
Qed.

Lemma plottable_not_Year (data : string) : plottable data = true -> data <> "Year".
Proof. intros H ->. discriminate. Qed.

Lemma each_year_run (sv : service) (satellite index_name : string) (g : region)
    (graph_data : list string) :
  NoDup graph_data ->
  (forall data, In data graph_data -> plottable data = true) ->
  forall (years : list Z),
    (forall y, In y years ->
               is_ok (fst (run (App.calc_index sv satellite index_name y g false))) = true) ->
    forall (m : gmap string (list sample)) (cols : string -> list sample) (t : list event),
      (forall data, In data graph_data -> m !! data = Some (cols data)) ->
      exists m' : gmap string (list sample),
        Graph.each_year sv satellite index_name g graph_data years m t
        = (Ok m', (t ++ map (fun y => GetInfo satellite index_name y g false) years)%list) /\
        forall data, In data graph_data ->
          m' !! data
          = Some (cols data ++ map (fun y => recorded sv satellite index_name g y data) years)%list.
Proof.
  intros Hnd Hfields years. induction years as [|y years IH]; intros Hok m cols t Hm.
  - exists m. simpl. unfold ret. rewrite !app_nil_r. split; [reflexivity|].
    intros data Hd. rewrite app_nil_r. auto.
  - cbn [Graph.each_year]. unfold bind at 1. rewrite calc_index_frame.
    pose proof (Hok y ltac:(now left)) as Hy.
    destruct (fst (run (App.calc_index sv satellite index_name y g false)))
      as [[index stats]|e] eqn:Hrun; [|discriminate].
    destruct (calc_index_Ok_inv _ _ _ _ _ _ _ _ Hrun) as (Htrace & im & r & -> & Him & Hstats).
    rewrite Htrace. cbn [snd].
    assert (Hv : forall data, In data graph_data ->
                 dict_get stats (index_name +:+ "_" +:+ Graph.lower data)
                 = Ok (recorded sv satellite index_name g y data)).
    { intros data Hd. unfold recorded. rewrite Hrun, Hstats, stats_field.
      pose proof (Hfields data Hd) as Hp. rewrite plottable_cases in Hp.
      destruct (String.eqb "mean" _); [reflexivity|].
      destruct (String.eqb "min" _); [reflexivity|].
      destruct (String.eqb "max" _); [reflexivity | discriminate]. }
    destruct (record_year_spec index_name stats _ graph_data Hnd Hv m cols Hm)
      as (m1 & Hrec & Hin & _).
    unfold bind, lift. rewrite Hrec.
    destruct (IH (fun y' H => Hok y' (or_intror H)) m1
                (fun data => (cols data ++ [recorded sv satellite index_name g y data])%list)
                (t ++ [GetInfo satellite index_name y g false])%list Hin)
      as (m' & Hrest & Hcols).
    exists m'. split.
    + rewrite Hrest. cbn [map]. rewrite <- app_assoc. reflexivity.
    + intros data Hd. rewrite (Hcols data Hd). cbn [map]. rewrite <- app_assoc.
      reflexivity.
Qed.

Lemma mapM_lines (df : DataFrame) (index_name : string) (col : string -> list sample)
    (l : list string) :
  (forall data, In data l -> Graph.column df data = Ok (col data)) ->
  mapM (fun data => let! ys := Graph.column df data in
                    Ok (data +:+ " " +:+ index_name, ys)) l
  = Ok (map (fun data => (data +:+ " " +:+ index_name, col data)) l).
Proof.
  induction l as [|d l IH]; intros Hcol; [reflexivity|].
  cbn [mapM map]. rewrite (Hcol d) by now left. cbn [rbind].
  rewrite IH by (intros; apply Hcol; now right). reflexivity.
Qed.

(** The run of [plot_index_over_time] when every evaluation succeeds. *)
Lemma plot_index_over_time_run (sv : service) (satellite index_name : string)
    (start_year end_year : Z) (g : region) (graph_data : list string) :
  NoDup graph_data ->
  (forall data, In data graph_data -> plottable data = true) ->
  (forall y, start_year <= y <= end_year ->
             is_ok (fst (run (App.calc_index sv satellite index_name y g false))) = true) ->
  run (Graph.plot_index_over_time sv satellite index_name start_year end_year g graph_data)
  = (Ok (series_chart sv satellite index_name start_year end_year g graph_data,
         ("Year", map CInt (Graph.range start_year (end_year + 1)))
           :: series_columns sv satellite index_name start_year end_year g graph_data),
     map (fun y => GetInfo satellite index_name y g false)
         (Graph.range start_year (end_year + 1))).
Proof.
  intros Hnd Hfields Hok.
  unfold run, Graph.plot_index_over_time, series_chart, series_columns.
  set (years := Graph.range start_year (end_year + 1)).
  assert (Hyears : forall y, In y years -> start_year <= y <= end_year).
  { intros y Hy. unfold years in Hy. apply range_In in Hy. lia. }
  set (m0 := fold_left (fun d data => <[data := []]> d) graph_data ∅).
  destruct (each_year_run sv satellite index_name g graph_data Hnd Hfields years
              (fun y Hy => Hok y (Hyears y Hy)) m0 (fun _ => []) [])
    as (m & Hrun & Hcols).
  { intros data Hd. apply init_columns. now left. }
  unfold bind at 1. rewrite Hrun. cbn [app].
  set (col := fun data => map (fun y => recorded sv satellite index_name g y data) years).
  assert (Hfill : Graph.fill m graph_data [("Year", map CInt years)]
                  = Ok (("Year", map CInt years)
                          :: map (fun data => (data, map CNum (col data))) graph_data)).
  { apply (fill_spec m col graph_data Hnd [("Year", map CInt years)]).
    - discriminate.
    - intros data Hd [H|[]]. simpl in H. subst data.
      specialize (Hfields _ Hd). discriminate.
    - intros data Hd. split; [rewrite (Hcols data Hd); reflexivity|].
      unfold col. simpl. rewrite !length_map. reflexivity. }
  unfold bind at 1. unfold lift at 1. rewrite Hfill.
  set (df := ("Year", map CInt years) :: _).
  assert (Hlines :
            mapM (fun data => let! ys := Graph.column df data in
                              Ok (data +:+ " " +:+ index_name, ys)) graph_data
            = Ok (map (fun data => (data +:+ " " +:+ index_name, col data)) graph_data)).
  { assert (Hcol : forall data, In data graph_data -> Graph.column df data = Ok (col data)).
    { intros data Hd. unfold Graph.column, df. cbn [dict_get].
      destruct (String.eqb_spec "Year" data) as [<-|_].
      - specialize (Hfields _ Hd). discriminate.
      - rewrite (dict_get_map_self (fun d => map CNum (col d)) graph_data data Hd).
        cbn [rbind]. rewrite map_map. rewrite map_id. reflexivity. }
    apply mapM_lines. exact Hcol. }
  unfold bind, lift, ret. rewrite Hlines.
  assert (Hc : map (fun data => (data, map CNum (col data))) graph_data
               = map (fun data =>
                        (data, map (fun y => CNum (recorded sv satellite index_name g y data))
                                   years)) graph_data).
  { apply map_ext. intros data. unfold col. rewrite map_map. reflexivity. }
  unfold df. rewrite Hc. reflexivity.
Qed.

Lemma year_as_str_run (years : list Z) (cols : list (string * list cell)) :
  Graph.year_as_str (("Year", map CInt years) :: cols)
  = Ok (("Year", map (fun y => CStr (pretty y)) years) :: cols).
Proof.
  unfold Graph.year_as_str. cbn [dict_get String.eqb Ascii.eqb Bool.eqb rbind].
  unfold Graph.setitem. cbn [Graph.nrows]. rewrite !length_map, Nat.eqb_refl.
  cbn [Graph.set_column String.eqb Ascii.eqb Bool.eqb]. rewrite map_map. reflexivity.
Qed.

(** X11. On the graph page, with a region, a range with start <= end,
    duplicate-free fields that can be plotted and evaluations that succeed,
    the run requests the index once per year in ascending order and then
    shows the chart and, after it, the table, with the years as text. *)
Theorem graph_main_shows_series (sv : service) (inp : Graph.inputs)
    (roi : option region) (gdf : option GeoDataFrame) (r : region) :
  fst (run (upload false (Graph.uploaded_shp_file inp))) = Ok (roi, gdf) ->
  selected_region (coordinates (Graph.long inp) (Graph.lat inp)) roi = Some r ->
  Graph.start_year inp <= Graph.end_year inp ->
  NoDup (Graph.graph_data inp) ->
  (forall data, In data (Graph.graph_data inp) -> plottable data = true) ->
  (forall y, Graph.start_year inp <= y <= Graph.end_year inp ->
             is_ok (fst (run (App.calc_index sv (Graph.sat inp) (Graph.index_name inp) y r
                                false))) = true) ->
  run (Graph.main sv inp)
  = (Ok tt,
     (map (fun y => GetInfo (Graph.sat inp) (Graph.index_name inp) y r false)
          (Graph.range (Graph.start_year inp) (Graph.end_year inp + 1))
      ++ [StPyplot (series_chart sv (Graph.sat inp) (Graph.index_name inp)
                      (Graph.start_year inp) (Graph.end_year inp) r (Graph.graph_data inp));
          StWriteTable
            (("Year", map (fun y => CStr (pretty y))
                          (Graph.range (Graph.start_year inp) (Graph.end_year inp + 1)))
               :: series_columns sv (Graph.sat inp) (Graph.index_name inp)
                    (Graph.start_year inp) (Graph.end_year inp) r (Graph.graph_data inp))])%list).
Proof.
  intros Hup Hregion Hle Hnd Hfields Hok.
  unfold Graph.main. rewrite run_bind by (intros up; apply framed_graph_main_rest).
  assert (Hquiet : snd (run (upload false (Graph.uploaded_shp_file inp))) = []).
  { revert Hup. unfold run. rewrite upload_cases.
    destruct (Graph.uploaded_shp_file inp) as [z|]; [|reflexivity].
    destruct (find_shapefile (walk z)); [reflexivity | discriminate]. }
  destruct (run (upload false (Graph.uploaded_shp_file inp))) as [res t0].
  cbn [fst snd] in Hup, Hquiet. subst res t0. cbn [fst snd app].
  apply Z.leb_le in Hle. rewrite Hle.
  unfold selected_region in Hregion. rewrite Hregion.
  rewrite run_bind by (intros res; frame_all).
  rewrite (plot_index_over_time_run sv _ _ _ _ r _ Hnd Hfields Hok).
  cbn [fst snd]. unfold run, bind, emit, lift. rewrite year_as_str_run.
  cbn [fst snd app]. reflexivity.
Qed.

Lemma graph_main_shows_series_witness :
  run (Graph.main Fixture.sv (Fixture.graph_inputs 10 20 None 2020 2021))
  = (Ok tt,
     (map (fun y => GetInfo "Landsat-8" "NDVI" y (Point 10 20) false)
          (Graph.range 2020 (2021 + 1))
      ++ [StPyplot (series_chart Fixture.sv "Landsat-8" "NDVI" 2020 2021 (Point 10 20)
                      ["Max"; "Mean"; "Min"]);
          StWriteTable
            (("Year", map (fun y => CStr (pretty y)) (Graph.range 2020 (2021 + 1)))
               :: series_columns Fixture.sv "Landsat-8" "NDVI" 2020 2021 (Point 10 20)
                    ["Max"; "Mean"; "Min"])])%list).
Proof.
  apply (graph_main_shows_series Fixture.sv (Fixture.graph_inputs 10 20 None 2020 2021)
           None None (Point 10 20)).
  - reflexivity.
  - reflexivity.
  - simpl. lia.
  - repeat constructor; rewrite list_elem_of_In; simpl; intuition discriminate.
  - simpl. intros data [<-|[<-|[<-|[]]]]; reflexivity.
  - simpl. intros y Hy. assert (y = 2020 \/ y = 2021) as [-> | ->] by lia; reflexivity.
Defined.

(** *** Failures in the series *)

Lemma range_cons (start stop : Z) :
  start < stop -> Graph.range start stop = start :: Graph.range (start + 1) stop.
Proof.
  intros H. unfold Graph.range.
  replace (Z.to_nat (stop - start)) with (S (Z.to_nat (stop - (start + 1)))) by lia.
  cbn [seq map]. f_equal; [lia|].
  rewrite <- seq_shift, map_map. apply map_ext. intros k. lia.
Qed.

Lemma range_split (start y stop : Z) :
  start <= y < stop ->
  Graph.range start stop = (Graph.range start y ++ y :: Graph.range (y + 1) stop)%list.
Proof.
  intros H. remember (Z.to_nat (y - start)) as n eqn:Hn.
  revert start H Hn. induction n as [|n IH]; intros start H Hn.
  - assert (start = y) as -> by lia.
    rewrite (range_cons y stop) by lia.
    replace (Graph.range y y) with (@nil Z); [reflexivity|].
    unfold Graph.range. now replace (Z.to_nat (y - y)) with 0%nat by lia.
  - rewrite (range_cons start stop) by lia. rewrite (range_cons start y) by lia.
    cbn [app]. f_equal. apply IH; lia.
Qed.

Lemma each_year_app (sv : service) (satellite index_name : string) (g : region)
    (graph_data : list string) (pre post : list Z) :
  forall m t,
    Graph.each_year sv satellite index_name g graph_data (pre ++ post)%list m t
    = match Graph.each_year sv satellite index_name g graph_data pre m t with
      | (Ok m', t') => Graph.each_year sv satellite index_name g graph_data post m' t'
      | (Raise e, t') => (Raise e, t')
      end.
Proof.
  induction pre as [|y pre IH]; intros m t; [reflexivity|].
  cbn [app Graph.each_year]. unfold bind.
  destruct (App.calc_index sv satellite index_name y g false t) as [[res|e] t1];
    [|reflexivity].
  unfold lift.
  destruct (Graph.record_year index_name (snd res) graph_data m) as [d|e];
    [apply IH | reflexivity].
Qed.

(** X12. [plot_index_over_time] stops at the first year whose evaluation
    fails: the years before it were requested, in order, the failing year
    is the last one tried, the exception is raised as it came and neither a
    chart nor a partial table is returned. *)
Theorem plot_index_over_time_first_failure (sv : service) (satellite index_name : string)
    (start_year end_year : Z) (g : region) (graph_data : list string) (y : Z) (e : exn) :
  start_year <= y <= end_year ->
  NoDup graph_data ->
  (forall data, In data graph_data -> plottable data = true) ->
  (forall y', start_year <= y' < y ->
              is_ok (fst (run (App.calc_index sv satellite index_name y' g false))) = true) ->
  fst (run (App.calc_index sv satellite index_name y g false)) = Raise e ->
  run (Graph.plot_index_over_time sv satellite index_name start_year end_year g graph_data)
  = (Raise e,
     (map (fun y' => GetInfo satellite index_name y' g false) (Graph.range start_year y)
      ++ snd (run (App.calc_index sv satellite index_name y g false)))%list).
Proof.
  intros Hy Hnd Hfields Hok Hfail.
  unfold run at 1. unfold Graph.plot_index_over_time.
  rewrite (range_split start_year y (end_year + 1)) by lia.
  set (m0 := fold_left (fun d data => <[data := []]> d) graph_data ∅).
  unfold bind at 1. rewrite each_year_app.
  destruct (each_year_run sv satellite index_name g graph_data Hnd Hfields
              (Graph.range start_year y)
              (fun y' Hy' => Hok y' (proj1 (range_In start_year y y') Hy'))
              m0 (fun _ => []) [])
    as (m & Hrun & _).
  { intros data Hd. apply init_columns. now left. }
  rewrite Hrun. cbn [app Graph.each_year]. unfold bind at 1.
  rewrite calc_index_frame, Hfail. reflexivity.
Qed.

Lemma plot_index_over_time_first_failure_witness :
  run (Graph.plot_index_over_time Fixture.sv "Landsat-8" "NDVI" 2020 2023 (Point 1 1)
         ["Max"; "Min"])
  = (Raise (EEException "Image.select: pattern did not match any bands"),
     (map (fun y' => GetInfo "Landsat-8" "NDVI" y' (Point 1 1) false) (Graph.range 2020 2022)
      ++ snd (run (App.calc_index Fixture.sv "Landsat-8" "NDVI" 2022 (Point 1 1) false)))%list).
Proof.
  apply (plot_index_over_time_first_failure Fixture.sv "Landsat-8" "NDVI" 2020 2023
           (Point 1 1) ["Max"; "Min"] 2022).
  - lia.
  - repeat constructor; rewrite list_elem_of_In; simpl; intuition discriminate.
  - intros data [<-|[<-|[]]]; reflexivity.
  - intros y Hy. assert (y = 2020 \/ y = 2021) as [-> | ->] by lia; reflexivity.
  - reflexivity.
Defined.

(** A field that cannot be plotted stops the loop over the fields with a
    [KeyError] for its key. *)
Lemma record_year_raises (sv : service) (g : region) (index_name : string) (r : raster)
    (graph_data : list string) (d : string) :
  first_unplottable graph_data = Some d ->
  forall m : gmap string (list sample),
    (forall data, In data graph_data -> is_Some (m !! data)) ->
    Graph.record_year index_name (band_stats sv g (index_name, r)) graph_data m
    = Raise (KeyError (index_name +:+ "_" +:+ Graph.lower d)).
Proof.
  unfold first_unplottable.
  induction graph_data as [|data rest IH]; intros Hfind m Hm; [discriminate|].
  cbn [find] in Hfind. cbn [Graph.record_year]. unfold Graph.getitem.
  destruct (Hm data ltac:(now left)) as (l & ->). cbn [rbind].
  rewrite stats_field. rewrite plottable_cases in Hfind.
  destruct (String.eqb "mean" (Graph.lower data)) eqn:Hmean;
    [|destruct (String.eqb "min" (Graph.lower data)) eqn:Hmin;
      [|destruct (String.eqb "max" (Graph.lower data)) eqn:Hmax]];
    cbn [orb negb rbind] in *.
  4: { injection Hfind as <-. reflexivity. }
  all: apply IH; [exact Hfind|];
    intros x Hx; destruct (decide (data = x)) as [->|Hne];
    [rewrite lookup_insert_eq; eauto
    |rewrite lookup_insert_ne by exact Hne; apply Hm; now right].
Qed.

(** X13. A field of [graph_data] whose lower-case form is not [max], [mean]
    or [min] (the field [StdDev], for one) makes [plot_index_over_time] raise
    [KeyError] for the key of the first such field, right after the request
    of the first year. *)
Theorem plot_index_over_time_unplottable (sv : service) (satellite index_name : string)
    (start_year end_year : Z) (g : region) (graph_data : list string) (d : string) :
  start_year <= end_year ->
  first_unplottable graph_data = Some d ->
  is_ok (fst (run (App.calc_index sv satellite index_name start_year g false))) = true ->
  run (Graph.plot_index_over_time sv satellite index_name start_year end_year g graph_data)
  = (Raise (KeyError (index_name +:+ "_" +:+ Graph.lower d)),
     [GetInfo satellite index_name start_year g false]).
Proof.
  intros Hle Hfind Hok.
  unfold run at 1. unfold Graph.plot_index_over_time.
  rewrite (range_cons start_year (end_year + 1)) by lia.
  cbn [Graph.each_year]. unfold bind at 1. unfold bind at 1. rewrite calc_index_frame.
  destruct (fst (run (App.calc_index sv satellite index_name start_year g false)))
    as [[index stats]|e] eqn:Hrun; [|discriminate].
  destruct (calc_index_Ok_inv _ _ _ _ _ _ _ _ Hrun) as (Htrace & im & r & -> & Him & ->).
  rewrite Htrace. cbn [snd app]. unfold bind at 1. unfold lift at 1.
  rewrite (record_year_raises sv g index_name r graph_data d Hfind); [reflexivity|].
  intros data Hd. rewrite init_columns; [eauto | now left].
Qed.

Lemma plot_index_over_time_unplottable_witness :
  run (Graph.plot_index_over_time Fixture.sv "Landsat-8" "NDVI" 2020 2021 (Point 1 1)
         ["Mean"; "StdDev"; "Max"])
  = (Raise (KeyError ("NDVI" +:+ "_" +:+ Graph.lower "StdDev")),
     [GetInfo "Landsat-8" "NDVI" 2020 (Point 1 1) false]).
Proof.
  apply (plot_index_over_time_unplottable Fixture.sv "Landsat-8" "NDVI" 2020 2021
           (Point 1 1) ["Mean"; "StdDev"; "Max"] "StdDev").
  - lia.
  - reflexivity.
  - reflexivity.
Defined.

(** ** The functions of app.py on the names of the registries *)

Lemma registered_dict_get {V : Type} (d : list (string * V)) (k : string) :
  registered d k = true -> exists v, dict_get d k = Ok v.
Proof.
  unfold registered, keys. intros H. apply dict_get_total.
  apply existsb_exists in H as (k' & Hin & Heq).
  apply String.eqb_eq in Heq. now subst.
Qed.

Lemma unregistered_dict_get {V : Type} (d : list (string * V)) (k : string) :
  registered d k = false -> dict_get d k = Raise (KeyError k).
Proof.
  unfold registered, keys.
  induction d as [|[k' v] d IH]; [reflexivity|].
  cbn [map fst existsb dict_get]. rewrite (String.eqb_sym k' k).
  destruct (String.eqb k k'); [discriminate | exact IH].
Qed.

Lemma ok_or_service_failure_rbind {A B : Type} (r : result A) (k : A -> result B) :
  ok_or_service_failure r = true ->
  (forall a, ok_or_service_failure (k a) = true) ->
  ok_or_service_failure (rbind r k) = true.
Proof. destruct r as [a|e]; simpl; auto. Qed.

Lemma ok_or_service_failure_mapM {A B : Type} (f : A -> result B) (l : list A) :
  (forall a, ok_or_service_failure (f a) = true) ->
  ok_or_service_failure (mapM f l) = true.
Proof.
  intros Hf. induction l as [|x l IH]; [reflexivity|].
  cbn [mapM]. apply ok_or_service_failure_rbind; [apply Hf|].
  intros y. apply ok_or_service_failure_rbind; [exact IH | reflexivity].
Qed.

Lemma ok_or_service_failure_select (band : string) (im : image) :
  ok_or_service_failure (select band im) = true.
Proof. unfold select. now destruct (assoc (rasters im) band). Qed.

Lemma ok_or_service_failure_updateMask (m im : image) :
  ok_or_service_failure (updateMask m im) = true.
Proof. unfold updateMask. now destruct (rasters m) as [|[? ?] ?]. Qed.

Lemma ok_or_service_failure_rename (name : string) (im : image) :
  ok_or_service_failure (rename name im) = true.
Proof. unfold rename. now destruct (rasters im) as [|[? ?] [|? ?]]. Qed.

Lemma ok_or_service_failure_ee_map {A B : Type} (f : A -> B) (x : ee A) :
  ok_or_service_failure x = true -> ok_or_service_failure (ee_map f x) = true.
Proof. now destruct x. Qed.

Lemma ok_or_service_failure_operand (x : ee image) :
  ok_or_service_failure x = true ->
  ok_or_service_failure (operand_raster (OImage x)) = true.
Proof.
  intros H. cbn [operand_raster]. apply ok_or_service_failure_rbind; [exact H|].
  intros im. now destruct (rasters im) as [|[? ?] ?].
Qed.

Lemma ok_or_service_failure_expression (sv : service) (formula : string)
    (env : list (string * operand)) (im : image) :
  (forall kv, ok_or_service_failure (operand_raster (snd kv)) = true \/ ~ In kv env) ->
  ok_or_service_failure (expression sv formula env im) = true.
Proof.
  intros Henv. unfold expression. destruct (parse formula) as [e|]; [|reflexivity].
  apply ok_or_service_failure_rbind.
  - clear -Henv. induction env as [|kv env IH]; [reflexivity|].
    cbn [mapM]. apply ok_or_service_failure_rbind.
    + apply ok_or_service_failure_rbind; [|reflexivity].
      destruct (Henv kv) as [H|H]; [exact H|]. exfalso. apply H. now left.
    + intros y. apply ok_or_service_failure_rbind; [|reflexivity].
      apply IH. intros kv'. destruct (Henv kv') as [H|H]; [now left|].
      right. intros Hin. apply H. now right.
  - intros renv. now destruct (forallb (bound renv) (vars e)).
Qed.

(** Every dataset but Sentinel-2 has both cloud mask entries. *)
Lemma cloud_mask_registered (name : string) (d : dataset) :
  dict_get datasets name = Ok d -> String.eqb name "Sentinel-2" = false ->
  exists band v, cloud_mask_band d = Some band /\ cloud_mask_value d = Some v.
Proof.
  intros Hd. apply dict_get_In in Hd. each_dataset Hd; simpl; intros H;
    try discriminate; eauto.
Qed.

(** With both entries, [mask_clouds] returns the description of the masked
    image, whatever the image. *)
Lemma mask_clouds_registered (name band : string) (v : Z) (d : dataset) (x : ee image) :
  dict_get datasets name = Ok d ->
  cloud_mask_band d = Some band ->
  cloud_mask_value d = Some v ->
  App.mask_clouds x name
  = Ok (let! m := ee_map (eq_ 0) (ee_map (bitwiseAnd v) (rbind x (select band))) in
        let! im := x in
        updateMask m im).
Proof.
  intros Hd Hb Hv. unfold App.mask_clouds, get_cloud_mask_band, get_cloud_mask_value.
  rewrite Hd. cbn [rbind]. rewrite Hb, Hv. reflexivity.
Qed.

(** For a dataset of the registry the selection is described without an
    exception on the client; what can fail is its evaluation. *)
Lemma get_filtered_images_registered (sv : service) (satellite : string) (year : Z)
    (g : region) (d : dataset) :
  dict_get datasets satellite = Ok d ->
  exists c,
    App.get_filtered_images sv satellite year g = Ok c /\
    ok_or_service_failure c = true.
Proof.
  intros Hd. unfold App.get_filtered_images. rewrite Hd. cbn [rbind].
  destruct (String.eqb satellite "Sentinel-2") eqn:Hs.
  - eexists. split; reflexivity.
  - destruct (cloud_mask_registered _ _ Hd Hs) as (band & v & Hb & Hv).
    unfold collection_map.
    rewrite (mask_clouds_registered _ _ _ _ _ Hd Hb Hv). cbn [rbind].
    eexists. split; [reflexivity|].
    unfold ee_map at 1 2. cbn [rbind].
    apply ok_or_service_failure_mapM. intros im.
    rewrite (mask_clouds_registered _ _ _ _ _ Hd Hb Hv).
    apply ok_or_service_failure_rbind.
    + apply ok_or_service_failure_ee_map, ok_or_service_failure_ee_map.
      cbn [rbind]. apply ok_or_service_failure_select.
    + intros m. cbn [rbind]. apply ok_or_service_failure_updateMask.
Qed.

(** X14. For a dataset and an index of the registries, [calc_index] makes
    exactly one request, and the only way it fails is the service's
    exception at that request: no lookup in the registries or in the
    band lists fails. *)
Theorem calc_index_registered (sv : service) (satellite index_name : string) (year : Z)
    (g : region) (clip_ : bool) :
  registered datasets satellite = true ->
  registered indexes index_name = true ->
  snd (run (App.calc_index sv satellite index_name year g clip_))
  = [GetInfo satellite index_name year g clip_] /\
  ok_or_service_failure (fst (run (App.calc_index sv satellite index_name year g clip_)))
  = true.
Proof.
  intros Hs Hi.
  destruct (registered_dict_get _ _ Hs) as (d & Hd).
  destruct (registered_dict_get _ _ Hi) as (formula & Hformula).
  destruct (get_filtered_images_registered sv satellite year g d Hd) as (c & Hc & Hsf).
  destruct (datasets_five_bands _ _ Hd) as (b0 & b1 & b2 & b3 & b4 & Hbands).
  unfold run, App.calc_index, bind, lift, emit, ret.
  rewrite Hc, Hd. cbn [rbind]. rewrite Hbands. cbn [list_get nth_error].
  rewrite Hformula. cbn [app].
  set (image_ := if clip_ then _ else _).
  assert (Himage : ok_or_service_failure image_ = true).
  { subst image_. destruct clip_; repeat apply ok_or_service_failure_ee_map; exact Hsf. }
  set (index := rbind (rbind image_ _) _).
  assert (Hindex : ok_or_service_failure index = true).
  { subst index. apply ok_or_service_failure_rbind;
      [|intros im; apply ok_or_service_failure_rename].
    apply ok_or_service_failure_rbind; [exact Himage|]. intros im.
    apply ok_or_service_failure_expression. intros [k o].
    destruct o as [x|q]; [|now left].
    destruct (ok_or_service_failure (operand_raster (OImage x))) eqn:Hx; [now left|].
    right. intros Hin. cbn [In] in Hin.
    repeat (destruct Hin as [Hin|Hin];
            [injection Hin as <- <-;
             rewrite ok_or_service_failure_operand in Hx;
             [discriminate
             |apply ok_or_service_failure_rbind;
              [exact Himage | intros; apply ok_or_service_failure_select]]|]).
    destruct Hin as [Hin|[]]. discriminate Hin.
  }
  unfold getInfo, ee_map. destruct index as [im|e]; cbn [rbind fst snd]; auto.
Qed.

Lemma calc_index_registered_witness :
  snd (run (App.calc_index Fixture.sv "MODIS" "EVI" 2020 (Point 1 1) true))
  = [GetInfo "MODIS" "EVI" 2020 (Point 1 1) true] /\
  ok_or_service_failure
    (fst (run (App.calc_index Fixture.sv "MODIS" "EVI" 2020 (Point 1 1) true))) = true.
Proof.
  apply (calc_index_registered Fixture.sv "MODIS" "EVI" 2020 (Point 1 1) true);
    reflexivity.
Defined.

(** X15. With a name that is not in its registry [calc_index] raises
    [KeyError] for that name, the dataset's first, before any request is
    made. *)
Theorem calc_index_unknown_name (sv : service) (satellite index_name : string) (year : Z)
    (g : region) (clip_ : bool) :
  registered datasets satellite = false \/ registered indexes index_name = false ->
  run (App.calc_index sv satellite index_name year g clip_)
  = (Raise (KeyError (if registered datasets satellite then index_name else satellite)),
     []).
Proof.
  intros H. unfold run, App.calc_index, bind, lift.
  destruct (registered datasets satellite) eqn:Hs.
  - destruct H as [H|Hi]; [discriminate|].
    destruct (registered_dict_get _ _ Hs) as (d & Hd).
    destruct (get_filtered_images_registered sv satellite year g d Hd) as (c & Hc & _).
    destruct (datasets_five_bands _ _ Hd) as (b0 & b1 & b2 & b3 & b4 & Hbands).
    rewrite Hc, Hd. cbn [rbind]. rewrite Hbands. cbn [list_get nth_error].
    rewrite (unregistered_dict_get _ _ Hi). reflexivity.
  - unfold App.get_filtered_images. rewrite (unregistered_dict_get _ _ Hs). reflexivity.
Qed.

Lemma calc_index_unknown_name_witness :
  run (App.calc_index Fixture.sv "Landsat-8" "NDMI" 2020 (Point 1 1) false)
  = (Raise (KeyError "NDMI"), []).
Proof.
  apply (calc_index_unknown_name Fixture.sv "Landsat-8" "NDMI" 2020 (Point 1 1) false).
  right. reflexivity.
Defined.

(** X16. For a dataset of the registry [add_rgb_layer_to_map] fails in no
    lookup and calls [Map.addLayer] with the median composite of the year
    (clipped exactly when [clip] is true), the first three bands of the
    dataset, [min] 0, [max] 1000 times the brightness and the gamma.  It
    returns normally, having then centred the map on the region, exactly when
    the composite is well described and has these three bands; otherwise the
    request of [addLayer] raises the service's exception and the map is not
    centred, as for a year without a scene. *)
Theorem add_rgb_layer_to_map_registered (sv : service) (satellite : string) (year : Z)
    (g : region) (brightness : Z) (clip_ : option bool) (gamma : Q) (d : dataset) :
  dict_get datasets satellite = Ok d ->
  exists im,
    composite sv satellite year g (truthy clip_) = Ok im /\
    let layer :=
      MapAddLayer im
        {| vis_bands := firstn 3 (bands d); vis_min := 0; vis_max := brightness * 1000;
           vis_gamma := Some gamma; vis_palette := [] |}
        (satellite +:+ " " +:+ pretty year +:+ " RGB") in
    let r := run (App.add_rgb_layer_to_map sv satellite year g brightness clip_ gamma) in
    match im with
    | Ok comp =>
        if forallb (bound (rasters comp)) (firstn 3 (bands d))
        then r = (Ok tt, [layer; MapCenterObject g 10])
        else exists msg, r = (Raise (EEException msg), [layer])
    | Raise e => service_failure e = true /\ r = (Raise e, [layer])
    end.
Proof.
  intros Hd.
  destruct (get_filtered_images_registered sv satellite year g d Hd) as (c & Hc & Hsf).
  destruct (datasets_five_bands _ _ Hd) as (b0 & b1 & b2 & b3 & b4 & Hbands).
  exists (if truthy clip_ then ee_map (clip sv g) (ee_map median c) else ee_map median c).
  split; [unfold composite; rewrite Hc; reflexivity|].
  assert (Hrun : run (App.add_rgb_layer_to_map sv satellite year g brightness clip_ gamma)
                 = run (addLayer
                          (if truthy clip_ then ee_map (clip sv g) (ee_map median c)
                           else ee_map median c)
                          {| vis_bands := firstn 3 (bands d); vis_min := 0;
                             vis_max := brightness * 1000; vis_gamma := Some gamma;
                             vis_palette := [] |}
                          (satellite +:+ " " +:+ pretty year +:+ " RGB");;
                        centerObject g 10)).
  { unfold run, App.add_rgb_layer_to_map. unfold bind at 1, lift at 1. rewrite Hc.
    unfold bind at 1, lift at 1. cbn [mapM]. rewrite Hd. cbn [rbind]. rewrite Hbands.
    cbn [list_get nth_error rbind firstn]. now destruct clip_ as [[|]|]. }
  cbv zeta. rewrite Hrun. clear Hrun.
  set (im := if truthy clip_ then _ else _).
  assert (Him : ok_or_service_failure im = true).
  { subst im. destruct (truthy clip_); repeat apply ok_or_service_failure_ee_map;
      exact Hsf. }
  unfold run, addLayer, centerObject, bind, emit, lift, getMapId.
  destruct im as [comp|e]; cbn [rbind app vis_bands].
  - destruct (forallb (bound (rasters comp)) (firstn 3 (bands d))); [reflexivity | eauto].
  - split; [exact Him | reflexivity].
Qed.

Lemma add_rgb_layer_to_map_registered_witness :
  exists im,
    composite Fixture.sv "Landsat-8" 2022 (Point 1 1) (truthy (Some true)) = Ok im /\
    let layer :=
      MapAddLayer im
        {| vis_bands := ["SR_B4"; "SR_B3"; "SR_B2"]; vis_min := 0; vis_max := 3 * 1000;
           vis_gamma := Some 1.4%Q; vis_palette := [] |}
        ("Landsat-8" +:+ " " +:+ pretty 2022 +:+ " RGB") in
    let r := run (App.add_rgb_layer_to_map Fixture.sv "Landsat-8" 2022 (Point 1 1) 3
                    (Some true) 1.4%Q) in
    match im with
    | Ok comp =>
        if forallb (bound (rasters comp)) ["SR_B4"; "SR_B3"; "SR_B2"]
        then r = (Ok tt, [layer; MapCenterObject (Point 1 1) 10])
        else exists msg, r = (Raise (EEException msg), [layer])
    | Raise e => service_failure e = true /\ r = (Raise e, [layer])
    end.
Proof.
  apply (add_rgb_layer_to_map_registered Fixture.sv "Landsat-8" 2022 (Point 1 1) 3
           (Some true) 1.4%Q Fixture.landsat8).
  reflexivity.
Defined.

(** ** Selection and masking *)

(** X17. The Sentinel-2 scenes [get_filtered_images] returns are the scenes
    of the collection, as they are, that intersect the region, were acquired
    from January 1 of the year up to, but not on, December 31, and carry both
    a cloud and a snow percentage below 20; a scene without one of the two
    properties is left out. *)
Theorem sentinel2_selection (sv : service) (year : Z) (g : region) :
  exists l,
    App.get_filtered_images sv "Sentinel-2" year g = Ok (Ok l) /\
    forall im,
      In im l <->
      In im (ImageCollection sv "COPERNICUS/S2_SR_HARMONIZED") /\
      intersects sv (footprint im) g = true /\
      millis (jan_01 year) <= time_start im < millis (dec_31 year) /\
      (exists x, assoc (properties im) "CLOUDY_PIXEL_PERCENTAGE" = Some x /\ (x < 20)%Q) /\
      (exists x, assoc (properties im) "SNOW_ICE_PERCENTAGE" = Some x /\ (x < 20)%Q).
Proof.
  eexists. split; [reflexivity|]. intros im.
  cbn [ee_map rbind collection].
  rewrite !filter_lt_In, filterDate_In, filterBounds_In. tauto.
Qed.

Lemma assoc_same_keys {V W : Type} (l1 : list (string * V)) (l2 : list (string * W))
    (k : string) (v : V) :
  map fst l2 = map fst l1 -> assoc l1 k = Some v -> exists w, assoc l2 k = Some w.
Proof.
  revert l2. induction l1 as [|[k1 v1] l1 IH]; intros [|[k2 w2] l2] Hkeys Hv;
    try discriminate.
  cbn [map fst] in Hkeys. injection Hkeys as -> Hkeys. cbn [assoc] in *.
  destruct (String.eqb k1 k); [eauto | exact (IH l2 Hkeys Hv)].
Qed.

(** X18. Masking the clouds only hides pixels, and masking twice is masking
    once: on an image with the quality band of its dataset, a pixel that is
    still valid after [mask_clouds] has the value it had before, and a
    second [mask_clouds] leaves every pixel of every band as the first one
    made it. *)
Theorem mask_clouds_idempotent (name band : string) (bitmask : Z) (d : dataset)
    (im : image) (qa : raster) :
  dict_get datasets name = Ok d ->
  cloud_mask_band d = Some band ->
  cloud_mask_value d = Some bitmask ->
  assoc (rasters im) band = Some qa ->
  exists once twice,
    App.mask_clouds (Ok im) name = Ok (Ok once) /\
    App.mask_clouds (Ok once) name = Ok (Ok twice) /\
    (forall b i q, band_value once b i = Some q -> band_value im b i = Some q) /\
    (forall b i, band_value twice b i = band_value once b i).
Proof.
  intros Hd Hb Hv Hqa.
  destruct (mask_clouds_masks _ _ _ _ _ _ Hd Hb Hv Hqa)
    as (once & Honce & _ & _ & _ & Hkeys & Hp).
  destruct (assoc_same_keys _ (rasters once) _ _ Hkeys Hqa) as (qa1 & Hqa1).
  destruct (mask_clouds_masks _ _ _ _ _ _ Hd Hb Hv Hqa1)
    as (twice & Htwice & _ & _ & _ & _ & Hp2).
  exists once, twice. split; [exact Honce|]. split; [exact Htwice|]. split.
  - intros b i q. rewrite Hp. unfold masked_pixel.
    destruct (qa i) as [x|]; [|discriminate]. now destruct (clear bitmask x).
  - intros b i. rewrite Hp2, Hp.
    assert (Hq : qa1 i = masked_pixel bitmask (qa i) (qa i)).
    { pose proof (Hp band i) as H. unfold band_value in H. now rewrite Hqa1, Hqa in H. }
    rewrite Hq. unfold masked_pixel.
    destruct (qa i) as [x|]; [|reflexivity].
    destruct (clear bitmask x) eqn:Hc; [|reflexivity]. now rewrite Hc.
Qed.

Lemma mask_clouds_idempotent_witness :
  exists once twice,
    App.mask_clouds (Ok Fixture.landsat7_scene) "Landsat-7" = Ok (Ok once) /\
    App.mask_clouds (Ok once) "Landsat-7" = Ok (Ok twice) /\
    (forall b i q, band_value once b i = Some q ->
                   band_value Fixture.landsat7_scene b i = Some q) /\
    (forall b i, band_value twice b i = band_value once b i).
Proof.
  apply (mask_clouds_idempotent "Landsat-7" "QA_PIXEL" 58
           {| collection := "LANDSAT/LE07/C02/T1_L2";
              cloud_mask_band := Some "QA_PIXEL";
              cloud_mask_value := Some 58;
              bands := ["SR_B3"; "SR_B2"; "SR_B1"; "SR_B4"; "SR_B3"];
              year_range := [2000; 2023] |}
           Fixture.landsat7_scene
           (Fixture.of_list [Some 2; Some 0]%Q));
    reflexivity.
Defined.

(** ** The map page with a region and an index *)

Lemma bind_emit {B : Type} (e : event) (k : unit -> ui B) (t : list event) :
  bind (emit e) k t = k tt (t ++ [e])%list.
Proof. reflexivity. Qed.

Lemma bind_ret {A B : Type} (a : A) (k : A -> ui B) (t : list event) :
  bind (ret a) k t = k a t.
Proof. reflexivity. Qed.

Lemma bind_lift_Ok {A B : Type} (a : A) (k : A -> ui B) (t : list event) :
  bind (lift (Ok a)) k t = k a t.
Proof. reflexivity. Qed.

Lemma bind_run_Ok {A B : Type} (m : ui A) (k : A -> ui B) (t t1 : list event) (a : A) :
  framed m -> run m = (Ok a, t1) -> bind m k t = k a (t ++ t1)%list.
Proof. intros Hm Hrun. unfold bind. rewrite (Hm t), Hrun. reflexivity. Qed.

(** The four statistics of the band, under their keys. *)
Lemma band_stats_lookup (sv : service) (g : region) (index_name : string) (r : raster) :
  dict_get (band_stats sv g (index_name, r)) (index_name +:+ "_min")
  = Ok (min_q (region_values sv g r)) /\
  dict_get (band_stats sv g (index_name, r)) (index_name +:+ "_mean")
  = Ok (mean_q (region_values sv g r)) /\
  dict_get (band_stats sv g (index_name, r)) (index_name +:+ "_max")
  = Ok (max_q (region_values sv g r)) /\
  dict_get (band_stats sv g (index_name, r)) (index_name +:+ "_stdDev")
  = Ok (stdDev_q sv (region_values sv g r)).
Proof.
  unfold band_stats. cbn [fst snd dict_get]. rewrite !append_eqb.
  set (vs := region_values sv g r). repeat split; reflexivity.
Qed.

(** An evaluation that succeeds was made on a composite that has the five
    bands of the dataset. *)
Lemma calc_index_Ok_bands (sv : service) (satellite index_name : string) (year : Z)
    (g : region) (clip_ : bool) (x : ee image * list (string * sample)) (d : dataset) :
  fst (run (App.calc_index sv satellite index_name year g clip_)) = Ok x ->
  dict_get datasets satellite = Ok d ->
  exists comp,
    composite sv satellite year g clip_ = Ok (Ok comp) /\
    forallb (bound (rasters comp)) (bands d) = true.
Proof.
  intros H Hd.
  destruct (datasets_five_bands _ _ Hd) as (b0 & b1 & b2 & b3 & b4 & Hbands).
  unfold composite. unfold run, App.calc_index, bind, lift, emit, ret in H.
  destruct (App.get_filtered_images sv satellite year g) as [f|e]; [|discriminate].
  rewrite Hd in H. cbn [rbind] in *. rewrite Hbands in *. cbn [list_get nth_error] in H.
  destruct (dict_get indexes index_name) as [formula|e]; [|discriminate].
  unfold getInfo in H.
  destruct (if clip_ then ee_map (clip sv g) (ee_map median f) else ee_map median f)
    as [comp|e]; [|discriminate].
  exists comp. split; [reflexivity|].
  cbn [rbind ee_map] in H. unfold expression in H.
  destruct (parse formula) as [e|]; [|discriminate].
  cbn [mapM operand_raster rbind fst snd] in H. unfold select in H.
  cbn [forallb]. unfold bound.
  destruct (assoc (rasters comp) b0); [|discriminate].
  destruct (assoc (rasters comp) b1); [|discriminate].
  destruct (assoc (rasters comp) b2); [|discriminate].
  destruct (assoc (rasters comp) b3); [|discriminate].
  destruct (assoc (rasters comp) b4); [|discriminate].
  reflexivity.
Qed.

(** X19. The map page with an uploaded region and the index switched on, when
    the evaluation succeeds and every statistic is a number: the run ends
    normally and shows, in this order, the plot of the shapefile, the RGB
    composite centred on the region, the index layer with the palette from
    the secondary to the main colour, the bar chart and the four lines
    [Min], [Mean], [Max], [Std Dev] of the statistics of the index raster
    over the region, the polygon and the map; the statistics are asked for
    once, after the RGB layer and before the index layer. *)
Theorem app_main_shows_statistics (sv : service) (inp : App.inputs) (z : archive)
    (path : string) (index : ee image) (stats : list (string * sample)) :
  App.uploaded_shp_file inp = Some z ->
  find_shapefile (walk z) = Some path ->
  empty (read_file z path) = false ->
  App.check_index inp = true ->
  fst (run (App.calc_index sv (App.sat inp) (App.index_name inp) (App.selected_year inp)
              (FeatureCollection (read_file z path)) (App.clip_toggle inp)))
  = Ok (index, stats) ->
  forallb (fun kv => defined (snd kv)) stats = true ->
  exists d rgb im r,
    dict_get datasets (App.sat inp) = Ok d /\
    composite sv (App.sat inp) (App.selected_year inp)
      (FeatureCollection (read_file z path)) (App.clip_toggle inp) = Ok rgb /\
    index = Ok im /\ rasters im = [(App.index_name inp, r)] /\
    let g := FeatureCollection (read_file z path) in
    let vs := region_values sv g r in
    run (App.main sv inp)
    = (Ok tt,
       [StImage "Geopandas Plot";
        MapCenterObject g 10;
        MapAddLayer rgb
          {| vis_bands := firstn 3 (bands d); vis_min := 0;
             vis_max := App.brightness inp * 1000; vis_gamma := Some (App.gamma inp);
             vis_palette := [] |}
          (App.sat inp +:+ " " +:+ pretty (App.selected_year inp) +:+ " RGB");
        MapCenterObject g 10;
        GetInfo (App.sat inp) (App.index_name inp) (App.selected_year inp) g
                (App.clip_toggle inp);
        MapAddLayer index
          {| vis_bands := []; vis_min := -1; vis_max := 1; vis_gamma := None;
             vis_palette := [App.secondary_color inp; App.mid_color inp;
                             App.main_color inp] |}
          (App.index_name inp +:+ "," +:+ App.sat inp +:+ " "
             +:+ pretty (App.selected_year inp));
        StPyplot (BarChart (App.index_name inp +:+ " Statistics")
                    ["Min"; "Mean"; "Max"; "Std Dev"]
                    [min_q vs; mean_q vs; max_q vs; stdDev_q sv vs]);
        StSubheader (App.index_name inp +:+ " Statistics");
        StWrite "Min:" (min_q vs);
        StWrite "Mean:" (mean_q vs);
        StWrite "Max:" (max_q vs);
        StWrite "Std Dev:" (stdDev_q sv vs);
        MapAddGdf (read_file z path) "polygon";
        MapToStreamlit 600]).
Proof.
  intros Hup Hpath Hempty Hcheck Hcalc Hnum.
  set (g := FeatureCollection (read_file z path)) in *.
  destruct (calc_index_Ok_inv _ _ _ _ _ _ _ _ Hcalc) as (Htrace & im & r & -> & Him & ->).
  assert (Hd : exists d, dict_get datasets (App.sat inp) = Ok d).
  { destruct (dict_get datasets (App.sat inp)) as [d|e] eqn:Hd; [eauto|].
    unfold run, App.calc_index, bind, lift, App.get_filtered_images in Hcalc.
    rewrite Hd in Hcalc. discriminate. }
  destruct Hd as (d & Hd).
  destruct (calc_index_Ok_bands _ _ _ _ _ _ _ _ Hcalc Hd) as (comp & Hcomp & Hb).
  destruct (datasets_five_bands _ _ Hd) as (b0 & b1 & b2 & b3 & b4 & Hbands).
  assert (Hrgb : run (App.add_rgb_layer_to_map sv (App.sat inp) (App.selected_year inp) g
                        (App.brightness inp) (Some (App.clip_toggle inp)) (App.gamma inp))
                 = (Ok tt,
                    [MapAddLayer (Ok comp)
                       {| vis_bands := [b0; b1; b2]; vis_min := 0;
                          vis_max := App.brightness inp * 1000;
                          vis_gamma := Some (App.gamma inp); vis_palette := [] |}
                       (App.sat inp +:+ " " +:+ pretty (App.selected_year inp) +:+ " RGB");
                     MapCenterObject g 10])).
  { unfold composite in Hcomp.
    unfold run, App.add_rgb_layer_to_map, addLayer, centerObject, getMapId, bind, lift, emit.
    destruct (App.get_filtered_images sv (App.sat inp) (App.selected_year inp) g)
      as [f|e]; [|discriminate].
    cbn [rbind mapM] in *. rewrite Hd. cbn [rbind]. rewrite Hbands in *.
    cbn [list_get nth_error rbind app]. injection Hcomp as Hcomp.
    assert (Hlayer : match Some (App.clip_toggle inp) with
                     | Some true => ee_map (clip sv g) (ee_map median f)
                     | _ => ee_map median f
                     end = Ok comp)
      by (rewrite <- Hcomp; now destruct (App.clip_toggle inp)).
    rewrite Hlayer. cbn [rbind vis_bands forallb] in *.
    apply andb_prop in Hb as [H0 Hb]. apply andb_prop in Hb as [H1 Hb].
    apply andb_prop in Hb as [H2 _]. rewrite H0, H1, H2. reflexivity. }
  exists d, (Ok comp), im, r.
  split; [exact Hd|]. split; [exact Hcomp|].
  split; [reflexivity|]. split; [exact Him|].
  intros g' vs. subst g'.
  destruct (band_stats_lookup sv g (App.index_name inp) r) as (Hmin & Hmean & Hmax & Hstd).
  fold vs in Hmin, Hmean, Hmax, Hstd.
  assert (Hbar : forallb is_number [min_q vs; mean_q vs; max_q vs; stdDev_q sv vs] = true).
  { unfold band_stats in Hnum. cbn [forallb snd] in Hnum. fold vs in Hnum.
    change defined with is_number in Hnum. cbn [forallb].
    repeat (apply andb_prop in Hnum as [? Hnum]). now repeat (apply andb_true_intro; split). }
  unfold run, App.main.
  rewrite (bind_run_Ok (upload true (App.uploaded_shp_file inp)) _ []
             [StImage "Geopandas Plot"] (Some g, Some (read_file z path)))
    by (try apply framed_upload;
        unfold run; rewrite upload_cases, Hup, Hpath; cbv zeta; now rewrite Hempty).
  cbn [fst snd app].
  assert (Hskip : (match coordinates (App.long inp) (App.lat inp), Some g with
                   | Some c0, None =>
                       centerObject c0 10;;
                       App.add_rgb_layer_to_map sv (App.sat inp) (App.selected_year inp) c0
                         (App.brightness inp) None (App.gamma inp)
                   | _, _ => ret tt
                   end) = ret tt)
    by now destruct (coordinates (App.long inp) (App.lat inp)).
  rewrite Hskip, bind_ret, Hcheck. unfold centerObject.
  rewrite ?bind_assoc, bind_emit. cbn [app].
  rewrite ?bind_assoc.
  rewrite (bind_run_Ok _ _ _ _ tt (framed_add_rgb_layer_to_map _ _ _ _ _ _ _) Hrgb).
  cbn [app]. rewrite ?bind_assoc.
  assert (Hindex : run (App.calc_index sv (App.sat inp) (App.index_name inp)
                          (App.selected_year inp) g (App.clip_toggle inp))
                   = (Ok (Ok im, band_stats sv g (App.index_name inp, r)),
                      [GetInfo (App.sat inp) (App.index_name inp) (App.selected_year inp) g
                         (App.clip_toggle inp)]))
    by (apply injective_projections; [exact Hcalc | exact Htrace]).
  rewrite (bind_run_Ok _ _ _ _ _ (framed_calc_index _ _ _ _ _ _) Hindex).
  cbn [app fst snd]. unfold addLayer, getMapId. cbn [rbind vis_bands forallb].
  rewrite ?bind_assoc, bind_emit, ?bind_assoc, bind_lift_Ok. cbn [app mapM].
  rewrite Hmin, Hmean, Hmax, Hstd. cbn [rbind].
  rewrite ?bind_assoc, bind_lift_Ok. unfold bar. rewrite Hbar.
  repeat (rewrite ?bind_assoc, ?bind_emit, ?bind_lift_Ok; cbn [app]).
  unfold local. rewrite ?bind_assoc, bind_lift_Ok, ?bind_assoc, bind_emit.
  unfold emit. cbn [app firstn]. rewrite Hbands. reflexivity.
Qed.

Lemma app_main_shows_statistics_witness :
  exists d rgb im r,
    dict_get datasets "Landsat-8" = Ok d /\
    composite Fixture.sv "Landsat-8" 2020
      (FeatureCollection (read_file Fixture.area_shp "/tmp/x/area.shp")) false = Ok rgb /\
    rasters im = [("NDVI", r)] /\
    let g := FeatureCollection (read_file Fixture.area_shp "/tmp/x/area.shp") in
    let vs := region_values Fixture.sv g r in
    run (App.main Fixture.sv (Fixture.app_inputs 10 20 (Some Fixture.area_shp)))
    = (Ok tt,
       [StImage "Geopandas Plot";
        MapCenterObject g 10;
        MapAddLayer rgb
          {| vis_bands := firstn 3 (bands d); vis_min := 0; vis_max := 3 * 1000;
             vis_gamma := Some 1.4%Q; vis_palette := [] |}
          ("Landsat-8" +:+ " " +:+ pretty 2020 +:+ " RGB");
        MapCenterObject g 10;
        GetInfo "Landsat-8" "NDVI" 2020 g false;
        MapAddLayer (Ok im)
          {| vis_bands := []; vis_min := -1; vis_max := 1; vis_gamma := None;
             vis_palette := ["#ff0000"; "#ffff00"; "#00ff00"] |}
          ("NDVI" +:+ "," +:+ "Landsat-8" +:+ " " +:+ pretty 2020);
        StPyplot (BarChart ("NDVI" +:+ " Statistics")
                    ["Min"; "Mean"; "Max"; "Std Dev"]
                    [min_q vs; mean_q vs; max_q vs; stdDev_q Fixture.sv vs]);
        StSubheader ("NDVI" +:+ " Statistics");
        StWrite "Min:" (min_q vs);
        StWrite "Mean:" (mean_q vs);
        StWrite "Max:" (max_q vs);
        StWrite "Std Dev:" (stdDev_q Fixture.sv vs);
        MapAddGdf (read_file Fixture.area_shp "/tmp/x/area.shp") "polygon";
        MapToStreamlit 600]).
Proof.
  destruct (app_main_shows_statistics Fixture.sv
              (Fixture.app_inputs 10 20 (Some Fixture.area_shp)) Fixture.area_shp
              "/tmp/x/area.shp" _ _ eq_refl eq_refl eq_refl eq_refl eq_refl eq_refl)
    as (d & rgb & im & r & Hd & Hrgb & Him & Hr & Hrun).
  exists d, rgb, im, r.
  split; [exact Hd|]. split; [exact Hrgb|]. split; [exact Hr|].
  rewrite <- Him. exact Hrun.
Defined.

(** ** The clip toggle and the statistics *)

Lemma omap_ext_In {A B : Type} (f f' : A -> option B) (l : list A) :
  (forall x, In x l -> f x = f' x) -> omap f l = omap f' l.
Proof.
  induction l as [|x l IH]; intros H; [reflexivity|].
  cbn [omap list_omap]. rewrite (H x) by now left.
  rewrite IH by (intros y Hy; apply H; now right). reflexivity.
Qed.

(** Inside the region a clipped raster is the raster. *)
Lemma clip_inside (sv : service) (g : region) (r : raster) (i : nat) :
  In i (cells sv g) ->
  (if existsb (Nat.eqb i) (cells sv g) then r i else None) = r i.
Proof.
  intros Hin.
  assert (H : existsb (Nat.eqb i) (cells sv g) = true)
    by (apply existsb_exists; exists i; split; [exact Hin | apply Nat.eqb_refl]).
  now rewrite H.
Qed.

Lemma forallb_pointwise {A : Type} (p q : A -> bool) (l : list A) :
  (forall x, p x = q x) -> forallb p l = forallb q l.
Proof.
  intros H. induction l as [|x l IH]; [reflexivity|].
  cbn [forallb]. now rewrite H, IH.
Qed.

Lemma select_clip (sv : service) (g : region) (b : string) (comp : image) :
  select b (clip sv g comp)
  = match assoc (rasters comp) b with
    | Some r =>
        Ok (set_rasters comp
              [(b, fun i => if existsb (Nat.eqb i) (cells sv g) then r i else None)])
    | None => Raise (EEException "Image.select: pattern did not match any bands")
    end.
Proof.
  unfold select, clip, map_bands, set_rasters. cbn [rasters footprint time_start properties].
  rewrite (assoc_map_bands
             (fun r i => if existsb (Nat.eqb i) (cells sv g) then r i else None)).
  now destruct (assoc (rasters comp) b).
Qed.

(** X20. The clip toggle does not change the numbers: with the region's
    statistics taken over the cells of the region and clipping hiding the
    cells outside it, [calc_index] returns the same statistics, or fails
    with the same exception, with [clip] true as with [clip] false. *)
Theorem statistics_do_not_depend_on_clip (sv : service) (satellite index_name : string)
    (year : Z) (g : region) :
  result_map snd (fst (run (App.calc_index sv satellite index_name year g true)))
  = result_map snd (fst (run (App.calc_index sv satellite index_name year g false))).
Proof.
  unfold run, App.calc_index, bind, lift, emit, ret.
  destruct (App.get_filtered_images sv satellite year g) as [f|e]; [|reflexivity].
  destruct (dict_get datasets satellite) as [d|e]; [|reflexivity].
  cbn [rbind].
  destruct (list_get (bands d) 0) as [b0|e]; [|reflexivity].
  destruct (list_get (bands d) 1) as [b1|e]; [|reflexivity].
  destruct (list_get (bands d) 2) as [b2|e]; [|reflexivity].
  destruct (list_get (bands d) 3) as [b3|e]; [|reflexivity].
  destruct (list_get (bands d) 4) as [b4|e]; [|reflexivity].
  destruct (dict_get indexes index_name) as [formula|e]; [|reflexivity].
  cbn [app]. unfold getInfo.
  destruct (ee_map median f) as [comp|e]; [|reflexivity].
  cbn [ee_map rbind]. unfold expression.
  destruct (parse formula) as [e|]; [|reflexivity].
  cbn [mapM operand_raster rbind fst snd]. rewrite !select_clip. unfold select.
  destruct (assoc (rasters comp) b0) as [r0|]; [|reflexivity].
  destruct (assoc (rasters comp) b1) as [r1|]; [|reflexivity].
  destruct (assoc (rasters comp) b2) as [r2|]; [|reflexivity].
  destruct (assoc (rasters comp) b3) as [r3|]; [|reflexivity].
  destruct (assoc (rasters comp) b4) as [r4|]; [|reflexivity].
  unfold set_rasters. cbn [rbind rasters].
  match goal with
  | |- context [forallb (bound ?l) (vars e)] => set (renv_c := l)
  end.
  match goal with
  | |- context [forallb (bound ?l) (vars e)] =>
      lazymatch l with renv_c => fail | _ => set (renv := l) end
  end.
  assert (Hbound : forall x, bound renv_c x = bound renv x).
  { intros x. unfold bound, renv_c, renv. cbn [assoc].
    repeat match goal with |- context [String.eqb ?a x] => destruct (String.eqb a x) end;
      reflexivity. }
  assert (Henv : forall i x, In i (cells sv g) -> pixel_env renv_c i x = pixel_env renv i x).
  { intros i x Hi. unfold pixel_env, renv_c, renv. cbn [assoc].
    repeat match goal with |- context [String.eqb ?a x] => destruct (String.eqb a x) end;
      try reflexivity; apply clip_inside, Hi. }
  rewrite (forallb_pointwise _ _ (vars e) Hbound).
  destruct (forallb (bound renv) (vars e)); [|reflexivity].
  cbn [rbind]. unfold rename, reduceRegion, set_rasters, ee_map, band_stats, region_values.
  cbn [rasters rbind flat_map app fst snd result_map].
  rewrite (omap_ext_In (fun i => eval sv (pixel_env renv_c i) e)
             (fun i => eval sv (pixel_env renv i) e) (cells sv g)); [reflexivity|].
  intros i Hi. apply eval_ext. intros x _. apply Henv, Hi.
Qed.
